(** * Function-boundary detection and Markdown rendering

    A shallow embedding of two modules of the repository:

    - [src/JavaChecker.py]: the line classifier [is_java_method_start];
    - [src/pygments/formatters/markdown.py]: the token-stream signature
      scanner [_is_function_definition], the discovery pre-pass and the
      rendering loop of [MarkdownFormatter.format_unencoded], together with
      [_write_line] and [_get_markdown_style].

    A Python [str] is a sequence of Unicode code points, and is modelled as
    such: a character is a code point, a [string] a list of characters,
    and a string literal is read as UTF-8.  The classes and mappings of
    characters that the code consults ([str.isspace], [str.isidentifier],
    [str.lower] and the classes [\w] and [\s] of [re]) are those of the
    Unicode database of CPython 3.11, Unicode 14.0.  Python lists are [list] and indices are natural
    numbers; an index read [tokens[i]] is a partial lookup that raises
    [IndexError] out of range; every [while] loop takes a fuel argument
    and yields [OutOfFuel] when it is exhausted.  What [outfile.write]
    receives is kept as a list of chunks, each tagged with its role, from
    which the text written is recovered by [output_text].  *)

From Stdlib Require Import List Arith NArith ZArith Bool Lia.
From Stdlib Require Import Strings.Byte DecimalString Sorted.
Import ListNotations.

(** ** Characters and strings *)

(** A character is a Unicode code point. *)
Definition char : Set := N.

Inductive string : Set :=
| EmptyString
| String (c : char) (s : string).

Fixpoint append (s1 s2 : string) : string :=
  match s1 with
  | EmptyString => s2
  | String c s1' => String c (append s1' s2)
  end.

Module String.

Fixpoint length (s : string) : nat :=
  match s with
  | EmptyString => 0
  | String _ s' => S (length s')
  end.

Fixpoint eqb (s1 s2 : string) : bool :=
  match s1, s2 with
  | EmptyString, EmptyString => true
  | String c1 s1', String c2 s2' => N.eqb c1 c2 && eqb s1' s2'
  | _, _ => false
  end.

(** [prefix p s]: [s] begins with [p]. *)
Fixpoint prefix (p s : string) : bool :=
  match p, s with
  | EmptyString, _ => true
  | String a p', String b s' => N.eqb a b && prefix p' s'
  | String _ _, EmptyString => false
  end.

(** [sep.join(l)] *)
Fixpoint concat (sep : string) (l : list string) : string :=
  match l with
  | [] => EmptyString
  | [x] => x
  | x :: l' => append x (append sep (concat sep l'))
  end.

End String.

(** The UTF-8 reading of string literals. *)
Module Utf8.

Definition continuation (b : N) : bool := (128 <=? b)%N && (b <? 192)%N.

Fixpoint decode (l : list N) : option string :=
  match l with
  | [] => Some EmptyString
  | b0 :: l1 =>
      if (b0 <? 128)%N then option_map (String b0) (decode l1)
      else if (194 <=? b0)%N && (b0 <? 224)%N then
        match l1 with
        | b1 :: l2 =>
            if continuation b1
            then option_map (String ((b0 - 192) * 64 + (b1 - 128))%N) (decode l2)
            else None
        | _ => None
        end
      else if (224 <=? b0)%N && (b0 <? 240)%N then
        match l1 with
        | b1 :: b2 :: l3 =>
            if continuation b1 && continuation b2
            then option_map
                   (String ((b0 - 224) * 4096 + (b1 - 128) * 64 + (b2 - 128))%N)
                   (decode l3)
            else None
        | _ => None
        end
      else if (240 <=? b0)%N && (b0 <? 245)%N then
        match l1 with
        | b1 :: b2 :: b3 :: l4 =>
            if continuation b1 && continuation b2 && continuation b3
            then option_map
                   (String ((b0 - 240) * 262144 + (b1 - 128) * 4096
                            + (b2 - 128) * 64 + (b3 - 128))%N)
                   (decode l4)
            else None
        | _ => None
        end
      else None
  end.

Definition encode_char (c : char) : list N :=
  (if c <? 128 then [c]
   else if c <? 2048 then [192 + c / 64; 128 + c mod 64]
   else if c <? 65536 then [224 + c / 4096; 128 + (c / 64) mod 64; 128 + c mod 64]
   else [240 + c / 262144; 128 + (c / 4096) mod 64; 128 + (c / 64) mod 64;
         128 + c mod 64])%N.

Fixpoint encode (s : string) : list N :=
  match s with
  | EmptyString => []
  | String c s' => encode_char c ++ encode s'
  end.

Definition of_bytes (l : list Byte.byte) : option string :=
  decode (map Byte.to_N l).

Fixpoint bytes_of (l : list N) : option (list Byte.byte) :=
  match l with
  | [] => Some []
  | n :: l' =>
      match Byte.of_N n, bytes_of l' with
      | Some b, Some bs => Some (b :: bs)
      | _, _ => None
      end
  end.

Definition to_bytes (s : string) : option (list Byte.byte) :=
  bytes_of (encode s).

End Utf8.

Declare Scope str_scope.
Delimit Scope str_scope with str.
Bind Scope str_scope with string.
String Notation string Utf8.of_bytes Utf8.to_bytes : str_scope.
Infix "++" := append (right associativity, at level 60) : str_scope.
Infix "=?" := String.eqb (at level 70) : str_scope.

Open Scope str_scope.
Open Scope list_scope.
Open Scope nat_scope.

(** The character of a literal of one character. *)
Definition ch (s : string) : char :=
  match s with
  | String c _ => c
  | EmptyString => 0%N
  end.

(** ** The Unicode database

    The tables of Unicode 14.0, as CPython 3.11 holds them; each is a list
    of ranges of code points, both ends included. *)

Module Unicode.

Fixpoint in_ranges (c : char) (l : list (N * N)) : bool :=
  match l with
  | [] => false
  | (lo, hi) :: l' => ((lo <=? c)%N && (c <=? hi)%N) || in_ranges c l'
  end.

(** The white space of [str.isspace], [str.strip], [str.split] and of the
    class [\s]: the characters of bidirectional type WS, B or S and of
    category Zs. *)
Definition space_ranges : list (N * N) :=
  [(9, 13); (28, 32); (133, 133); (160, 160); (5760, 5760); (8192, 8202);
   (8232, 8233); (8239, 8239); (8287, 8287); (12288, 12288)]%N.

(** The code points [c] with [chr(c).isalnum()]: the letters and the
    decimal digits, digits and numeric characters. *)
Definition alnum_ranges : list (N * N) :=
  [(48, 57); (65, 90); (97, 122); (170, 170); (178, 179); (181, 181);
   (185, 186); (188, 190); (192, 214); (216, 246); (248, 705); (710, 721);
   (736, 740); (748, 748); (750, 750); (880, 884); (886, 887); (890, 893);
   (895, 895); (902, 902); (904, 906); (908, 908); (910, 929); (931, 1013);
   (1015, 1153); (1162, 1327); (1329, 1366); (1369, 1369); (1376, 1416);
   (1488, 1514); (1519, 1522); (1568, 1610); (1632, 1641); (1646, 1647);
   (1649, 1747); (1749, 1749); (1765, 1766); (1774, 1788); (1791, 1791);
   (1808, 1808); (1810, 1839); (1869, 1957); (1969, 1969); (1984, 2026);
   (2036, 2037); (2042, 2042); (2048, 2069); (2074, 2074); (2084, 2084);
   (2088, 2088); (2112, 2136); (2144, 2154); (2160, 2183); (2185, 2190);
   (2208, 2249); (2308, 2361); (2365, 2365); (2384, 2384); (2392, 2401);
   (2406, 2415); (2417, 2432); (2437, 2444); (2447, 2448); (2451, 2472);
   (2474, 2480); (2482, 2482); (2486, 2489); (2493, 2493); (2510, 2510);
   (2524, 2525); (2527, 2529); (2534, 2545); (2548, 2553); (2556, 2556);
   (2565, 2570); (2575, 2576); (2579, 2600); (2602, 2608); (2610, 2611);
   (2613, 2614); (2616, 2617); (2649, 2652); (2654, 2654); (2662, 2671);
   (2674, 2676); (2693, 2701); (2703, 2705); (2707, 2728); (2730, 2736);
   (2738, 2739); (2741, 2745); (2749, 2749); (2768, 2768); (2784, 2785);
   (2790, 2799); (2809, 2809); (2821, 2828); (2831, 2832); (2835, 2856);
   (2858, 2864); (2866, 2867); (2869, 2873); (2877, 2877); (2908, 2909);
   (2911, 2913); (2918, 2927); (2929, 2935); (2947, 2947); (2949, 2954);
   (2958, 2960); (2962, 2965); (2969, 2970); (2972, 2972); (2974, 2975);
   (2979, 2980); (2984, 2986); (2990, 3001); (3024, 3024); (3046, 3058);
   (3077, 3084); (3086, 3088); (3090, 3112); (3114, 3129); (3133, 3133);
   (3160, 3162); (3165, 3165); (3168, 3169); (3174, 3183); (3192, 3198);
   (3200, 3200); (3205, 3212); (3214, 3216); (3218, 3240); (3242, 3251);
   (3253, 3257); (3261, 3261); (3293, 3294); (3296, 3297); (3302, 3311);
   (3313, 3314); (3332, 3340); (3342, 3344); (3346, 3386); (3389, 3389);
   (3406, 3406); (3412, 3414); (3416, 3425); (3430, 3448); (3450, 3455);
   (3461, 3478); (3482, 3505); (3507, 3515); (3517, 3517); (3520, 3526);
   (3558, 3567); (3585, 3632); (3634, 3635); (3648, 3654); (3664, 3673);
   (3713, 3714); (3716, 3716); (3718, 3722); (3724, 3747); (3749, 3749);
   (3751, 3760); (3762, 3763); (3773, 3773); (3776, 3780); (3782, 3782);
   (3792, 3801); (3804, 3807); (3840, 3840); (3872, 3891); (3904, 3911);
   (3913, 3948); (3976, 3980); (4096, 4138); (4159, 4169); (4176, 4181);
   (4186, 4189); (4193, 4193); (4197, 4198); (4206, 4208); (4213, 4225);
   (4238, 4238); (4240, 4249); (4256, 4293); (4295, 4295); (4301, 4301);
   (4304, 4346); (4348, 4680); (4682, 4685); (4688, 4694); (4696, 4696);
   (4698, 4701); (4704, 4744); (4746, 4749); (4752, 4784); (4786, 4789);
   (4792, 4798); (4800, 4800); (4802, 4805); (4808, 4822); (4824, 4880);
   (4882, 4885); (4888, 4954); (4969, 4988); (4992, 5007); (5024, 5109);
   (5112, 5117); (5121, 5740); (5743, 5759); (5761, 5786); (5792, 5866);
   (5870, 5880); (5888, 5905); (5919, 5937); (5952, 5969); (5984, 5996);
   (5998, 6000); (6016, 6067); (6103, 6103); (6108, 6108); (6112, 6121);
   (6128, 6137); (6160, 6169); (6176, 6264); (6272, 6276); (6279, 6312);
   (6314, 6314); (6320, 6389); (6400, 6430); (6470, 6509); (6512, 6516);
   (6528, 6571); (6576, 6601); (6608, 6618); (6656, 6678); (6688, 6740);
   (6784, 6793); (6800, 6809); (6823, 6823); (6917, 6963); (6981, 6988);
   (6992, 7001); (7043, 7072); (7086, 7141); (7168, 7203); (7232, 7241);
   (7245, 7293); (7296, 7304); (7312, 7354); (7357, 7359); (7401, 7404);
   (7406, 7411); (7413, 7414); (7418, 7418); (7424, 7615); (7680, 7957);
   (7960, 7965); (7968, 8005); (8008, 8013); (8016, 8023); (8025, 8025);
   (8027, 8027); (8029, 8029); (8031, 8061); (8064, 8116); (8118, 8124);
   (8126, 8126); (8130, 8132); (8134, 8140); (8144, 8147); (8150, 8155);
   (8160, 8172); (8178, 8180); (8182, 8188); (8304, 8305); (8308, 8313);
   (8319, 8329); (8336, 8348); (8450, 8450); (8455, 8455); (8458, 8467);
   (8469, 8469); (8473, 8477); (8484, 8484); (8486, 8486); (8488, 8488);
   (8490, 8493); (8495, 8505); (8508, 8511); (8517, 8521); (8526, 8526);
   (8528, 8585); (9312, 9371); (9450, 9471); (10102, 10131); (11264, 11492);
   (11499, 11502); (11506, 11507); (11517, 11517); (11520, 11557);
   (11559, 11559); (11565, 11565); (11568, 11623); (11631, 11631);
   (11648, 11670); (11680, 11686); (11688, 11694); (11696, 11702);
   (11704, 11710); (11712, 11718); (11720, 11726); (11728, 11734);
   (11736, 11742); (11823, 11823); (12293, 12295); (12321, 12329);
   (12337, 12341); (12344, 12348); (12353, 12438); (12445, 12447);
   (12449, 12538); (12540, 12543); (12549, 12591); (12593, 12686);
   (12690, 12693); (12704, 12735); (12784, 12799); (12832, 12841);
   (12872, 12879); (12881, 12895); (12928, 12937); (12977, 12991);
   (13312, 19903); (19968, 42124); (42192, 42237); (42240, 42508);
   (42512, 42539); (42560, 42606); (42623, 42653); (42656, 42735);
   (42775, 42783); (42786, 42888); (42891, 42954); (42960, 42961);
   (42963, 42963); (42965, 42969); (42994, 43009); (43011, 43013);
   (43015, 43018); (43020, 43042); (43056, 43061); (43072, 43123);
   (43138, 43187); (43216, 43225); (43250, 43255); (43259, 43259);
   (43261, 43262); (43264, 43301); (43312, 43334); (43360, 43388);
   (43396, 43442); (43471, 43481); (43488, 43492); (43494, 43518);
   (43520, 43560); (43584, 43586); (43588, 43595); (43600, 43609);
   (43616, 43638); (43642, 43642); (43646, 43695); (43697, 43697);
   (43701, 43702); (43705, 43709); (43712, 43712); (43714, 43714);
   (43739, 43741); (43744, 43754); (43762, 43764); (43777, 43782);
   (43785, 43790); (43793, 43798); (43808, 43814); (43816, 43822);
   (43824, 43866); (43868, 43881); (43888, 44002); (44016, 44025);
   (44032, 55203); (55216, 55238); (55243, 55291); (63744, 64109);
   (64112, 64217); (64256, 64262); (64275, 64279); (64285, 64285);
   (64287, 64296); (64298, 64310); (64312, 64316); (64318, 64318);
   (64320, 64321); (64323, 64324); (64326, 64433); (64467, 64829);
   (64848, 64911); (64914, 64967); (65008, 65019); (65136, 65140);
   (65142, 65276); (65296, 65305); (65313, 65338); (65345, 65370);
   (65382, 65470); (65474, 65479); (65482, 65487); (65490, 65495);
   (65498, 65500); (65536, 65547); (65549, 65574); (65576, 65594);
   (65596, 65597); (65599, 65613); (65616, 65629); (65664, 65786);
   (65799, 65843); (65856, 65912); (65930, 65931); (66176, 66204);
   (66208, 66256); (66273, 66299); (66304, 66339); (66349, 66378);
   (66384, 66421); (66432, 66461); (66464, 66499); (66504, 66511);
   (66513, 66517); (66560, 66717); (66720, 66729); (66736, 66771);
   (66776, 66811); (66816, 66855); (66864, 66915); (66928, 66938);
   (66940, 66954); (66956, 66962); (66964, 66965); (66967, 66977);
   (66979, 66993); (66995, 67001); (67003, 67004); (67072, 67382);
   (67392, 67413); (67424, 67431); (67456, 67461); (67463, 67504);
   (67506, 67514); (67584, 67589); (67592, 67592); (67594, 67637);
   (67639, 67640); (67644, 67644); (67647, 67669); (67672, 67702);
   (67705, 67742); (67751, 67759); (67808, 67826); (67828, 67829);
   (67835, 67867); (67872, 67897); (67968, 68023); (68028, 68047);
   (68050, 68096); (68112, 68115); (68117, 68119); (68121, 68149);
   (68160, 68168); (68192, 68222); (68224, 68255); (68288, 68295);
   (68297, 68324); (68331, 68335); (68352, 68405); (68416, 68437);
   (68440, 68466); (68472, 68497); (68521, 68527); (68608, 68680);
   (68736, 68786); (68800, 68850); (68858, 68899); (68912, 68921);
   (69216, 69246); (69248, 69289); (69296, 69297); (69376, 69415);
   (69424, 69445); (69457, 69460); (69488, 69505); (69552, 69579);
   (69600, 69622); (69635, 69687); (69714, 69743); (69745, 69746);
   (69749, 69749); (69763, 69807); (69840, 69864); (69872, 69881);
   (69891, 69926); (69942, 69951); (69956, 69956); (69959, 69959);
   (69968, 70002); (70006, 70006); (70019, 70066); (70081, 70084);
   (70096, 70106); (70108, 70108); (70113, 70132); (70144, 70161);
   (70163, 70187); (70272, 70278); (70280, 70280); (70282, 70285);
   (70287, 70301); (70303, 70312); (70320, 70366); (70384, 70393);
   (70405, 70412); (70415, 70416); (70419, 70440); (70442, 70448);
   (70450, 70451); (70453, 70457); (70461, 70461); (70480, 70480);
   (70493, 70497); (70656, 70708); (70727, 70730); (70736, 70745);
   (70751, 70753); (70784, 70831); (70852, 70853); (70855, 70855);
   (70864, 70873); (71040, 71086); (71128, 71131); (71168, 71215);
   (71236, 71236); (71248, 71257); (71296, 71338); (71352, 71352);
   (71360, 71369); (71424, 71450); (71472, 71483); (71488, 71494);
   (71680, 71723); (71840, 71922); (71935, 71942); (71945, 71945);
   (71948, 71955); (71957, 71958); (71960, 71983); (71999, 71999);
   (72001, 72001); (72016, 72025); (72096, 72103); (72106, 72144);
   (72161, 72161); (72163, 72163); (72192, 72192); (72203, 72242);
   (72250, 72250); (72272, 72272); (72284, 72329); (72349, 72349);
   (72368, 72440); (72704, 72712); (72714, 72750); (72768, 72768);
   (72784, 72812); (72818, 72847); (72960, 72966); (72968, 72969);
   (72971, 73008); (73030, 73030); (73040, 73049); (73056, 73061);
   (73063, 73064); (73066, 73097); (73112, 73112); (73120, 73129);
   (73440, 73458); (73648, 73648); (73664, 73684); (73728, 74649);
   (74752, 74862); (74880, 75075); (77712, 77808); (77824, 78894);
   (82944, 83526); (92160, 92728); (92736, 92766); (92768, 92777);
   (92784, 92862); (92864, 92873); (92880, 92909); (92928, 92975);
   (92992, 92995); (93008, 93017); (93019, 93025); (93027, 93047);
   (93053, 93071); (93760, 93846); (93952, 94026); (94032, 94032);
   (94099, 94111); (94176, 94177); (94179, 94179); (94208, 100343);
   (100352, 101589); (101632, 101640); (110576, 110579); (110581, 110587);
   (110589, 110590); (110592, 110882); (110928, 110930); (110948, 110951);
   (110960, 111355); (113664, 113770); (113776, 113788); (113792, 113800);
   (113808, 113817); (119520, 119539); (119648, 119672); (119808, 119892);
   (119894, 119964); (119966, 119967); (119970, 119970); (119973, 119974);
   (119977, 119980); (119982, 119993); (119995, 119995); (119997, 120003);
   (120005, 120069); (120071, 120074); (120077, 120084); (120086, 120092);
   (120094, 120121); (120123, 120126); (120128, 120132); (120134, 120134);
   (120138, 120144); (120146, 120485); (120488, 120512); (120514, 120538);
   (120540, 120570); (120572, 120596); (120598, 120628); (120630, 120654);
   (120656, 120686); (120688, 120712); (120714, 120744); (120746, 120770);
   (120772, 120779); (120782, 120831); (122624, 122654); (123136, 123180);
   (123191, 123197); (123200, 123209); (123214, 123214); (123536, 123565);
   (123584, 123627); (123632, 123641); (124896, 124902); (124904, 124907);
   (124909, 124910); (124912, 124926); (124928, 125124); (125127, 125135);
   (125184, 125251); (125259, 125259); (125264, 125273); (126065, 126123);
   (126125, 126127); (126129, 126132); (126209, 126253); (126255, 126269);
   (126464, 126467); (126469, 126495); (126497, 126498); (126500, 126500);
   (126503, 126503); (126505, 126514); (126516, 126519); (126521, 126521);
   (126523, 126523); (126530, 126530); (126535, 126535); (126537, 126537);
   (126539, 126539); (126541, 126543); (126545, 126546); (126548, 126548);
   (126551, 126551); (126553, 126553); (126555, 126555); (126557, 126557);
   (126559, 126559); (126561, 126562); (126564, 126564); (126567, 126570);
   (126572, 126578); (126580, 126583); (126585, 126588); (126590, 126590);
   (126592, 126601); (126603, 126619); (126625, 126627); (126629, 126633);
   (126635, 126651); (127232, 127244); (130032, 130041); (131072, 173791);
   (173824, 177976); (177984, 178205); (178208, 183969); (183984, 191456);
   (194560, 195101); (196608, 201546)]%N.

(** The code points with the property [XID_Start]. *)
Definition xid_start_ranges : list (N * N) :=
  [(65, 90); (97, 122); (170, 170); (181, 181); (186, 186); (192, 214);
   (216, 246); (248, 705); (710, 721); (736, 740); (748, 748); (750, 750);
   (880, 884); (886, 887); (891, 893); (895, 895); (902, 902); (904, 906);
   (908, 908); (910, 929); (931, 1013); (1015, 1153); (1162, 1327);
   (1329, 1366); (1369, 1369); (1376, 1416); (1488, 1514); (1519, 1522);
   (1568, 1610); (1646, 1647); (1649, 1747); (1749, 1749); (1765, 1766);
   (1774, 1775); (1786, 1788); (1791, 1791); (1808, 1808); (1810, 1839);
   (1869, 1957); (1969, 1969); (1994, 2026); (2036, 2037); (2042, 2042);
   (2048, 2069); (2074, 2074); (2084, 2084); (2088, 2088); (2112, 2136);
   (2144, 2154); (2160, 2183); (2185, 2190); (2208, 2249); (2308, 2361);
   (2365, 2365); (2384, 2384); (2392, 2401); (2417, 2432); (2437, 2444);
   (2447, 2448); (2451, 2472); (2474, 2480); (2482, 2482); (2486, 2489);
   (2493, 2493); (2510, 2510); (2524, 2525); (2527, 2529); (2544, 2545);
   (2556, 2556); (2565, 2570); (2575, 2576); (2579, 2600); (2602, 2608);
   (2610, 2611); (2613, 2614); (2616, 2617); (2649, 2652); (2654, 2654);
   (2674, 2676); (2693, 2701); (2703, 2705); (2707, 2728); (2730, 2736);
   (2738, 2739); (2741, 2745); (2749, 2749); (2768, 2768); (2784, 2785);
   (2809, 2809); (2821, 2828); (2831, 2832); (2835, 2856); (2858, 2864);
   (2866, 2867); (2869, 2873); (2877, 2877); (2908, 2909); (2911, 2913);
   (2929, 2929); (2947, 2947); (2949, 2954); (2958, 2960); (2962, 2965);
   (2969, 2970); (2972, 2972); (2974, 2975); (2979, 2980); (2984, 2986);
   (2990, 3001); (3024, 3024); (3077, 3084); (3086, 3088); (3090, 3112);
   (3114, 3129); (3133, 3133); (3160, 3162); (3165, 3165); (3168, 3169);
   (3200, 3200); (3205, 3212); (3214, 3216); (3218, 3240); (3242, 3251);
   (3253, 3257); (3261, 3261); (3293, 3294); (3296, 3297); (3313, 3314);
   (3332, 3340); (3342, 3344); (3346, 3386); (3389, 3389); (3406, 3406);
   (3412, 3414); (3423, 3425); (3450, 3455); (3461, 3478); (3482, 3505);
   (3507, 3515); (3517, 3517); (3520, 3526); (3585, 3632); (3634, 3634);
   (3648, 3654); (3713, 3714); (3716, 3716); (3718, 3722); (3724, 3747);
   (3749, 3749); (3751, 3760); (3762, 3762); (3773, 3773); (3776, 3780);
   (3782, 3782); (3804, 3807); (3840, 3840); (3904, 3911); (3913, 3948);
   (3976, 3980); (4096, 4138); (4159, 4159); (4176, 4181); (4186, 4189);
   (4193, 4193); (4197, 4198); (4206, 4208); (4213, 4225); (4238, 4238);
   (4256, 4293); (4295, 4295); (4301, 4301); (4304, 4346); (4348, 4680);
   (4682, 4685); (4688, 4694); (4696, 4696); (4698, 4701); (4704, 4744);
   (4746, 4749); (4752, 4784); (4786, 4789); (4792, 4798); (4800, 4800);
   (4802, 4805); (4808, 4822); (4824, 4880); (4882, 4885); (4888, 4954);
   (4992, 5007); (5024, 5109); (5112, 5117); (5121, 5740); (5743, 5759);
   (5761, 5786); (5792, 5866); (5870, 5880); (5888, 5905); (5919, 5937);
   (5952, 5969); (5984, 5996); (5998, 6000); (6016, 6067); (6103, 6103);
   (6108, 6108); (6176, 6264); (6272, 6312); (6314, 6314); (6320, 6389);
   (6400, 6430); (6480, 6509); (6512, 6516); (6528, 6571); (6576, 6601);
   (6656, 6678); (6688, 6740); (6823, 6823); (6917, 6963); (6981, 6988);
   (7043, 7072); (7086, 7087); (7098, 7141); (7168, 7203); (7245, 7247);
   (7258, 7293); (7296, 7304); (7312, 7354); (7357, 7359); (7401, 7404);
   (7406, 7411); (7413, 7414); (7418, 7418); (7424, 7615); (7680, 7957);
   (7960, 7965); (7968, 8005); (8008, 8013); (8016, 8023); (8025, 8025);
   (8027, 8027); (8029, 8029); (8031, 8061); (8064, 8116); (8118, 8124);
   (8126, 8126); (8130, 8132); (8134, 8140); (8144, 8147); (8150, 8155);
   (8160, 8172); (8178, 8180); (8182, 8188); (8305, 8305); (8319, 8319);
   (8336, 8348); (8450, 8450); (8455, 8455); (8458, 8467); (8469, 8469);
   (8472, 8477); (8484, 8484); (8486, 8486); (8488, 8488); (8490, 8505);
   (8508, 8511); (8517, 8521); (8526, 8526); (8544, 8584); (11264, 11492);
   (11499, 11502); (11506, 11507); (11520, 11557); (11559, 11559);
   (11565, 11565); (11568, 11623); (11631, 11631); (11648, 11670);
   (11680, 11686); (11688, 11694); (11696, 11702); (11704, 11710);
   (11712, 11718); (11720, 11726); (11728, 11734); (11736, 11742);
   (12293, 12295); (12321, 12329); (12337, 12341); (12344, 12348);
   (12353, 12438); (12445, 12447); (12449, 12538); (12540, 12543);
   (12549, 12591); (12593, 12686); (12704, 12735); (12784, 12799);
   (13312, 19903); (19968, 42124); (42192, 42237); (42240, 42508);
   (42512, 42527); (42538, 42539); (42560, 42606); (42623, 42653);
   (42656, 42735); (42775, 42783); (42786, 42888); (42891, 42954);
   (42960, 42961); (42963, 42963); (42965, 42969); (42994, 43009);
   (43011, 43013); (43015, 43018); (43020, 43042); (43072, 43123);
   (43138, 43187); (43250, 43255); (43259, 43259); (43261, 43262);
   (43274, 43301); (43312, 43334); (43360, 43388); (43396, 43442);
   (43471, 43471); (43488, 43492); (43494, 43503); (43514, 43518);
   (43520, 43560); (43584, 43586); (43588, 43595); (43616, 43638);
   (43642, 43642); (43646, 43695); (43697, 43697); (43701, 43702);
   (43705, 43709); (43712, 43712); (43714, 43714); (43739, 43741);
   (43744, 43754); (43762, 43764); (43777, 43782); (43785, 43790);
   (43793, 43798); (43808, 43814); (43816, 43822); (43824, 43866);
   (43868, 43881); (43888, 44002); (44032, 55203); (55216, 55238);
   (55243, 55291); (63744, 64109); (64112, 64217); (64256, 64262);
   (64275, 64279); (64285, 64285); (64287, 64296); (64298, 64310);
   (64312, 64316); (64318, 64318); (64320, 64321); (64323, 64324);
   (64326, 64433); (64467, 64605); (64612, 64829); (64848, 64911);
   (64914, 64967); (65008, 65017); (65137, 65137); (65139, 65139);
   (65143, 65143); (65145, 65145); (65147, 65147); (65149, 65149);
   (65151, 65276); (65313, 65338); (65345, 65370); (65382, 65437);
   (65440, 65470); (65474, 65479); (65482, 65487); (65490, 65495);
   (65498, 65500); (65536, 65547); (65549, 65574); (65576, 65594);
   (65596, 65597); (65599, 65613); (65616, 65629); (65664, 65786);
   (65856, 65908); (66176, 66204); (66208, 66256); (66304, 66335);
   (66349, 66378); (66384, 66421); (66432, 66461); (66464, 66499);
   (66504, 66511); (66513, 66517); (66560, 66717); (66736, 66771);
   (66776, 66811); (66816, 66855); (66864, 66915); (66928, 66938);
   (66940, 66954); (66956, 66962); (66964, 66965); (66967, 66977);
   (66979, 66993); (66995, 67001); (67003, 67004); (67072, 67382);
   (67392, 67413); (67424, 67431); (67456, 67461); (67463, 67504);
   (67506, 67514); (67584, 67589); (67592, 67592); (67594, 67637);
   (67639, 67640); (67644, 67644); (67647, 67669); (67680, 67702);
   (67712, 67742); (67808, 67826); (67828, 67829); (67840, 67861);
   (67872, 67897); (67968, 68023); (68030, 68031); (68096, 68096);
   (68112, 68115); (68117, 68119); (68121, 68149); (68192, 68220);
   (68224, 68252); (68288, 68295); (68297, 68324); (68352, 68405);
   (68416, 68437); (68448, 68466); (68480, 68497); (68608, 68680);
   (68736, 68786); (68800, 68850); (68864, 68899); (69248, 69289);
   (69296, 69297); (69376, 69404); (69415, 69415); (69424, 69445);
   (69488, 69505); (69552, 69572); (69600, 69622); (69635, 69687);
   (69745, 69746); (69749, 69749); (69763, 69807); (69840, 69864);
   (69891, 69926); (69956, 69956); (69959, 69959); (69968, 70002);
   (70006, 70006); (70019, 70066); (70081, 70084); (70106, 70106);
   (70108, 70108); (70144, 70161); (70163, 70187); (70272, 70278);
   (70280, 70280); (70282, 70285); (70287, 70301); (70303, 70312);
   (70320, 70366); (70405, 70412); (70415, 70416); (70419, 70440);
   (70442, 70448); (70450, 70451); (70453, 70457); (70461, 70461);
   (70480, 70480); (70493, 70497); (70656, 70708); (70727, 70730);
   (70751, 70753); (70784, 70831); (70852, 70853); (70855, 70855);
   (71040, 71086); (71128, 71131); (71168, 71215); (71236, 71236);
   (71296, 71338); (71352, 71352); (71424, 71450); (71488, 71494);
   (71680, 71723); (71840, 71903); (71935, 71942); (71945, 71945);
   (71948, 71955); (71957, 71958); (71960, 71983); (71999, 71999);
   (72001, 72001); (72096, 72103); (72106, 72144); (72161, 72161);
   (72163, 72163); (72192, 72192); (72203, 72242); (72250, 72250);
   (72272, 72272); (72284, 72329); (72349, 72349); (72368, 72440);
   (72704, 72712); (72714, 72750); (72768, 72768); (72818, 72847);
   (72960, 72966); (72968, 72969); (72971, 73008); (73030, 73030);
   (73056, 73061); (73063, 73064); (73066, 73097); (73112, 73112);
   (73440, 73458); (73648, 73648); (73728, 74649); (74752, 74862);
   (74880, 75075); (77712, 77808); (77824, 78894); (82944, 83526);
   (92160, 92728); (92736, 92766); (92784, 92862); (92880, 92909);
   (92928, 92975); (92992, 92995); (93027, 93047); (93053, 93071);
   (93760, 93823); (93952, 94026); (94032, 94032); (94099, 94111);
   (94176, 94177); (94179, 94179); (94208, 100343); (100352, 101589);
   (101632, 101640); (110576, 110579); (110581, 110587); (110589, 110590);
   (110592, 110882); (110928, 110930); (110948, 110951); (110960, 111355);
   (113664, 113770); (113776, 113788); (113792, 113800); (113808, 113817);
   (119808, 119892); (119894, 119964); (119966, 119967); (119970, 119970);
   (119973, 119974); (119977, 119980); (119982, 119993); (119995, 119995);
   (119997, 120003); (120005, 120069); (120071, 120074); (120077, 120084);
   (120086, 120092); (120094, 120121); (120123, 120126); (120128, 120132);
   (120134, 120134); (120138, 120144); (120146, 120485); (120488, 120512);
   (120514, 120538); (120540, 120570); (120572, 120596); (120598, 120628);
   (120630, 120654); (120656, 120686); (120688, 120712); (120714, 120744);
   (120746, 120770); (120772, 120779); (122624, 122654); (123136, 123180);
   (123191, 123197); (123214, 123214); (123536, 123565); (123584, 123627);
   (124896, 124902); (124904, 124907); (124909, 124910); (124912, 124926);
   (124928, 125124); (125184, 125251); (125259, 125259); (126464, 126467);
   (126469, 126495); (126497, 126498); (126500, 126500); (126503, 126503);
   (126505, 126514); (126516, 126519); (126521, 126521); (126523, 126523);
   (126530, 126530); (126535, 126535); (126537, 126537); (126539, 126539);
   (126541, 126543); (126545, 126546); (126548, 126548); (126551, 126551);
   (126553, 126553); (126555, 126555); (126557, 126557); (126559, 126559);
   (126561, 126562); (126564, 126564); (126567, 126570); (126572, 126578);
   (126580, 126583); (126585, 126588); (126590, 126590); (126592, 126601);
   (126603, 126619); (126625, 126627); (126629, 126633); (126635, 126651);
   (131072, 173791); (173824, 177976); (177984, 178205); (178208, 183969);
   (183984, 191456); (194560, 195101); (196608, 201546)]%N.

(** The code points with the property [XID_Continue]. *)
Definition xid_continue_ranges : list (N * N) :=
  [(48, 57); (65, 90); (95, 95); (97, 122); (170, 170); (181, 181);
   (183, 183); (186, 186); (192, 214); (216, 246); (248, 705); (710, 721);
   (736, 740); (748, 748); (750, 750); (768, 884); (886, 887); (891, 893);
   (895, 895); (902, 906); (908, 908); (910, 929); (931, 1013); (1015, 1153);
   (1155, 1159); (1162, 1327); (1329, 1366); (1369, 1369); (1376, 1416);
   (1425, 1469); (1471, 1471); (1473, 1474); (1476, 1477); (1479, 1479);
   (1488, 1514); (1519, 1522); (1552, 1562); (1568, 1641); (1646, 1747);
   (1749, 1756); (1759, 1768); (1770, 1788); (1791, 1791); (1808, 1866);
   (1869, 1969); (1984, 2037); (2042, 2042); (2045, 2045); (2048, 2093);
   (2112, 2139); (2144, 2154); (2160, 2183); (2185, 2190); (2200, 2273);
   (2275, 2403); (2406, 2415); (2417, 2435); (2437, 2444); (2447, 2448);
   (2451, 2472); (2474, 2480); (2482, 2482); (2486, 2489); (2492, 2500);
   (2503, 2504); (2507, 2510); (2519, 2519); (2524, 2525); (2527, 2531);
   (2534, 2545); (2556, 2556); (2558, 2558); (2561, 2563); (2565, 2570);
   (2575, 2576); (2579, 2600); (2602, 2608); (2610, 2611); (2613, 2614);
   (2616, 2617); (2620, 2620); (2622, 2626); (2631, 2632); (2635, 2637);
   (2641, 2641); (2649, 2652); (2654, 2654); (2662, 2677); (2689, 2691);
   (2693, 2701); (2703, 2705); (2707, 2728); (2730, 2736); (2738, 2739);
   (2741, 2745); (2748, 2757); (2759, 2761); (2763, 2765); (2768, 2768);
   (2784, 2787); (2790, 2799); (2809, 2815); (2817, 2819); (2821, 2828);
   (2831, 2832); (2835, 2856); (2858, 2864); (2866, 2867); (2869, 2873);
   (2876, 2884); (2887, 2888); (2891, 2893); (2901, 2903); (2908, 2909);
   (2911, 2915); (2918, 2927); (2929, 2929); (2946, 2947); (2949, 2954);
   (2958, 2960); (2962, 2965); (2969, 2970); (2972, 2972); (2974, 2975);
   (2979, 2980); (2984, 2986); (2990, 3001); (3006, 3010); (3014, 3016);
   (3018, 3021); (3024, 3024); (3031, 3031); (3046, 3055); (3072, 3084);
   (3086, 3088); (3090, 3112); (3114, 3129); (3132, 3140); (3142, 3144);
   (3146, 3149); (3157, 3158); (3160, 3162); (3165, 3165); (3168, 3171);
   (3174, 3183); (3200, 3203); (3205, 3212); (3214, 3216); (3218, 3240);
   (3242, 3251); (3253, 3257); (3260, 3268); (3270, 3272); (3274, 3277);
   (3285, 3286); (3293, 3294); (3296, 3299); (3302, 3311); (3313, 3314);
   (3328, 3340); (3342, 3344); (3346, 3396); (3398, 3400); (3402, 3406);
   (3412, 3415); (3423, 3427); (3430, 3439); (3450, 3455); (3457, 3459);
   (3461, 3478); (3482, 3505); (3507, 3515); (3517, 3517); (3520, 3526);
   (3530, 3530); (3535, 3540); (3542, 3542); (3544, 3551); (3558, 3567);
   (3570, 3571); (3585, 3642); (3648, 3662); (3664, 3673); (3713, 3714);
   (3716, 3716); (3718, 3722); (3724, 3747); (3749, 3749); (3751, 3773);
   (3776, 3780); (3782, 3782); (3784, 3789); (3792, 3801); (3804, 3807);
   (3840, 3840); (3864, 3865); (3872, 3881); (3893, 3893); (3895, 3895);
   (3897, 3897); (3902, 3911); (3913, 3948); (3953, 3972); (3974, 3991);
   (3993, 4028); (4038, 4038); (4096, 4169); (4176, 4253); (4256, 4293);
   (4295, 4295); (4301, 4301); (4304, 4346); (4348, 4680); (4682, 4685);
   (4688, 4694); (4696, 4696); (4698, 4701); (4704, 4744); (4746, 4749);
   (4752, 4784); (4786, 4789); (4792, 4798); (4800, 4800); (4802, 4805);
   (4808, 4822); (4824, 4880); (4882, 4885); (4888, 4954); (4957, 4959);
   (4969, 4977); (4992, 5007); (5024, 5109); (5112, 5117); (5121, 5740);
   (5743, 5759); (5761, 5786); (5792, 5866); (5870, 5880); (5888, 5909);
   (5919, 5940); (5952, 5971); (5984, 5996); (5998, 6000); (6002, 6003);
   (6016, 6099); (6103, 6103); (6108, 6109); (6112, 6121); (6155, 6157);
   (6159, 6169); (6176, 6264); (6272, 6314); (6320, 6389); (6400, 6430);
   (6432, 6443); (6448, 6459); (6470, 6509); (6512, 6516); (6528, 6571);
   (6576, 6601); (6608, 6618); (6656, 6683); (6688, 6750); (6752, 6780);
   (6783, 6793); (6800, 6809); (6823, 6823); (6832, 6845); (6847, 6862);
   (6912, 6988); (6992, 7001); (7019, 7027); (7040, 7155); (7168, 7223);
   (7232, 7241); (7245, 7293); (7296, 7304); (7312, 7354); (7357, 7359);
   (7376, 7378); (7380, 7418); (7424, 7957); (7960, 7965); (7968, 8005);
   (8008, 8013); (8016, 8023); (8025, 8025); (8027, 8027); (8029, 8029);
   (8031, 8061); (8064, 8116); (8118, 8124); (8126, 8126); (8130, 8132);
   (8134, 8140); (8144, 8147); (8150, 8155); (8160, 8172); (8178, 8180);
   (8182, 8188); (8255, 8256); (8276, 8276); (8305, 8305); (8319, 8319);
   (8336, 8348); (8400, 8412); (8417, 8417); (8421, 8432); (8450, 8450);
   (8455, 8455); (8458, 8467); (8469, 8469); (8472, 8477); (8484, 8484);
   (8486, 8486); (8488, 8488); (8490, 8505); (8508, 8511); (8517, 8521);
   (8526, 8526); (8544, 8584); (11264, 11492); (11499, 11507);
   (11520, 11557); (11559, 11559); (11565, 11565); (11568, 11623);
   (11631, 11631); (11647, 11670); (11680, 11686); (11688, 11694);
   (11696, 11702); (11704, 11710); (11712, 11718); (11720, 11726);
   (11728, 11734); (11736, 11742); (11744, 11775); (12293, 12295);
   (12321, 12335); (12337, 12341); (12344, 12348); (12353, 12438);
   (12441, 12442); (12445, 12447); (12449, 12538); (12540, 12543);
   (12549, 12591); (12593, 12686); (12704, 12735); (12784, 12799);
   (13312, 19903); (19968, 42124); (42192, 42237); (42240, 42508);
   (42512, 42539); (42560, 42607); (42612, 42621); (42623, 42737);
   (42775, 42783); (42786, 42888); (42891, 42954); (42960, 42961);
   (42963, 42963); (42965, 42969); (42994, 43047); (43052, 43052);
   (43072, 43123); (43136, 43205); (43216, 43225); (43232, 43255);
   (43259, 43259); (43261, 43309); (43312, 43347); (43360, 43388);
   (43392, 43456); (43471, 43481); (43488, 43518); (43520, 43574);
   (43584, 43597); (43600, 43609); (43616, 43638); (43642, 43714);
   (43739, 43741); (43744, 43759); (43762, 43766); (43777, 43782);
   (43785, 43790); (43793, 43798); (43808, 43814); (43816, 43822);
   (43824, 43866); (43868, 43881); (43888, 44010); (44012, 44013);
   (44016, 44025); (44032, 55203); (55216, 55238); (55243, 55291);
   (63744, 64109); (64112, 64217); (64256, 64262); (64275, 64279);
   (64285, 64296); (64298, 64310); (64312, 64316); (64318, 64318);
   (64320, 64321); (64323, 64324); (64326, 64433); (64467, 64605);
   (64612, 64829); (64848, 64911); (64914, 64967); (65008, 65017);
   (65024, 65039); (65056, 65071); (65075, 65076); (65101, 65103);
   (65137, 65137); (65139, 65139); (65143, 65143); (65145, 65145);
   (65147, 65147); (65149, 65149); (65151, 65276); (65296, 65305);
   (65313, 65338); (65343, 65343); (65345, 65370); (65382, 65470);
   (65474, 65479); (65482, 65487); (65490, 65495); (65498, 65500);
   (65536, 65547); (65549, 65574); (65576, 65594); (65596, 65597);
   (65599, 65613); (65616, 65629); (65664, 65786); (65856, 65908);
   (66045, 66045); (66176, 66204); (66208, 66256); (66272, 66272);
   (66304, 66335); (66349, 66378); (66384, 66426); (66432, 66461);
   (66464, 66499); (66504, 66511); (66513, 66517); (66560, 66717);
   (66720, 66729); (66736, 66771); (66776, 66811); (66816, 66855);
   (66864, 66915); (66928, 66938); (66940, 66954); (66956, 66962);
   (66964, 66965); (66967, 66977); (66979, 66993); (66995, 67001);
   (67003, 67004); (67072, 67382); (67392, 67413); (67424, 67431);
   (67456, 67461); (67463, 67504); (67506, 67514); (67584, 67589);
   (67592, 67592); (67594, 67637); (67639, 67640); (67644, 67644);
   (67647, 67669); (67680, 67702); (67712, 67742); (67808, 67826);
   (67828, 67829); (67840, 67861); (67872, 67897); (67968, 68023);
   (68030, 68031); (68096, 68099); (68101, 68102); (68108, 68115);
   (68117, 68119); (68121, 68149); (68152, 68154); (68159, 68159);
   (68192, 68220); (68224, 68252); (68288, 68295); (68297, 68326);
   (68352, 68405); (68416, 68437); (68448, 68466); (68480, 68497);
   (68608, 68680); (68736, 68786); (68800, 68850); (68864, 68903);
   (68912, 68921); (69248, 69289); (69291, 69292); (69296, 69297);
   (69376, 69404); (69415, 69415); (69424, 69456); (69488, 69509);
   (69552, 69572); (69600, 69622); (69632, 69702); (69734, 69749);
   (69759, 69818); (69826, 69826); (69840, 69864); (69872, 69881);
   (69888, 69940); (69942, 69951); (69956, 69959); (69968, 70003);
   (70006, 70006); (70016, 70084); (70089, 70092); (70094, 70106);
   (70108, 70108); (70144, 70161); (70163, 70199); (70206, 70206);
   (70272, 70278); (70280, 70280); (70282, 70285); (70287, 70301);
   (70303, 70312); (70320, 70378); (70384, 70393); (70400, 70403);
   (70405, 70412); (70415, 70416); (70419, 70440); (70442, 70448);
   (70450, 70451); (70453, 70457); (70459, 70468); (70471, 70472);
   (70475, 70477); (70480, 70480); (70487, 70487); (70493, 70499);
   (70502, 70508); (70512, 70516); (70656, 70730); (70736, 70745);
   (70750, 70753); (70784, 70853); (70855, 70855); (70864, 70873);
   (71040, 71093); (71096, 71104); (71128, 71133); (71168, 71232);
   (71236, 71236); (71248, 71257); (71296, 71352); (71360, 71369);
   (71424, 71450); (71453, 71467); (71472, 71481); (71488, 71494);
   (71680, 71738); (71840, 71913); (71935, 71942); (71945, 71945);
   (71948, 71955); (71957, 71958); (71960, 71989); (71991, 71992);
   (71995, 72003); (72016, 72025); (72096, 72103); (72106, 72151);
   (72154, 72161); (72163, 72164); (72192, 72254); (72263, 72263);
   (72272, 72345); (72349, 72349); (72368, 72440); (72704, 72712);
   (72714, 72758); (72760, 72768); (72784, 72793); (72818, 72847);
   (72850, 72871); (72873, 72886); (72960, 72966); (72968, 72969);
   (72971, 73014); (73018, 73018); (73020, 73021); (73023, 73031);
   (73040, 73049); (73056, 73061); (73063, 73064); (73066, 73102);
   (73104, 73105); (73107, 73112); (73120, 73129); (73440, 73462);
   (73648, 73648); (73728, 74649); (74752, 74862); (74880, 75075);
   (77712, 77808); (77824, 78894); (82944, 83526); (92160, 92728);
   (92736, 92766); (92768, 92777); (92784, 92862); (92864, 92873);
   (92880, 92909); (92912, 92916); (92928, 92982); (92992, 92995);
   (93008, 93017); (93027, 93047); (93053, 93071); (93760, 93823);
   (93952, 94026); (94031, 94087); (94095, 94111); (94176, 94177);
   (94179, 94180); (94192, 94193); (94208, 100343); (100352, 101589);
   (101632, 101640); (110576, 110579); (110581, 110587); (110589, 110590);
   (110592, 110882); (110928, 110930); (110948, 110951); (110960, 111355);
   (113664, 113770); (113776, 113788); (113792, 113800); (113808, 113817);
   (113821, 113822); (118528, 118573); (118576, 118598); (119141, 119145);
   (119149, 119154); (119163, 119170); (119173, 119179); (119210, 119213);
   (119362, 119364); (119808, 119892); (119894, 119964); (119966, 119967);
   (119970, 119970); (119973, 119974); (119977, 119980); (119982, 119993);
   (119995, 119995); (119997, 120003); (120005, 120069); (120071, 120074);
   (120077, 120084); (120086, 120092); (120094, 120121); (120123, 120126);
   (120128, 120132); (120134, 120134); (120138, 120144); (120146, 120485);
   (120488, 120512); (120514, 120538); (120540, 120570); (120572, 120596);
   (120598, 120628); (120630, 120654); (120656, 120686); (120688, 120712);
   (120714, 120744); (120746, 120770); (120772, 120779); (120782, 120831);
   (121344, 121398); (121403, 121452); (121461, 121461); (121476, 121476);
   (121499, 121503); (121505, 121519); (122624, 122654); (122880, 122886);
   (122888, 122904); (122907, 122913); (122915, 122916); (122918, 122922);
   (123136, 123180); (123184, 123197); (123200, 123209); (123214, 123214);
   (123536, 123566); (123584, 123641); (124896, 124902); (124904, 124907);
   (124909, 124910); (124912, 124926); (124928, 125124); (125136, 125142);
   (125184, 125259); (125264, 125273); (126464, 126467); (126469, 126495);
   (126497, 126498); (126500, 126500); (126503, 126503); (126505, 126514);
   (126516, 126519); (126521, 126521); (126523, 126523); (126530, 126530);
   (126535, 126535); (126537, 126537); (126539, 126539); (126541, 126543);
   (126545, 126546); (126548, 126548); (126551, 126551); (126553, 126553);
   (126555, 126555); (126557, 126557); (126559, 126559); (126561, 126562);
   (126564, 126564); (126567, 126570); (126572, 126578); (126580, 126583);
   (126585, 126588); (126590, 126590); (126592, 126601); (126603, 126619);
   (126625, 126627); (126629, 126633); (126635, 126651); (130032, 130041);
   (131072, 173791); (173824, 177976); (177984, 178205); (178208, 183969);
   (183984, 191456); (194560, 195101); (196608, 201546); (917760, 917999)]%N.

(** The code points with the property [Cased]. *)
Definition cased_ranges : list (N * N) :=
  [(65, 90); (97, 122); (170, 170); (181, 181); (186, 186); (192, 214);
   (216, 246); (248, 442); (444, 447); (452, 659); (661, 696); (704, 705);
   (736, 740); (837, 837); (880, 883); (886, 887); (890, 893); (895, 895);
   (902, 902); (904, 906); (908, 908); (910, 929); (931, 1013); (1015, 1153);
   (1162, 1327); (1329, 1366); (1376, 1416); (4256, 4293); (4295, 4295);
   (4301, 4301); (4304, 4346); (4349, 4351); (5024, 5109); (5112, 5117);
   (7296, 7304); (7312, 7354); (7357, 7359); (7424, 7615); (7680, 7957);
   (7960, 7965); (7968, 8005); (8008, 8013); (8016, 8023); (8025, 8025);
   (8027, 8027); (8029, 8029); (8031, 8061); (8064, 8116); (8118, 8124);
   (8126, 8126); (8130, 8132); (8134, 8140); (8144, 8147); (8150, 8155);
   (8160, 8172); (8178, 8180); (8182, 8188); (8305, 8305); (8319, 8319);
   (8336, 8348); (8450, 8450); (8455, 8455); (8458, 8467); (8469, 8469);
   (8473, 8477); (8484, 8484); (8486, 8486); (8488, 8488); (8490, 8493);
   (8495, 8500); (8505, 8505); (8508, 8511); (8517, 8521); (8526, 8526);
   (8544, 8575); (8579, 8580); (9398, 9449); (11264, 11492); (11499, 11502);
   (11506, 11507); (11520, 11557); (11559, 11559); (11565, 11565);
   (42560, 42605); (42624, 42653); (42786, 42887); (42891, 42894);
   (42896, 42954); (42960, 42961); (42963, 42963); (42965, 42969);
   (42997, 42998); (43000, 43002); (43824, 43866); (43868, 43880);
   (43888, 43967); (64256, 64262); (64275, 64279); (65313, 65338);
   (65345, 65370); (66560, 66639); (66736, 66771); (66776, 66811);
   (66928, 66938); (66940, 66954); (66956, 66962); (66964, 66965);
   (66967, 66977); (66979, 66993); (66995, 67001); (67003, 67004);
   (67456, 67456); (67459, 67461); (67463, 67504); (67506, 67514);
   (68736, 68786); (68800, 68850); (71840, 71903); (93760, 93823);
   (119808, 119892); (119894, 119964); (119966, 119967); (119970, 119970);
   (119973, 119974); (119977, 119980); (119982, 119993); (119995, 119995);
   (119997, 120003); (120005, 120069); (120071, 120074); (120077, 120084);
   (120086, 120092); (120094, 120121); (120123, 120126); (120128, 120132);
   (120134, 120134); (120138, 120144); (120146, 120485); (120488, 120512);
   (120514, 120538); (120540, 120570); (120572, 120596); (120598, 120628);
   (120630, 120654); (120656, 120686); (120688, 120712); (120714, 120744);
   (120746, 120770); (120772, 120779); (122624, 122633); (122635, 122654);
   (125184, 125251); (127280, 127305); (127312, 127337); (127344, 127369)]%N.

(** The code points with the property [Case_Ignorable]. *)
Definition case_ignorable_ranges : list (N * N) :=
  [(39, 39); (46, 46); (58, 58); (94, 94); (96, 96); (168, 168); (173, 173);
   (175, 175); (180, 180); (183, 184); (688, 879); (884, 885); (890, 890);
   (900, 901); (903, 903); (1155, 1161); (1369, 1369); (1375, 1375);
   (1425, 1469); (1471, 1471); (1473, 1474); (1476, 1477); (1479, 1479);
   (1524, 1524); (1536, 1541); (1552, 1562); (1564, 1564); (1600, 1600);
   (1611, 1631); (1648, 1648); (1750, 1757); (1759, 1768); (1770, 1773);
   (1807, 1807); (1809, 1809); (1840, 1866); (1958, 1968); (2027, 2037);
   (2042, 2042); (2045, 2045); (2070, 2093); (2137, 2139); (2184, 2184);
   (2192, 2193); (2200, 2207); (2249, 2306); (2362, 2362); (2364, 2364);
   (2369, 2376); (2381, 2381); (2385, 2391); (2402, 2403); (2417, 2417);
   (2433, 2433); (2492, 2492); (2497, 2500); (2509, 2509); (2530, 2531);
   (2558, 2558); (2561, 2562); (2620, 2620); (2625, 2626); (2631, 2632);
   (2635, 2637); (2641, 2641); (2672, 2673); (2677, 2677); (2689, 2690);
   (2748, 2748); (2753, 2757); (2759, 2760); (2765, 2765); (2786, 2787);
   (2810, 2815); (2817, 2817); (2876, 2876); (2879, 2879); (2881, 2884);
   (2893, 2893); (2901, 2902); (2914, 2915); (2946, 2946); (3008, 3008);
   (3021, 3021); (3072, 3072); (3076, 3076); (3132, 3132); (3134, 3136);
   (3142, 3144); (3146, 3149); (3157, 3158); (3170, 3171); (3201, 3201);
   (3260, 3260); (3263, 3263); (3270, 3270); (3276, 3277); (3298, 3299);
   (3328, 3329); (3387, 3388); (3393, 3396); (3405, 3405); (3426, 3427);
   (3457, 3457); (3530, 3530); (3538, 3540); (3542, 3542); (3633, 3633);
   (3636, 3642); (3654, 3662); (3761, 3761); (3764, 3772); (3782, 3782);
   (3784, 3789); (3864, 3865); (3893, 3893); (3895, 3895); (3897, 3897);
   (3953, 3966); (3968, 3972); (3974, 3975); (3981, 3991); (3993, 4028);
   (4038, 4038); (4141, 4144); (4146, 4151); (4153, 4154); (4157, 4158);
   (4184, 4185); (4190, 4192); (4209, 4212); (4226, 4226); (4229, 4230);
   (4237, 4237); (4253, 4253); (4348, 4348); (4957, 4959); (5906, 5908);
   (5938, 5939); (5970, 5971); (6002, 6003); (6068, 6069); (6071, 6077);
   (6086, 6086); (6089, 6099); (6103, 6103); (6109, 6109); (6155, 6159);
   (6211, 6211); (6277, 6278); (6313, 6313); (6432, 6434); (6439, 6440);
   (6450, 6450); (6457, 6459); (6679, 6680); (6683, 6683); (6742, 6742);
   (6744, 6750); (6752, 6752); (6754, 6754); (6757, 6764); (6771, 6780);
   (6783, 6783); (6823, 6823); (6832, 6862); (6912, 6915); (6964, 6964);
   (6966, 6970); (6972, 6972); (6978, 6978); (7019, 7027); (7040, 7041);
   (7074, 7077); (7080, 7081); (7083, 7085); (7142, 7142); (7144, 7145);
   (7149, 7149); (7151, 7153); (7212, 7219); (7222, 7223); (7288, 7293);
   (7376, 7378); (7380, 7392); (7394, 7400); (7405, 7405); (7412, 7412);
   (7416, 7417); (7468, 7530); (7544, 7544); (7579, 7679); (8125, 8125);
   (8127, 8129); (8141, 8143); (8157, 8159); (8173, 8175); (8189, 8190);
   (8203, 8207); (8216, 8217); (8228, 8228); (8231, 8231); (8234, 8238);
   (8288, 8292); (8294, 8303); (8305, 8305); (8319, 8319); (8336, 8348);
   (8400, 8432); (11388, 11389); (11503, 11505); (11631, 11631);
   (11647, 11647); (11744, 11775); (11823, 11823); (12293, 12293);
   (12330, 12333); (12337, 12341); (12347, 12347); (12441, 12446);
   (12540, 12542); (40981, 40981); (42232, 42237); (42508, 42508);
   (42607, 42610); (42612, 42621); (42623, 42623); (42652, 42655);
   (42736, 42737); (42752, 42785); (42864, 42864); (42888, 42890);
   (42994, 42996); (43000, 43001); (43010, 43010); (43014, 43014);
   (43019, 43019); (43045, 43046); (43052, 43052); (43204, 43205);
   (43232, 43249); (43263, 43263); (43302, 43309); (43335, 43345);
   (43392, 43394); (43443, 43443); (43446, 43449); (43452, 43453);
   (43471, 43471); (43493, 43494); (43561, 43566); (43569, 43570);
   (43573, 43574); (43587, 43587); (43596, 43596); (43632, 43632);
   (43644, 43644); (43696, 43696); (43698, 43700); (43703, 43704);
   (43710, 43711); (43713, 43713); (43741, 43741); (43756, 43757);
   (43763, 43764); (43766, 43766); (43867, 43871); (43881, 43883);
   (44005, 44005); (44008, 44008); (44013, 44013); (64286, 64286);
   (64434, 64450); (65024, 65039); (65043, 65043); (65056, 65071);
   (65106, 65106); (65109, 65109); (65279, 65279); (65287, 65287);
   (65294, 65294); (65306, 65306); (65342, 65342); (65344, 65344);
   (65392, 65392); (65438, 65439); (65507, 65507); (65529, 65531);
   (66045, 66045); (66272, 66272); (66422, 66426); (67456, 67461);
   (67463, 67504); (67506, 67514); (68097, 68099); (68101, 68102);
   (68108, 68111); (68152, 68154); (68159, 68159); (68325, 68326);
   (68900, 68903); (69291, 69292); (69446, 69456); (69506, 69509);
   (69633, 69633); (69688, 69702); (69744, 69744); (69747, 69748);
   (69759, 69761); (69811, 69814); (69817, 69818); (69821, 69821);
   (69826, 69826); (69837, 69837); (69888, 69890); (69927, 69931);
   (69933, 69940); (70003, 70003); (70016, 70017); (70070, 70078);
   (70089, 70092); (70095, 70095); (70191, 70193); (70196, 70196);
   (70198, 70199); (70206, 70206); (70367, 70367); (70371, 70378);
   (70400, 70401); (70459, 70460); (70464, 70464); (70502, 70508);
   (70512, 70516); (70712, 70719); (70722, 70724); (70726, 70726);
   (70750, 70750); (70835, 70840); (70842, 70842); (70847, 70848);
   (70850, 70851); (71090, 71093); (71100, 71101); (71103, 71104);
   (71132, 71133); (71219, 71226); (71229, 71229); (71231, 71232);
   (71339, 71339); (71341, 71341); (71344, 71349); (71351, 71351);
   (71453, 71455); (71458, 71461); (71463, 71467); (71727, 71735);
   (71737, 71738); (71995, 71996); (71998, 71998); (72003, 72003);
   (72148, 72151); (72154, 72155); (72160, 72160); (72193, 72202);
   (72243, 72248); (72251, 72254); (72263, 72263); (72273, 72278);
   (72281, 72283); (72330, 72342); (72344, 72345); (72752, 72758);
   (72760, 72765); (72767, 72767); (72850, 72871); (72874, 72880);
   (72882, 72883); (72885, 72886); (73009, 73014); (73018, 73018);
   (73020, 73021); (73023, 73029); (73031, 73031); (73104, 73105);
   (73109, 73109); (73111, 73111); (73459, 73460); (78896, 78904);
   (92912, 92916); (92976, 92982); (92992, 92995); (94031, 94031);
   (94095, 94111); (94176, 94177); (94179, 94180); (110576, 110579);
   (110581, 110587); (110589, 110590); (113821, 113822); (113824, 113827);
   (118528, 118573); (118576, 118598); (119143, 119145); (119155, 119170);
   (119173, 119179); (119210, 119213); (119362, 119364); (121344, 121398);
   (121403, 121452); (121461, 121461); (121476, 121476); (121499, 121503);
   (121505, 121519); (122880, 122886); (122888, 122904); (122907, 122913);
   (122915, 122916); (122918, 122922); (123184, 123197); (123566, 123566);
   (123628, 123631); (125136, 125142); (125252, 125259); (127995, 127999);
   (917505, 917505); (917536, 917631); (917760, 917999)]%N.

(** The lower-case mapping of the characters that have one of a single
    code point: [(lo, hi, to)] maps [lo + i] to [to + i] for [lo + i <= hi].
    U+0130, whose lower-case form has two code points, and U+03A3, whose
    form depends on what surrounds it, are not in the table. *)
Definition lower_ranges : list (N * N * N) :=
  [(65, 90, 97); (192, 214, 224); (216, 222, 248); (256, 256, 257);
   (258, 258, 259); (260, 260, 261); (262, 262, 263); (264, 264, 265);
   (266, 266, 267); (268, 268, 269); (270, 270, 271); (272, 272, 273);
   (274, 274, 275); (276, 276, 277); (278, 278, 279); (280, 280, 281);
   (282, 282, 283); (284, 284, 285); (286, 286, 287); (288, 288, 289);
   (290, 290, 291); (292, 292, 293); (294, 294, 295); (296, 296, 297);
   (298, 298, 299); (300, 300, 301); (302, 302, 303); (306, 306, 307);
   (308, 308, 309); (310, 310, 311); (313, 313, 314); (315, 315, 316);
   (317, 317, 318); (319, 319, 320); (321, 321, 322); (323, 323, 324);
   (325, 325, 326); (327, 327, 328); (330, 330, 331); (332, 332, 333);
   (334, 334, 335); (336, 336, 337); (338, 338, 339); (340, 340, 341);
   (342, 342, 343); (344, 344, 345); (346, 346, 347); (348, 348, 349);
   (350, 350, 351); (352, 352, 353); (354, 354, 355); (356, 356, 357);
   (358, 358, 359); (360, 360, 361); (362, 362, 363); (364, 364, 365);
   (366, 366, 367); (368, 368, 369); (370, 370, 371); (372, 372, 373);
   (374, 374, 375); (376, 376, 255); (377, 377, 378); (379, 379, 380);
   (381, 381, 382); (385, 385, 595); (386, 386, 387); (388, 388, 389);
   (390, 390, 596); (391, 391, 392); (393, 394, 598); (395, 395, 396);
   (398, 398, 477); (399, 399, 601); (400, 400, 603); (401, 401, 402);
   (403, 403, 608); (404, 404, 611); (406, 406, 617); (407, 407, 616);
   (408, 408, 409); (412, 412, 623); (413, 413, 626); (415, 415, 629);
   (416, 416, 417); (418, 418, 419); (420, 420, 421); (422, 422, 640);
   (423, 423, 424); (425, 425, 643); (428, 428, 429); (430, 430, 648);
   (431, 431, 432); (433, 434, 650); (435, 435, 436); (437, 437, 438);
   (439, 439, 658); (440, 440, 441); (444, 444, 445); (452, 452, 454);
   (453, 453, 454); (455, 455, 457); (456, 456, 457); (458, 458, 460);
   (459, 459, 460); (461, 461, 462); (463, 463, 464); (465, 465, 466);
   (467, 467, 468); (469, 469, 470); (471, 471, 472); (473, 473, 474);
   (475, 475, 476); (478, 478, 479); (480, 480, 481); (482, 482, 483);
   (484, 484, 485); (486, 486, 487); (488, 488, 489); (490, 490, 491);
   (492, 492, 493); (494, 494, 495); (497, 497, 499); (498, 498, 499);
   (500, 500, 501); (502, 502, 405); (503, 503, 447); (504, 504, 505);
   (506, 506, 507); (508, 508, 509); (510, 510, 511); (512, 512, 513);
   (514, 514, 515); (516, 516, 517); (518, 518, 519); (520, 520, 521);
   (522, 522, 523); (524, 524, 525); (526, 526, 527); (528, 528, 529);
   (530, 530, 531); (532, 532, 533); (534, 534, 535); (536, 536, 537);
   (538, 538, 539); (540, 540, 541); (542, 542, 543); (544, 544, 414);
   (546, 546, 547); (548, 548, 549); (550, 550, 551); (552, 552, 553);
   (554, 554, 555); (556, 556, 557); (558, 558, 559); (560, 560, 561);
   (562, 562, 563); (570, 570, 11365); (571, 571, 572); (573, 573, 410);
   (574, 574, 11366); (577, 577, 578); (579, 579, 384); (580, 580, 649);
   (581, 581, 652); (582, 582, 583); (584, 584, 585); (586, 586, 587);
   (588, 588, 589); (590, 590, 591); (880, 880, 881); (882, 882, 883);
   (886, 886, 887); (895, 895, 1011); (902, 902, 940); (904, 906, 941);
   (908, 908, 972); (910, 911, 973); (913, 929, 945); (932, 939, 964);
   (975, 975, 983); (984, 984, 985); (986, 986, 987); (988, 988, 989);
   (990, 990, 991); (992, 992, 993); (994, 994, 995); (996, 996, 997);
   (998, 998, 999); (1000, 1000, 1001); (1002, 1002, 1003);
   (1004, 1004, 1005); (1006, 1006, 1007); (1012, 1012, 952);
   (1015, 1015, 1016); (1017, 1017, 1010); (1018, 1018, 1019);
   (1021, 1023, 891); (1024, 1039, 1104); (1040, 1071, 1072);
   (1120, 1120, 1121); (1122, 1122, 1123); (1124, 1124, 1125);
   (1126, 1126, 1127); (1128, 1128, 1129); (1130, 1130, 1131);
   (1132, 1132, 1133); (1134, 1134, 1135); (1136, 1136, 1137);
   (1138, 1138, 1139); (1140, 1140, 1141); (1142, 1142, 1143);
   (1144, 1144, 1145); (1146, 1146, 1147); (1148, 1148, 1149);
   (1150, 1150, 1151); (1152, 1152, 1153); (1162, 1162, 1163);
   (1164, 1164, 1165); (1166, 1166, 1167); (1168, 1168, 1169);
   (1170, 1170, 1171); (1172, 1172, 1173); (1174, 1174, 1175);
   (1176, 1176, 1177); (1178, 1178, 1179); (1180, 1180, 1181);
   (1182, 1182, 1183); (1184, 1184, 1185); (1186, 1186, 1187);
   (1188, 1188, 1189); (1190, 1190, 1191); (1192, 1192, 1193);
   (1194, 1194, 1195); (1196, 1196, 1197); (1198, 1198, 1199);
   (1200, 1200, 1201); (1202, 1202, 1203); (1204, 1204, 1205);
   (1206, 1206, 1207); (1208, 1208, 1209); (1210, 1210, 1211);
   (1212, 1212, 1213); (1214, 1214, 1215); (1216, 1216, 1231);
   (1217, 1217, 1218); (1219, 1219, 1220); (1221, 1221, 1222);
   (1223, 1223, 1224); (1225, 1225, 1226); (1227, 1227, 1228);
   (1229, 1229, 1230); (1232, 1232, 1233); (1234, 1234, 1235);
   (1236, 1236, 1237); (1238, 1238, 1239); (1240, 1240, 1241);
   (1242, 1242, 1243); (1244, 1244, 1245); (1246, 1246, 1247);
   (1248, 1248, 1249); (1250, 1250, 1251); (1252, 1252, 1253);
   (1254, 1254, 1255); (1256, 1256, 1257); (1258, 1258, 1259);
   (1260, 1260, 1261); (1262, 1262, 1263); (1264, 1264, 1265);
   (1266, 1266, 1267); (1268, 1268, 1269); (1270, 1270, 1271);
   (1272, 1272, 1273); (1274, 1274, 1275); (1276, 1276, 1277);
   (1278, 1278, 1279); (1280, 1280, 1281); (1282, 1282, 1283);
   (1284, 1284, 1285); (1286, 1286, 1287); (1288, 1288, 1289);
   (1290, 1290, 1291); (1292, 1292, 1293); (1294, 1294, 1295);
   (1296, 1296, 1297); (1298, 1298, 1299); (1300, 1300, 1301);
   (1302, 1302, 1303); (1304, 1304, 1305); (1306, 1306, 1307);
   (1308, 1308, 1309); (1310, 1310, 1311); (1312, 1312, 1313);
   (1314, 1314, 1315); (1316, 1316, 1317); (1318, 1318, 1319);
   (1320, 1320, 1321); (1322, 1322, 1323); (1324, 1324, 1325);
   (1326, 1326, 1327); (1329, 1366, 1377); (4256, 4293, 11520);
   (4295, 4295, 11559); (4301, 4301, 11565); (5024, 5103, 43888);
   (5104, 5109, 5112); (7312, 7354, 4304); (7357, 7359, 4349);
   (7680, 7680, 7681); (7682, 7682, 7683); (7684, 7684, 7685);
   (7686, 7686, 7687); (7688, 7688, 7689); (7690, 7690, 7691);
   (7692, 7692, 7693); (7694, 7694, 7695); (7696, 7696, 7697);
   (7698, 7698, 7699); (7700, 7700, 7701); (7702, 7702, 7703);
   (7704, 7704, 7705); (7706, 7706, 7707); (7708, 7708, 7709);
   (7710, 7710, 7711); (7712, 7712, 7713); (7714, 7714, 7715);
   (7716, 7716, 7717); (7718, 7718, 7719); (7720, 7720, 7721);
   (7722, 7722, 7723); (7724, 7724, 7725); (7726, 7726, 7727);
   (7728, 7728, 7729); (7730, 7730, 7731); (7732, 7732, 7733);
   (7734, 7734, 7735); (7736, 7736, 7737); (7738, 7738, 7739);
   (7740, 7740, 7741); (7742, 7742, 7743); (7744, 7744, 7745);
   (7746, 7746, 7747); (7748, 7748, 7749); (7750, 7750, 7751);
   (7752, 7752, 7753); (7754, 7754, 7755); (7756, 7756, 7757);
   (7758, 7758, 7759); (7760, 7760, 7761); (7762, 7762, 7763);
   (7764, 7764, 7765); (7766, 7766, 7767); (7768, 7768, 7769);
   (7770, 7770, 7771); (7772, 7772, 7773); (7774, 7774, 7775);
   (7776, 7776, 7777); (7778, 7778, 7779); (7780, 7780, 7781);
   (7782, 7782, 7783); (7784, 7784, 7785); (7786, 7786, 7787);
   (7788, 7788, 7789); (7790, 7790, 7791); (7792, 7792, 7793);
   (7794, 7794, 7795); (7796, 7796, 7797); (7798, 7798, 7799);
   (7800, 7800, 7801); (7802, 7802, 7803); (7804, 7804, 7805);
   (7806, 7806, 7807); (7808, 7808, 7809); (7810, 7810, 7811);
   (7812, 7812, 7813); (7814, 7814, 7815); (7816, 7816, 7817);
   (7818, 7818, 7819); (7820, 7820, 7821); (7822, 7822, 7823);
   (7824, 7824, 7825); (7826, 7826, 7827); (7828, 7828, 7829);
   (7838, 7838, 223); (7840, 7840, 7841); (7842, 7842, 7843);
   (7844, 7844, 7845); (7846, 7846, 7847); (7848, 7848, 7849);
   (7850, 7850, 7851); (7852, 7852, 7853); (7854, 7854, 7855);
   (7856, 7856, 7857); (7858, 7858, 7859); (7860, 7860, 7861);
   (7862, 7862, 7863); (7864, 7864, 7865); (7866, 7866, 7867);
   (7868, 7868, 7869); (7870, 7870, 7871); (7872, 7872, 7873);
   (7874, 7874, 7875); (7876, 7876, 7877); (7878, 7878, 7879);
   (7880, 7880, 7881); (7882, 7882, 7883); (7884, 7884, 7885);
   (7886, 7886, 7887); (7888, 7888, 7889); (7890, 7890, 7891);
   (7892, 7892, 7893); (7894, 7894, 7895); (7896, 7896, 7897);
   (7898, 7898, 7899); (7900, 7900, 7901); (7902, 7902, 7903);
   (7904, 7904, 7905); (7906, 7906, 7907); (7908, 7908, 7909);
   (7910, 7910, 7911); (7912, 7912, 7913); (7914, 7914, 7915);
   (7916, 7916, 7917); (7918, 7918, 7919); (7920, 7920, 7921);
   (7922, 7922, 7923); (7924, 7924, 7925); (7926, 7926, 7927);
   (7928, 7928, 7929); (7930, 7930, 7931); (7932, 7932, 7933);
   (7934, 7934, 7935); (7944, 7951, 7936); (7960, 7965, 7952);
   (7976, 7983, 7968); (7992, 7999, 7984); (8008, 8013, 8000);
   (8025, 8025, 8017); (8027, 8027, 8019); (8029, 8029, 8021);
   (8031, 8031, 8023); (8040, 8047, 8032); (8072, 8079, 8064);
   (8088, 8095, 8080); (8104, 8111, 8096); (8120, 8121, 8112);
   (8122, 8123, 8048); (8124, 8124, 8115); (8136, 8139, 8050);
   (8140, 8140, 8131); (8152, 8153, 8144); (8154, 8155, 8054);
   (8168, 8169, 8160); (8170, 8171, 8058); (8172, 8172, 8165);
   (8184, 8185, 8056); (8186, 8187, 8060); (8188, 8188, 8179);
   (8486, 8486, 969); (8490, 8490, 107); (8491, 8491, 229);
   (8498, 8498, 8526); (8544, 8559, 8560); (8579, 8579, 8580);
   (9398, 9423, 9424); (11264, 11311, 11312); (11360, 11360, 11361);
   (11362, 11362, 619); (11363, 11363, 7549); (11364, 11364, 637);
   (11367, 11367, 11368); (11369, 11369, 11370); (11371, 11371, 11372);
   (11373, 11373, 593); (11374, 11374, 625); (11375, 11375, 592);
   (11376, 11376, 594); (11378, 11378, 11379); (11381, 11381, 11382);
   (11390, 11391, 575); (11392, 11392, 11393); (11394, 11394, 11395);
   (11396, 11396, 11397); (11398, 11398, 11399); (11400, 11400, 11401);
   (11402, 11402, 11403); (11404, 11404, 11405); (11406, 11406, 11407);
   (11408, 11408, 11409); (11410, 11410, 11411); (11412, 11412, 11413);
   (11414, 11414, 11415); (11416, 11416, 11417); (11418, 11418, 11419);
   (11420, 11420, 11421); (11422, 11422, 11423); (11424, 11424, 11425);
   (11426, 11426, 11427); (11428, 11428, 11429); (11430, 11430, 11431);
   (11432, 11432, 11433); (11434, 11434, 11435); (11436, 11436, 11437);
   (11438, 11438, 11439); (11440, 11440, 11441); (11442, 11442, 11443);
   (11444, 11444, 11445); (11446, 11446, 11447); (11448, 11448, 11449);
   (11450, 11450, 11451); (11452, 11452, 11453); (11454, 11454, 11455);
   (11456, 11456, 11457); (11458, 11458, 11459); (11460, 11460, 11461);
   (11462, 11462, 11463); (11464, 11464, 11465); (11466, 11466, 11467);
   (11468, 11468, 11469); (11470, 11470, 11471); (11472, 11472, 11473);
   (11474, 11474, 11475); (11476, 11476, 11477); (11478, 11478, 11479);
   (11480, 11480, 11481); (11482, 11482, 11483); (11484, 11484, 11485);
   (11486, 11486, 11487); (11488, 11488, 11489); (11490, 11490, 11491);
   (11499, 11499, 11500); (11501, 11501, 11502); (11506, 11506, 11507);
   (42560, 42560, 42561); (42562, 42562, 42563); (42564, 42564, 42565);
   (42566, 42566, 42567); (42568, 42568, 42569); (42570, 42570, 42571);
   (42572, 42572, 42573); (42574, 42574, 42575); (42576, 42576, 42577);
   (42578, 42578, 42579); (42580, 42580, 42581); (42582, 42582, 42583);
   (42584, 42584, 42585); (42586, 42586, 42587); (42588, 42588, 42589);
   (42590, 42590, 42591); (42592, 42592, 42593); (42594, 42594, 42595);
   (42596, 42596, 42597); (42598, 42598, 42599); (42600, 42600, 42601);
   (42602, 42602, 42603); (42604, 42604, 42605); (42624, 42624, 42625);
   (42626, 42626, 42627); (42628, 42628, 42629); (42630, 42630, 42631);
   (42632, 42632, 42633); (42634, 42634, 42635); (42636, 42636, 42637);
   (42638, 42638, 42639); (42640, 42640, 42641); (42642, 42642, 42643);
   (42644, 42644, 42645); (42646, 42646, 42647); (42648, 42648, 42649);
   (42650, 42650, 42651); (42786, 42786, 42787); (42788, 42788, 42789);
   (42790, 42790, 42791); (42792, 42792, 42793); (42794, 42794, 42795);
   (42796, 42796, 42797); (42798, 42798, 42799); (42802, 42802, 42803);
   (42804, 42804, 42805); (42806, 42806, 42807); (42808, 42808, 42809);
   (42810, 42810, 42811); (42812, 42812, 42813); (42814, 42814, 42815);
   (42816, 42816, 42817); (42818, 42818, 42819); (42820, 42820, 42821);
   (42822, 42822, 42823); (42824, 42824, 42825); (42826, 42826, 42827);
   (42828, 42828, 42829); (42830, 42830, 42831); (42832, 42832, 42833);
   (42834, 42834, 42835); (42836, 42836, 42837); (42838, 42838, 42839);
   (42840, 42840, 42841); (42842, 42842, 42843); (42844, 42844, 42845);
   (42846, 42846, 42847); (42848, 42848, 42849); (42850, 42850, 42851);
   (42852, 42852, 42853); (42854, 42854, 42855); (42856, 42856, 42857);
   (42858, 42858, 42859); (42860, 42860, 42861); (42862, 42862, 42863);
   (42873, 42873, 42874); (42875, 42875, 42876); (42877, 42877, 7545);
   (42878, 42878, 42879); (42880, 42880, 42881); (42882, 42882, 42883);
   (42884, 42884, 42885); (42886, 42886, 42887); (42891, 42891, 42892);
   (42893, 42893, 613); (42896, 42896, 42897); (42898, 42898, 42899);
   (42902, 42902, 42903); (42904, 42904, 42905); (42906, 42906, 42907);
   (42908, 42908, 42909); (42910, 42910, 42911); (42912, 42912, 42913);
   (42914, 42914, 42915); (42916, 42916, 42917); (42918, 42918, 42919);
   (42920, 42920, 42921); (42922, 42922, 614); (42923, 42923, 604);
   (42924, 42924, 609); (42925, 42925, 620); (42926, 42926, 618);
   (42928, 42928, 670); (42929, 42929, 647); (42930, 42930, 669);
   (42931, 42931, 43859); (42932, 42932, 42933); (42934, 42934, 42935);
   (42936, 42936, 42937); (42938, 42938, 42939); (42940, 42940, 42941);
   (42942, 42942, 42943); (42944, 42944, 42945); (42946, 42946, 42947);
   (42948, 42948, 42900); (42949, 42949, 642); (42950, 42950, 7566);
   (42951, 42951, 42952); (42953, 42953, 42954); (42960, 42960, 42961);
   (42966, 42966, 42967); (42968, 42968, 42969); (42997, 42997, 42998);
   (65313, 65338, 65345); (66560, 66599, 66600); (66736, 66771, 66776);
   (66928, 66938, 66967); (66940, 66954, 66979); (66956, 66962, 66995);
   (66964, 66965, 67003); (68736, 68786, 68800); (71840, 71871, 71872);
   (93760, 93791, 93792); (125184, 125217, 125218)]%N.

(** The image of [c] by a table of mappings, or [c] when it has none. *)
Fixpoint mapped (c : char) (l : list (N * N * N)) : char :=
  match l with
  | [] => c
  | (lo, hi, to) :: l' =>
      if ((lo <=? c)%N && (c <=? hi)%N) then (to + (c - lo))%N else mapped c l'
  end.

End Unicode.

(** ** Outcomes of Python computations *)

Inductive py_exn : Type :=
| IndexError.

Inductive outcome (A : Type) : Type :=
| Ok (a : A)
| Raise (e : py_exn)
| OutOfFuel.

Arguments Ok {A} a.
Arguments Raise {A} e.
Arguments OutOfFuel {A}.

Definition bind {A B : Type} (c : outcome A) (k : A -> outcome B) : outcome B :=
  match c with
  | Ok a => k a
  | Raise e => Raise e
  | OutOfFuel => OutOfFuel
  end.

Notation "x <- c ;; k" := (bind c (fun x => k))
  (at level 61, c at next level, right associativity).
Notation "' p <- c ;; k" := (bind c (fun x => let 'p := x in k))
  (at level 61, p pattern, c at next level, right associativity).

(** ** Python string operations *)

Module PyStr.

Definition nl_char : char := 10%N.
Definition nl : string := String nl_char "".

(** [c.isspace()], which is also the class [\s] of [re]. *)
Definition isspace (c : char) : bool := Unicode.in_ranges c Unicode.space_ranges.

(** The ranges [A-Z] and [a-z] of a pattern, and its class [a-zA-Z]. *)
Definition in_A_Z (c : char) : bool := (65 <=? c)%N && (c <=? 90)%N.
Definition in_a_z (c : char) : bool := (97 <=? c)%N && (c <=? 122)%N.
Definition in_a_zA_Z (c : char) : bool := in_a_z c || in_A_Z c.

(** The class [\w] of [re] for a [str] pattern: [c.isalnum()] or the
    underscore. *)
Definition isword (c : char) : bool :=
  Unicode.in_ranges c Unicode.alnum_ranges || N.eqb c (ch "_").

(** The lower-case form of one character other than U+03A3. *)
Definition lower_char (c : char) : string :=
  if N.eqb c 304 then String 105%N (String 775%N "")
  else String (Unicode.mapped c Unicode.lower_ranges) "".

Fixpoint first_not_ignorable (s : string) : option char :=
  match s with
  | EmptyString => None
  | String c s' =>
      if Unicode.in_ranges c Unicode.case_ignorable_ranges
      then first_not_ignorable s' else Some c
  end.

(** The capital sigma U+03A3 is final when a cased character stands
    before it and none after it, characters that case ignores aside;
    [before] is the text before it, reversed. *)
Definition final_sigma (before after : string) : bool :=
  match first_not_ignorable before with
  | Some c =>
      Unicode.in_ranges c Unicode.cased_ranges
      && match first_not_ignorable after with
         | Some d => negb (Unicode.in_ranges d Unicode.cased_ranges)
         | None => true
         end
  | None => false
  end.

Fixpoint lower_from (before s : string) : string :=
  match s with
  | EmptyString => EmptyString
  | String c s' =>
      (if N.eqb c 931
       then String (if final_sigma before s' then 962 else 963)%N ""
       else lower_char c)
      ++ lower_from (String c before) s'
  end.

(** [s.lower()] *)
Definition lower (s : string) : string := lower_from "" s.

(** [c in s] for a single character. *)
Fixpoint has_char (c : char) (s : string) : bool :=
  match s with
  | EmptyString => false
  | String d s' => N.eqb d c || has_char c s'
  end.

(** [s.count(c)] for a single character. *)
Fixpoint count_char (c : char) (s : string) : nat :=
  match s with
  | EmptyString => 0
  | String d s' => (if N.eqb d c then 1 else 0) + count_char c s'
  end.

(** [s.split(c)] for a single-character separator: never empty. *)
Fixpoint split_char (c : char) (s : string) : list string :=
  match s with
  | EmptyString => [EmptyString]
  | String d s' =>
      if N.eqb d c then EmptyString :: split_char c s'
      else match split_char c s' with
           | p :: ps => String d p :: ps
           | [] => [String d EmptyString]
           end
  end.

(** [s.split(c)[0]], which is also [s.split(c, 1)[0]]. *)
Fixpoint before_char (c : char) (s : string) : string :=
  match s with
  | EmptyString => EmptyString
  | String d s' => if N.eqb d c then EmptyString else String d (before_char c s')
  end.

Definition startswith (s p : string) : bool := String.prefix p s.

Fixpoint rev_string (s acc : string) : string :=
  match s with
  | EmptyString => acc
  | String c s' => rev_string s' (String c acc)
  end.

Fixpoint lstrip (s : string) : string :=
  match s with
  | EmptyString => EmptyString
  | String c s' => if isspace c then lstrip s' else s
  end.

Definition rstrip (s : string) : string :=
  rev_string (lstrip (rev_string s "")) "".

Definition strip (s : string) : string := rstrip (lstrip s).

(** [s.endswith(c)] for a single character. *)
Definition endswith_char (s : string) (c : char) : bool :=
  match rev_string s "" with
  | String d _ => N.eqb d c
  | EmptyString => false
  end.

(** [p in s] for strings. *)
Fixpoint contains (s p : string) : bool :=
  String.prefix p s ||
  match s with
  | EmptyString => false
  | String _ s' => contains s' p
  end.

(** [s.split()]: the maximal runs of characters that are not white space. *)
Fixpoint split_ws_aux (s : string) (cur : string) : list string :=
  match s with
  | EmptyString =>
      match cur with
      | EmptyString => []
      | _ => [rev_string cur ""]
      end
  | String c s' =>
      if isspace c then
        match cur with
        | EmptyString => split_ws_aux s' ""
        | _ => rev_string cur "" :: split_ws_aux s' ""
        end
      else split_ws_aux s' (String c cur)
  end.

Definition split_ws (s : string) : list string := split_ws_aux s "".

(** [''.join(l)] and [sep.join(l)]. *)
Definition join (l : list string) : string := String.concat "" l.
Definition join_with (sep : string) (l : list string) : string := String.concat sep l.

(** [s.isidentifier()]: a character with the property [XID_Start] or an
    underscore, followed by characters with the property [XID_Continue]. *)
Definition isidentifier (s : string) : bool :=
  match s with
  | EmptyString => false
  | String c s' =>
      (Unicode.in_ranges c Unicode.xid_start_ranges || N.eqb c (ch "_")) &&
      (fix all (t : string) : bool :=
         match t with
         | EmptyString => true
         | String d t' => Unicode.in_ranges d Unicode.xid_continue_ranges && all t'
         end) s'
  end.

(** Membership of a string in a tuple of strings. *)
Definition in_strings (s : string) (l : list string) : bool :=
  existsb (String.eqb s) l.

End PyStr.

Arguments PyStr.isspace c : simpl never.
Arguments PyStr.isword c : simpl never.
Arguments Unicode.in_ranges c l : simpl never.

(** ** Regular expressions

    The patterns of [JavaChecker.py] use concatenation, alternation,
    repetition and character classes only, so [re.match] succeeds exactly
    when some prefix of the line belongs to the language of the pattern;
    membership is decided by derivatives. *)

Module Regex.

Inductive regex : Type :=
| Void
| Eps
| Class (p : char -> bool)
| Cat (r1 r2 : regex)
| Alt (r1 r2 : regex)
| Star (r : regex).

Definition Chr (c : char) : regex := Class (N.eqb c).
Definition Plus (r : regex) : regex := Cat r (Star r).
Definition Opt (r : regex) : regex := Alt r Eps.

Fixpoint Lit (s : string) : regex :=
  match s with
  | EmptyString => Eps
  | String c s' => Cat (Chr c) (Lit s')
  end.

Fixpoint Seq (l : list regex) : regex :=
  match l with
  | [] => Eps
  | r :: l' => Cat r (Seq l')
  end.

Fixpoint AnyOf (l : list regex) : regex :=
  match l with
  | [] => Void
  | r :: l' => Alt r (AnyOf l')
  end.

Fixpoint nullable (r : regex) : bool :=
  match r with
  | Void => false
  | Eps => true
  | Class _ => false
  | Cat r1 r2 => nullable r1 && nullable r2
  | Alt r1 r2 => nullable r1 || nullable r2
  | Star _ => true
  end.

Definition cat (r1 r2 : regex) : regex :=
  match r1, r2 with
  | Void, _ => Void
  | _, Void => Void
  | Eps, _ => r2
  | _, _ => Cat r1 r2
  end.

Definition alt (r1 r2 : regex) : regex :=
  match r1, r2 with
  | Void, _ => r2
  | _, Void => r1
  | _, _ => Alt r1 r2
  end.

Fixpoint deriv (c : char) (r : regex) : regex :=
  match r with
  | Void => Void
  | Eps => Void
  | Class p => if p c then Eps else Void
  | Cat r1 r2 =>
      if nullable r1 then alt (cat (deriv c r1) r2) (deriv c r2)
      else cat (deriv c r1) r2
  | Alt r1 r2 => alt (deriv c r1) (deriv c r2)
  | Star r1 => cat (deriv c r1) (Star r1)
  end.

(** The whole of [s] belongs to the language of [r]. *)
Fixpoint fullmatch (r : regex) (s : string) : bool :=
  match s with
  | EmptyString => nullable r
  | String c s' => fullmatch (deriv c r) s'
  end.

(** Some prefix of [s] belongs to the language of [r]: [re.match]. *)
Fixpoint prefixmatch (r : regex) (s : string) : bool :=
  nullable r ||
  match s with
  | EmptyString => false
  | String c s' => prefixmatch (deriv c r) s'
  end.

End Regex.

(** ** The line classifier, [JavaChecker.py] *)

Module JavaChecker.
Import Regex.

Definition non_method_keywords_prefix : list string :=
  ["class "; "interface "; "enum "; "import "; "package "].

Definition statement_keywords : list string :=
  ["if "; "if("; "for "; "for("; "while "; "while("; "switch "; "switch(";
   "try "; "try{"; "catch "; "catch("; "finally "; "finally{";
   "return "; "throw "; "new "; "super("; "this("].

Definition sp : regex := Class PyStr.isspace.
Definition word : regex := Class PyStr.isword.
Definition one_of (s : string) (c : char) : bool := PyStr.has_char c s.

(** [(?:@\w+(?:\([^)]*\))?\s+)*] *)
Definition annotations_pattern : regex :=
  Star (Seq [Chr (ch "@"); Plus word;
             Opt (Seq [Chr (ch "("); Star (Class (fun c => negb (N.eqb c (ch ")")))); Chr (ch ")")]);
             Plus sp]).

(** [(?:(?:public|private|...|strictfp)\s+)*] *)
Definition modifiers_pattern : regex :=
  Star (Cat (AnyOf (map Lit ["public"; "private"; "protected"; "static"; "final";
                             "abstract"; "synchronized"; "native"; "strictfp"]))
            (Plus sp)).

(** [(?:<\s*[\w\s,<>?&extends]+\s*>\s+)?] *)
Definition method_generics_pattern : regex :=
  Opt (Seq [Chr (ch "<"); Star sp;
            Plus (Class (fun c => PyStr.isword c || PyStr.isspace c
                                  || one_of ",<>?&extends" c));
            Star sp; Chr (ch ">"); Plus sp]).

(** [[a-zA-Z_$]] and [[\w$.<>\[\]]] *)
Definition type_name_start_char : regex :=
  Class (fun c => PyStr.in_a_zA_Z c || one_of "_$" c).
Definition type_name_chars : regex :=
  Class (fun c => PyStr.isword c || one_of "$.<>[]" c).

Definition return_type_pattern : regex :=
  Alt (Lit "void") (Cat type_name_start_char (Star type_name_chars)).

Definition method_name_pattern : regex := Cat type_name_start_char (Star word).

(** [parameters_pattern]: the parentheses, with white space and any
    characters but a closing parenthesis between them. *)
Definition parameters_pattern : regex :=
  Seq [Chr (ch "("); Star sp; Star (Class (fun c => negb (N.eqb c (ch ")"))));
       Star sp; Chr (ch ")")].

(** [(?:\s*throws\s+[\w\s,.<>\[\]]+)?] *)
Definition throws_pattern : regex :=
  Opt (Seq [Star sp; Lit "throws"; Plus sp;
            Plus (Class (fun c => PyStr.isword c || PyStr.isspace c
                                  || one_of ",.<>[]" c))]).

(** The pattern between [^] and [$]; it ends in [\s*], so the final [$]
    asks for the end of the line. *)
Definition java_method_regex : regex :=
  Seq [Star sp; annotations_pattern; modifiers_pattern; method_generics_pattern;
       return_type_pattern; Plus sp; method_name_pattern; Star sp;
       parameters_pattern; throws_pattern;
       Star sp; Alt (Opt (Chr (ch "{"))) (Opt (Chr (ch ";"))); Star sp].

Definition field_tail : regex :=
  Seq [Plus (Class (fun c => PyStr.isword c || one_of ".<>[]" c)); Plus sp;
       Plus (Class (fun c => PyStr.isword c || one_of "[]" c)); Star sp;
       Chr (ch "="); Star sp;
       Star (Class (fun c => negb (N.eqb c PyStr.nl_char))); Chr (ch ";")].

(** [^\s*(?:(?:public|private|protected|static|final)\s+)*[\w.<>\[\]]+\s+[\w\[\]]+\s*=\s*.*;] *)
Definition modified_field_regex : regex :=
  Seq [Star sp;
       Star (Cat (AnyOf (map Lit ["public"; "private"; "protected"; "static"; "final"]))
                 (Plus sp));
       field_tail].

(** [^\s*[\w.<>\[\]]+\s+[\w\[\]]+\s*=\s*.*;] *)
Definition plain_field_regex : regex := Seq [Star sp; field_tail].

(** Steps 1 to 3, on the stripped line: the early [return False]. *)
Definition rejected_early (line : string) : bool :=
  match line with EmptyString => true | _ => false end
  || PyStr.startswith line "//" || PyStr.startswith line "/*"
  || PyStr.startswith line "*"
  || existsb (PyStr.startswith line) non_method_keywords_prefix
  || existsb (fun kw =>
                PyStr.startswith line kw
                && (PyStr.endswith_char kw (ch "(") || PyStr.endswith_char kw (ch "{")
                    || PyStr.has_char (ch " ") kw))
       statement_keywords.

Definition signature_before_params (line : string) : string :=
  PyStr.before_char (ch "(") line.
Definition is_abstract (line : string) : bool :=
  PyStr.contains (signature_before_params line) "abstract ".
Definition is_native (line : string) : bool :=
  PyStr.contains (signature_before_params line) "native ".
Definition ends_with_brace (line : string) : bool :=
  PyStr.endswith_char (PyStr.rstrip line) (ch "{").
Definition ends_with_semicolon (line : string) : bool :=
  PyStr.endswith_char (PyStr.rstrip line) (ch ";").

(** The branch [if match:], on the stripped line. *)
Definition classify_match (line : string) : bool :=
  if is_abstract line then negb (ends_with_brace line)
  else if is_native line then ends_with_semicolon line && negb (ends_with_brace line)
  else if ends_with_brace line then true
  else if ends_with_semicolon line then true
  else if negb (ends_with_brace line) && negb (ends_with_semicolon line) then true
  else false.

(** What follows a failed match: every path returns [False]. *)
Definition classify_no_match (line : string) : bool :=
  if PyStr.has_char (ch "=") line
     && negb (PyStr.has_char (ch "(") (PyStr.before_char (ch "=") line))
  then
    if prefixmatch modified_field_regex line then false
    else if prefixmatch plain_field_regex line then false
    else false
  else false.

Definition is_java_method_start (line : string) : bool :=
  let line := PyStr.strip line in
  if rejected_early line then false
  else if fullmatch java_method_regex line then classify_match line
  else classify_no_match line.

End JavaChecker.

(** ** Tokens *)

(** Modelled from the spec: the token categories of [pygments.token], which
    is not among the sources.  A category is a path in the category
    hierarchy ([Keyword.Declaration] refines [Keyword]); two categories are
    equal when their paths are. *)
Definition ttype : Type := list string.

Fixpoint ttype_eqb (a b : ttype) : bool :=
  match a, b with
  | [], [] => true
  | x :: a', y :: b' => String.eqb x y && ttype_eqb a' b'
  | _, _ => false
  end.

Definition ttype_in (t : ttype) (l : list ttype) : bool := existsb (ttype_eqb t) l.

Module Tok.
Definition Whitespace : ttype := ["Text"; "Whitespace"].
Definition Error : ttype := ["Error"].
Definition Keyword : ttype := ["Keyword"].
Definition Name : ttype := ["Name"].
Definition String : ttype := ["Literal"; "String"].
Definition Number : ttype := ["Literal"; "Number"].
Definition Punctuation : ttype := ["Punctuation"].
Definition Operator : ttype := ["Operator"].
Definition Comment : ttype := ["Comment"].
Definition Generic : ttype := ["Generic"].
(** Attribute access [T.Sub] on a category. *)
Definition sub (t : ttype) (s : string) : ttype := t ++ [s].
End Tok.

Notation "t '.:' s" := (Tok.sub t s) (at level 20, left associativity).

Definition token : Type := (ttype * string)%type.

(** [tokens[i]] *)
Definition tok_at (tokens : list token) (i : nat) : outcome token :=
  match nth_error tokens i with
  | Some t => Ok t
  | None => Raise IndexError
  end.

(** [tokens[i][0] in (Whitespace,)] *)
Definition is_ws (t : token) : bool := ttype_in (fst t) [Tok.Whitespace].

(** ** The formatter object *)

Inductive function_style_t : Type := callout | emphasis | heading.

Definition function_style_eqb (a b : function_style_t) : bool :=
  match a, b with
  | callout, callout | emphasis, emphasis | heading, heading => true
  | _, _ => false
  end.

(** The attributes that [MarkdownFormatter.__init__] sets, after its
    normalisation, and the two entries of [self.options] that
    [format_unencoded] reads. *)
Record formatter : Type := {
  lang : string;
  linenos : bool;
  linenostart : Z;
  hl_lines : list Z;
  inline_styles : bool;
  fence_char : char;
  fence_count : nat;
  highlight_functions : bool;
  function_style : function_style_t;
  opt_full : bool;
  opt_title : string
}.

(** Modelled from the spec: the option readers [get_bool_opt],
    [get_int_opt] and [get_list_opt] of [pygments.util] and the [options]
    dictionary kept by the base class [Formatter], which are not among the
    sources.  The keyword arguments given to the constructor are taken as
    values of the types that the specification gives to the configuration;
    [None] is an absent key. *)
Record options : Type := {
  o_lang : option string;
  o_linenos : option bool;
  o_linenostart : option Z;
  o_hl_lines : option (list Z);
  o_inline_styles : option bool;
  o_fence_char : option string;
  o_fence_count : option Z;
  o_highlight_functions : option bool;
  o_function_style : option string;
  o_full : option bool;
  o_title : option string
}.

Definition no_options : options :=
  {| o_lang := None; o_linenos := None; o_linenostart := None;
     o_hl_lines := None; o_inline_styles := None; o_fence_char := None;
     o_fence_count := None; o_highlight_functions := None;
     o_function_style := None; o_full := None; o_title := None |}.

Definition get {A : Type} (o : option A) (default : A) : A :=
  match o with Some a => a | None => default end.

(** [MarkdownFormatter.__init__], for a formatter that has no [lexer]
    attribute. *)
Definition init (o : options) : formatter :=
  {| lang := get (o_lang o) "";
     linenos := get (o_linenos o) false;
     linenostart := get (o_linenostart o) 1%Z;
     hl_lines := get (o_hl_lines o) [];
     inline_styles := get (o_inline_styles o) false;
     fence_char :=
       (let c := get (o_fence_char o) "`" in
        if String.eqb c "`" then (ch "`")
        else if String.eqb c "~" then (ch "~") else (ch "`"));
     fence_count :=
       (let n := get (o_fence_count o) 3%Z in
        if (n <? 3)%Z then 3 else Z.to_nat n);
     highlight_functions := get (o_highlight_functions o) true;
     function_style :=
       (let s := get (o_function_style o) "emphasis" in
        if String.eqb s "callout" then callout
        else if String.eqb s "heading" then heading else emphasis);
     opt_full := get (o_full o) false;
     opt_title := get (o_title o) "Code" |}.

(** ** The token-stream signature scanner *)

Record scan_result : Type := {
  is_function : bool;
  function_name : option string;
  parameters : option string;
  end_idx : nat
}.

Definition not_found (start_idx : nat) : scan_result :=
  {| is_function := false; function_name := None; parameters := None;
     end_idx := start_idx |}.

Definition def_keywords : list string :=
  ["def"; "function"; "fn"; "func"; "method"; "proc"; "procedure"; "sub";
   "subroutine"].

Definition modifier_words : list string :=
  ["public"; "private"; "protected"; "static"; "void"; "int"; "string";
   "bool"; "float"; "double"].

(** [while i < len(tokens) and tokens[i][0] in (Whitespace,): i += 1] *)
Fixpoint skip_whitespace (fuel : nat) (tokens : list token) (i : nat) : outcome nat :=
  match fuel with
  | 0 => OutOfFuel
  | S fuel' =>
      if i <? length tokens then
        t <- tok_at tokens i ;;
        if is_ws t then skip_whitespace fuel' tokens (S i) else Ok i
      else Ok i
  end.

(** The look-back loop [while j < i: ...; j += 1] that collects the
    preceding tokens that are not white space. *)
Fixpoint look_back (fuel : nat) (tokens : list token) (i j : nat)
    (prev_tokens : list token) : outcome (list token) :=
  match fuel with
  | 0 => OutOfFuel
  | S fuel' =>
      if j <? i then
        t <- tok_at tokens j ;;
        look_back fuel' tokens i (S j)
          (if negb (is_ws t) then prev_tokens ++ [t] else prev_tokens)
      else Ok prev_tokens
  end.

(** [last_token[0] in (Keyword.Type, Name.Builtin.Type, Keyword) or
    last_token[1] in ('public', ...)] *)
Definition is_type_or_modifier (last_token : token) : bool :=
  ttype_in (fst last_token)
    [Tok.Keyword .: "Type"; Tok.Name .: "Builtin" .: "Type"; Tok.Keyword]
  || PyStr.in_strings (snd last_token) modifier_words.

(** The parameter loop [while i < len(tokens) and paren_count > 0]; it
    returns the index reached and the collected [param_tokens]. *)
Fixpoint scan_parameters (fuel : nat) (tokens : list token) (i paren_count : nat)
    (param_tokens : list token) : outcome (nat * list token) :=
  match fuel with
  | 0 => OutOfFuel
  | S fuel' =>
      if (i <? length tokens) && (0 <? paren_count) then
        ' (ty, value) <- tok_at tokens i ;;
        let paren_count' :=
          if ttype_eqb ty Tok.Punctuation then
            if String.eqb value "(" then paren_count + 1
            else if String.eqb value ")" then paren_count - 1
            else paren_count
          else paren_count in
        let param_tokens' :=
          if 0 <? paren_count' then param_tokens ++ [(ty, value)]
          else param_tokens in
        scan_parameters fuel' tokens (S i) paren_count' param_tokens'
      else Ok (i, param_tokens)
  end.

(** [value in (':', '{', ';') or value == '\n'] *)
Definition is_terminator (value : string) : bool :=
  PyStr.in_strings value [":"; "{"; ";"] || String.eqb value PyStr.nl.

(** The terminator loop [while i < len(tokens)]; both of its exits return
    the index reached. *)
Fixpoint scan_terminator (fuel : nat) (tokens : list token) (i : nat) : outcome nat :=
  match fuel with
  | 0 => OutOfFuel
  | S fuel' =>
      if i <? length tokens then
        ' (_, value) <- tok_at tokens i ;;
        if is_terminator value then Ok i
        else scan_terminator fuel' tokens (S i)
      else Ok i
  end.

(** [' '.join(''.join(token[1] for token in param_tokens).strip().split())] *)
Definition parameter_text (param_tokens : list token) : string :=
  PyStr.join_with " "
    (PyStr.split_ws (PyStr.strip (PyStr.join (map snd param_tokens)))).

(** The loop that looks for the opening parenthesis, with the parameter
    and terminator loops nested in it. *)
Fixpoint find_paren (fuel : nat) (tokens : list token) (start_idx : nat)
    (name : string) (i : nat) : outcome scan_result :=
  match fuel with
  | 0 => OutOfFuel
  | S fuel' =>
      if i <? length tokens then
        ' (ty, value) <- tok_at tokens i ;;
        if ttype_eqb ty Tok.Punctuation && String.eqb value "(" then
          ' (i1, param_tokens) <-
             scan_parameters (S (length tokens)) tokens (S i) 1 [] ;;
          i2 <- scan_terminator (S (length tokens)) tokens i1 ;;
          Ok {| is_function := true; function_name := Some name;
                parameters := Some (parameter_text param_tokens);
                end_idx := i2 |}
        else if negb (ttype_in ty [Tok.Whitespace]) then
          Ok (not_found start_idx)
        else find_paren fuel' tokens start_idx name (S i)
      else Ok (not_found start_idx)
  end.

(** Head detection: the position after the head and [found_def]. *)
Definition detect_head (tokens : list token) (i : nat) : outcome (nat * bool) :=
  ' (ty, value) <- tok_at tokens i ;;
  if ttype_in ty [Tok.Keyword; Tok.Keyword .: "Declaration"]
     && PyStr.in_strings (PyStr.lower value) def_keywords
  then Ok (S i, true)
  else if ttype_eqb ty Tok.Name && (0 <? i) then
    prev_tokens <- look_back (S (length tokens)) tokens i (Nat.max 0 (i - 5)) [] ;;
    if 1 <=? length prev_tokens then
      let last_token := last prev_tokens ([], "") in
      Ok (i, is_type_or_modifier last_token)
    else Ok (i, false)
  else Ok (i, false).

(** [MarkdownFormatter._is_function_definition] *)
Definition _is_function_definition (self : formatter) (tokens : list token)
    (start_idx : nat) : outcome scan_result :=
  if negb (highlight_functions self) then Ok (not_found start_idx)
  else
    i <- skip_whitespace (S (length tokens)) tokens start_idx ;;
    if length tokens <=? i then Ok (not_found start_idx)
    else
      ' (i, found_def) <- detect_head tokens i ;;
      if negb found_def then Ok (not_found start_idx)
      else
        i <- skip_whitespace (S (length tokens)) tokens i ;;
        if length tokens <=? i then Ok (not_found start_idx)
        else
          ' (ty, value) <- tok_at tokens i ;;
          if ttype_in ty [Tok.Name; Tok.Name .: "Function"; Tok.Name .: "Other"]
          then find_paren (S (length tokens)) tokens start_idx value (S i)
          else Ok (not_found start_idx).

(** ** The discovery pre-pass *)

Module Sig.
(** One entry of [function_signatures]. *)
Record t : Type := {
  name : option string;
  parameters : string;
  start_idx : nat;
  end_idx : nat;
  line_num : nat;
  signature : string
}.
End Sig.

(** [line_num = 1; for j in range(i): line_num += tokens[j][1].count('\n')] *)
Fixpoint line_of (tokens : list token) (i : nat) : outcome nat :=
  match i with
  | 0 => Ok 1
  | S j =>
      line_num <- line_of tokens j ;;
      t <- tok_at tokens j ;;
      Ok (line_num + PyStr.count_char PyStr.nl_char (snd t))
  end.

(** [tokens[i:j]] *)
Definition slice {A : Type} (l : list A) (i j : nat) : list A :=
  firstn (j - i) (skipn i l).

(** The loop [while i < len(tokens)] of the pre-pass. *)
Fixpoint find_signatures (fuel : nat) (self : formatter) (tokens : list token)
    (i : nat) : outcome (list Sig.t) :=
  match fuel with
  | 0 => OutOfFuel
  | S fuel' =>
      if i <? length tokens then
        r <- _is_function_definition self tokens i ;;
        if is_function r then
          line_num <- line_of tokens i ;;
          let func :=
            {| Sig.name := function_name r;
               Sig.parameters := get (parameters r) "";
               Sig.start_idx := i;
               Sig.end_idx := end_idx r;
               Sig.line_num := line_num;
               Sig.signature := PyStr.join (map snd (slice tokens i (end_idx r))) |} in
          rest <- find_signatures fuel' self tokens (end_idx r) ;;
          Ok (func :: rest)
        else find_signatures fuel' self tokens (S i)
      else Ok []
  end.

(** The list [function_signatures] that [format_unencoded] builds. *)
Definition function_signatures (self : formatter) (tokens : list token)
  : outcome (list Sig.t) :=
  if highlight_functions self
  then find_signatures (S (length tokens)) self tokens 0
  else Ok [].

(** ** The style mapper *)

Definition style_map : list (ttype * (string * string)) :=
  let C := Tok.Comment in let K := Tok.Keyword in let L := Tok.String in
  let N := Tok.Name in let M := Tok.Number in let O := Tok.Operator in
  let G := Tok.Generic in
  [ (C, ("*", "*")); (C .: "Single", ("*", "*")); (C .: "Multiline", ("*", "*"));
    (C .: "Preproc", ("*", "*")); (C .: "PreprocFile", ("*", "*"));
    (C .: "Special", ("*", "*"));
    (K, ("**", "**")); (K .: "Constant", ("**", "**"));
    (K .: "Declaration", ("**", "**")); (K .: "Namespace", ("**", "**"));
    (K .: "Pseudo", ("**", "**")); (K .: "Reserved", ("**", "**"));
    (K .: "Type", ("**", "**"));
    (L, ("", "")); (L .: "Backtick", ("", "")); (L .: "Char", ("", ""));
    (L .: "Doc", ("", "")); (L .: "Double", ("", "")); (L .: "Escape", ("", ""));
    (L .: "Heredoc", ("", "")); (L .: "Interpol", ("", "")); (L .: "Other", ("", ""));
    (L .: "Regex", ("", "")); (L .: "Single", ("", "")); (L .: "Symbol", ("", ""));
    (N, ("", "")); (N .: "Attribute", ("", "")); (N .: "Builtin", ("", ""));
    (N .: "Builtin" .: "Pseudo", ("", "")); (N .: "Class", ("", ""));
    (N .: "Constant", ("", "")); (N .: "Decorator", ("", ""));
    (N .: "Entity", ("", "")); (N .: "Exception", ("", ""));
    (N .: "Function", ("", "")); (N .: "Function" .: "Magic", ("", ""));
    (N .: "Label", ("", "")); (N .: "Namespace", ("", "")); (N .: "Other", ("", ""));
    (N .: "Property", ("", "")); (N .: "Tag", ("", "")); (N .: "Variable", ("", ""));
    (N .: "Variable" .: "Class", ("", "")); (N .: "Variable" .: "Global", ("", ""));
    (N .: "Variable" .: "Instance", ("", "")); (N .: "Variable" .: "Magic", ("", ""));
    (M, ("", "")); (M .: "Bin", ("", "")); (M .: "Float", ("", ""));
    (M .: "Hex", ("", "")); (M .: "Integer", ("", ""));
    (M .: "Integer" .: "Long", ("", "")); (M .: "Oct", ("", ""));
    (O, ("", "")); (O .: "Word", ("", "")); (Tok.Punctuation, ("", ""));
    (Tok.Error, ("~~", "~~"));
    (G, ("", "")); (G .: "Deleted", ("~~", "~~")); (G .: "Emph", ("*", "*"));
    (G .: "Error", ("~~", "~~")); (G .: "Heading", ("**", "**"));
    (G .: "Inserted", ("", "")); (G .: "Output", ("", ""));
    (G .: "Prompt", ("**", "**")); (G .: "Strong", ("**", "**"));
    (G .: "Subheading", ("**", "**")); (G .: "Traceback", ("*", "*")) ].

(** [style_map.get(ttype, ('', ''))] *)
Fixpoint dict_get (m : list (ttype * (string * string))) (k : ttype)
    (default : string * string) : string * string :=
  match m with
  | [] => default
  | (k', v) :: m' => if ttype_eqb k k' then v else dict_get m' k default
  end.

(** [MarkdownFormatter._get_markdown_style] *)
Definition _get_markdown_style (self : formatter) (ty : ttype) : string * string :=
  if negb (inline_styles self) then ("", "")
  else dict_get style_map ty ("", "").

(** ** Output *)

(** One element of [current_line]: the text taken from a token, between
    the inline markup that surrounds it (both empty without styling). *)
Record piece : Type := {
  p_prefix : string;
  p_text : string;
  p_suffix : string
}.

Definition piece_text (p : piece) : string :=
  (p_prefix p ++ p_text p ++ p_suffix p)%str.

Inductive annotation : Type :=
| NoAnnotation
| FunctionMark (function_name : string)
| Highlighted.

(** What [outfile.write] receives, by the role of the text written. *)
Inductive chunk : Type :=
| Text (s : string)
| FenceOpen (s : string)
| FenceClose (s : string)
| CodeLine (number : Z) (numbered : bool) (parts : list piece) (note : annotation).

Definition nonempty (s : string) : bool :=
  match s with EmptyString => false | _ => true end.

(** The characters of a numeral of the standard library. *)
Fixpoint of_digits (s : Stdlib.Strings.String.string) : string :=
  match s with
  | Stdlib.Strings.String.EmptyString => EmptyString
  | Stdlib.Strings.String.String a s' =>
      String (Stdlib.Strings.Ascii.N_of_ascii a) (of_digits s')
  end.

(** [str(n)] *)
Definition str_of_Z (n : Z) : string :=
  of_digits (NilZero.string_of_int (Z.to_int n)).
Definition str_of_nat (n : nat) : string :=
  of_digits (NilZero.string_of_uint (Nat.to_uint n)).

Fixpoint spaces (n : nat) : string :=
  match n with 0 => "" | S n' => String (ch " ") (spaces n') end.

(** [f'{n:4d}'] *)
Definition format_4d (n : Z) : string :=
  let s := str_of_Z n in (spaces (4 - String.length s) ++ s)%str.

(** [str(x)] for a value that is a string or [None]. *)
Definition str_of_name (x : option string) : string := get x "None".

Definition annotation_text (a : annotation) : string :=
  match a with
  | NoAnnotation => ""
  | FunctionMark f => ("  # 🔧 FUNCTION: " ++ f)%str
  | Highlighted => "  # <<< HIGHLIGHTED"
  end.

Definition chunk_text (c : chunk) : string :=
  match c with
  | Text s => s
  | FenceOpen s => s
  | FenceClose s => s
  | CodeLine number numbered parts note =>
      ((if numbered then format_4d number ++ " | " else "")
       ++ PyStr.join (map piece_text parts)
       ++ annotation_text note ++ PyStr.nl)%str
  end.

(** The text that reaches [outfile]. *)
Definition output_text (out : list chunk) : string :=
  PyStr.join (map chunk_text out).

(** ** Writing one line *)

Definition line_keywords : list string :=
  ["def "; "function "; "fn "; "func "; "method "; "proc "; "procedure "; "sub "].

(** The loop [while i <= min(len(tokens) - 1, token_idx + 10)] of
    [_write_line], which collects [line_tokens]; [hi] is the bound. *)
Fixpoint collect_line_tokens (fuel : nat) (tokens : list token) (line_number : Z)
    (hi i : nat) (temp_line_num : Z) (line_tokens : list token)
  : outcome (list token) :=
  match fuel with
  | 0 => OutOfFuel
  | S fuel' =>
      if i <=? hi then
        if i <? length tokens then
          ' (ty, value) <- tok_at tokens i ;;
          if PyStr.has_char PyStr.nl_char value then
            let line_tokens' :=
              if (temp_line_num =? line_number)%Z
              then line_tokens ++ [(ty, hd "" (PyStr.split_char PyStr.nl_char value))]
              else line_tokens in
            let temp_line_num' :=
              (temp_line_num + Z.of_nat (PyStr.count_char PyStr.nl_char value))%Z in
            if (temp_line_num' >? line_number)%Z then Ok line_tokens'
            else collect_line_tokens fuel' tokens line_number hi (S i)
                   temp_line_num' line_tokens'
          else
            collect_line_tokens fuel' tokens line_number hi (S i) temp_line_num
              (if (temp_line_num =? line_number)%Z
               then line_tokens ++ [(ty, value)] else line_tokens)
        else collect_line_tokens fuel' tokens line_number hi (S i)
               temp_line_num line_tokens
      else Ok line_tokens
  end.

(** The loop that extracts the function name from [line_tokens]. *)
Fixpoint first_identifier (line_tokens : list token) : string :=
  match line_tokens with
  | [] => ""
  | (ty, value) :: rest =>
      if ttype_in ty [Tok.Name .: "Function"; Tok.Name] && PyStr.isidentifier value
      then value else first_identifier rest
  end.

(** The first part of [_write_line]: [(is_function_line, function_name)].
    The arguments [tokens] and [token_idx] default to [None]. *)
Definition function_line (self : formatter) (line_number : Z)
    (tokens : option (list token)) (token_idx : option nat)
  : outcome (bool * string) :=
  match tokens, token_idx with
  | Some ((_ :: _) as tokens), Some token_idx =>
      if highlight_functions self && function_style_eqb (function_style self) emphasis
      then
        line_tokens <-
          collect_line_tokens (S (length tokens)) tokens line_number
            (Nat.min (length tokens - 1) (token_idx + 10))
            (Nat.max 0 (token_idx - 10)) line_number [] ;;
        let line_text := PyStr.strip (PyStr.join (map snd line_tokens)) in
        if existsb (PyStr.contains line_text) line_keywords
        then Ok (true, first_identifier line_tokens)
        else Ok (false, "")
      else Ok (false, "")
  | _, _ => Ok (false, "")
  end.

(** [MarkdownFormatter._write_line] *)
Definition _write_line (self : formatter) (line_parts : list piece)
    (line_number : Z) (tokens : option (list token)) (token_idx : option nat)
  : outcome chunk :=
  ' (is_function_line, function_name) <-
     function_line self line_number tokens token_idx ;;
  let note :=
    if is_function_line && function_style_eqb (function_style self) emphasis
    then FunctionMark function_name
    else if existsb (Z.eqb line_number) (hl_lines self) then Highlighted
    else NoAnnotation in
  Ok (CodeLine line_number (linenos self) line_parts note).

(** ** The rendering loop *)

(** What is appended to [current_line] for a non-empty part of a token. *)
Definition styled (self : formatter) (ty : ttype) (part : string) : piece :=
  if inline_styles self then
    let (prefix, suffix) := _get_markdown_style self ty in
    if nonempty prefix || nonempty suffix
    then {| p_prefix := prefix; p_text := part; p_suffix := suffix |}
    else {| p_prefix := ""; p_text := part; p_suffix := "" |}
  else {| p_prefix := ""; p_text := part; p_suffix := "" |}.

Definition append_part (self : formatter) (ty : ttype) (current_line : list piece)
    (part : string) : list piece :=
  if nonempty part then current_line ++ [styled self ty part] else current_line.

(** The loop [for i in range(1, len(parts) - 1)] over the parts between two
    line breaks of one token; each is a line of its own. *)
Fixpoint middle_lines (self : formatter) (tokens : list token) (token_idx : nat)
    (ty : ttype) (middle : list string) (line_number : Z)
  : outcome (list chunk * Z) :=
  match middle with
  | [] => Ok ([], line_number)
  | part :: middle' =>
      c <- _write_line self (append_part self ty [] part) line_number
             (Some tokens) (Some token_idx) ;;
      ' (cs, line_number') <-
         middle_lines self tokens token_idx ty middle' (line_number + 1)%Z ;;
      Ok (c :: cs, line_number')
  end.

(** The body of the loop for a token that no call-out replaces: the
    chunks written, and the new [current_line] and [line_number]. *)
Definition emit_token (self : formatter) (tokens : list token) (token_idx : nat)
    (ty : ttype) (value : string) (current_line : list piece) (line_number : Z)
  : outcome (list chunk * list piece * Z) :=
  if PyStr.has_char PyStr.nl_char value then
    let parts := PyStr.split_char PyStr.nl_char value in
    let current_line := append_part self ty current_line (hd "" parts) in
    c <- _write_line self current_line line_number (Some tokens) (Some token_idx) ;;
    ' (cs, line_number') <-
       middle_lines self tokens token_idx ty (removelast (tl parts))
         (line_number + 1)%Z ;;
    let current_line :=
      if (1 <? length parts) then append_part self ty [] (last parts "") else [] in
    Ok (c :: cs, current_line, line_number')
  else
    Ok ([], append_part self ty current_line value, line_number).

(** [for func in function_signatures: if token_idx == func['start_idx']] *)
Definition current_func (function_signatures : list Sig.t) (token_idx : nat)
  : option Sig.t :=
  find (fun func => token_idx =? Sig.start_idx func) function_signatures.

(** The call-out that interrupts the fence at a signature. *)
Definition splice (self : formatter) (fence : string) (func : Sig.t)
    (current_line : list piece) (line_number : Z)
  : outcome (list chunk * list piece) :=
  match function_style self with
  | callout =>
      ' (flushed, current_line) <-
         (match current_line with
          | [] => Ok ([], current_line)
          | _ => c <- _write_line self current_line line_number None None ;;
                 Ok ([c], [])
          end) ;;
      Ok (flushed ++
          [FenceClose (fence ++ PyStr.nl ++ PyStr.nl);
           Text ("> **📋 Function:** `" ++ str_of_name (Sig.name func) ++ "`" ++ PyStr.nl);
           Text ("> Line " ++ str_of_Z line_number ++ PyStr.nl ++ PyStr.nl);
           FenceOpen (fence ++ lang self ++ PyStr.nl)], current_line)
  | heading =>
      ' (flushed, current_line) <-
         (match current_line with
          | [] => Ok ([], current_line)
          | _ => c <- _write_line self current_line line_number None None ;;
                 Ok ([c], [])
          end) ;;
      Ok (flushed ++
          [FenceClose (fence ++ PyStr.nl ++ PyStr.nl);
           Text ("### 🔧 " ++ str_of_name (Sig.name func) ++ PyStr.nl ++ PyStr.nl);
           FenceOpen (fence ++ lang self ++ PyStr.nl)], current_line)
  | emphasis => Ok ([], current_line)
  end.

(** The loop [while token_idx < len(tokens)] of [format_unencoded]: the
    chunks written, and [current_line] and [line_number] at its exit. *)
Fixpoint render_loop (fuel : nat) (self : formatter) (tokens : list token)
    (function_signatures : list Sig.t) (fence : string)
    (current_line : list piece) (line_number : Z) (token_idx : nat)
  : outcome (list chunk * list piece * Z) :=
  match fuel with
  | 0 => OutOfFuel
  | S fuel' =>
      if token_idx <? length tokens then
        ' (ty, value) <- tok_at tokens token_idx ;;
        match current_func function_signatures token_idx,
              negb (function_style_eqb (function_style self) emphasis) with
        | Some func, true =>
            ' (cs, current_line) <-
               splice self fence func current_line line_number ;;
            ' (rest, current_line, line_number) <-
               render_loop fuel' self tokens function_signatures fence
                 current_line line_number (Sig.end_idx func) ;;
            Ok (cs ++ rest, current_line, line_number)
        | _, _ =>
            ' (cs, current_line, line_number) <-
               emit_token self tokens token_idx ty value current_line line_number ;;
            ' (rest, current_line, line_number) <-
               render_loop fuel' self tokens function_signatures fence
                 current_line line_number (S token_idx) ;;
            Ok (cs ++ rest, current_line, line_number)
        end
      else Ok ([], current_line, line_number)
  end.

(** ** [format_unencoded] *)

(** [fence_char * fence_count] *)
Fixpoint repeat_char (c : char) (n : nat) : string :=
  match n with 0 => "" | S n' => String c (repeat_char c n') end.

(** [sorted(self.hl_lines)], the attribute being a set. *)
Fixpoint insert_sorted (x : Z) (l : list Z) : list Z :=
  match l with
  | [] => [x]
  | y :: l' =>
      if (x <? y)%Z then x :: l
      else if (x =? y)%Z then l
      else y :: insert_sorted x l'
  end.

Definition sorted_set (l : list Z) : list Z := fold_right insert_sorted [] l.

Definition params_display (func : Sig.t) : string :=
  if nonempty (Sig.parameters func)
  then ("(" ++ Sig.parameters func ++ ")")%str else "()".

Definition header (self : formatter) : list chunk :=
  if opt_full self then
    [Text ("# " ++ opt_title self ++ PyStr.nl ++ PyStr.nl);
     Text ("Generated by Pygments Markdown Formatter" ++ PyStr.nl ++ PyStr.nl)]
  else [].

Definition summary (self : formatter) (function_signatures : list Sig.t) : list chunk :=
  match function_signatures, function_style self with
  | _ :: _, callout =>
      [Text ("## 📚 Functions Found" ++ PyStr.nl ++ PyStr.nl)]
      ++ map (fun func =>
                Text ("- **" ++ str_of_name (Sig.name func) ++ "**"
                      ++ params_display func ++ " (line "
                      ++ str_of_nat (Sig.line_num func) ++ ")" ++ PyStr.nl))
             function_signatures
      ++ [Text PyStr.nl]
  | _, _ => []
  end.

Definition highlighted_comment (self : formatter) : list chunk :=
  match hl_lines self with
  | [] => []
  | _ =>
      [Text (PyStr.nl ++ "<!-- Highlighted lines: ");
       Text (PyStr.join_with ", " (map str_of_Z (sorted_set (hl_lines self))));
       Text (" -->" ++ PyStr.nl)]
  end.

Definition functions_list (self : formatter) (function_signatures : list Sig.t)
  : list chunk :=
  match function_signatures, function_style self with
  | _ :: _, emphasis =>
      [Text (PyStr.nl ++ "## 🔧 Functions" ++ PyStr.nl ++ PyStr.nl)]
      ++ map (fun func =>
                Text ("**" ++ str_of_name (Sig.name func) ++ "**"
                      ++ params_display func ++ " - Line "
                      ++ str_of_nat (Sig.line_num func) ++ PyStr.nl))
             function_signatures
      ++ [Text PyStr.nl]
  | _, _ => []
  end.

(** [MarkdownFormatter.format_unencoded], the token source already a list. *)
Definition format_unencoded (self : formatter) (tokens : list token)
  : outcome (list chunk) :=
  function_signatures <- function_signatures self tokens ;;
  let fence := repeat_char (fence_char self) (fence_count self) in
  ' (body, current_line, line_number) <-
     render_loop (S (length tokens)) self tokens function_signatures fence
       [] (linenostart self) 0 ;;
  remaining <-
    (match current_line with
     | [] => Ok []
     | _ => c <- _write_line self current_line line_number (Some tokens)
                   (Some (length tokens - 1)) ;;
            Ok [c]
     end) ;;
  Ok (header self
      ++ summary self function_signatures
      ++ [FenceOpen (fence ++ lang self ++ PyStr.nl)]
      ++ body ++ remaining
      ++ [FenceClose (fence ++ PyStr.nl)]
      ++ highlighted_comment self
      ++ functions_list self function_signatures).

(** The text that [format_unencoded] writes. *)
Definition render (self : formatter) (tokens : list token) : outcome string :=
  out <- format_unencoded self tokens ;;
  Ok (output_text out).

(** ** Example token streams *)

Module Examples.
Definition kw (s : string) : token := (Tok.Keyword, s).
Definition ws (s : string) : token := (Tok.Whitespace, s).
Definition fn (s : string) : token := (Tok.Name .: "Function", s).
Definition nm (s : string) : token := (Tok.Name, s).
Definition pu (s : string) : token := (Tok.Punctuation, s).

(** [def f(a, b):] followed by a line break and a body line. *)
Definition def_f : list token :=
  [kw "def"; ws " "; fn "f"; pu "("; nm "a"; pu ","; ws " "; nm "b"; pu ")";
   pu ":"; ws PyStr.nl; ws "    "; kw "pass"; ws PyStr.nl].

(** Two one-line definitions, [def f():] and [def g(x):]. *)
Definition two_defs : list token :=
  [kw "def"; ws " "; fn "f"; pu "("; pu ")"; pu ":"; ws PyStr.nl;
   kw "def"; ws " "; fn "g"; pu "("; nm "x"; pu ")"; pu ":"; ws PyStr.nl].



(** [def café(x):] and a line break. *)
Definition def_cafe : list token :=
  [kw "def"; ws " "; fn "café"; pu "("; nm "x"; pu ")"; pu ":"; ws PyStr.nl].



(** [def f()] followed by a blank and a line break in one token. *)
Definition def_then_blank : list token :=
  [kw "def"; ws " "; fn "f"; pu "("; pu ")"; ws (" " ++ PyStr.nl)%str;
   kw "pass"; ws PyStr.nl].

(** A formatter with line 1 highlighted, otherwise without options. *)
Definition highlight_first : formatter :=
  init {| o_lang := None; o_linenos := None; o_linenostart := None;
          o_hl_lines := Some [1%Z]; o_inline_styles := None;
          o_fence_char := None; o_fence_count := None;
          o_highlight_functions := None; o_function_style := None;
          o_full := None; o_title := None |}.

(** A formatter that asks for an invalid fence and a tag. *)
Definition odd_fence : options :=
  {| o_lang := Some "python"; o_linenos := None; o_linenostart := None;
     o_hl_lines := None; o_inline_styles := None; o_fence_char := Some "#";
     o_fence_count := Some 1%Z; o_highlight_functions := None;
     o_function_style := Some "heading"; o_full := None; o_title := None |}.

Definition with_style (st : string) : formatter :=
  init {| o_lang := None; o_linenos := None; o_linenostart := None;
          o_hl_lines := None; o_inline_styles := None; o_fence_char := None;
          o_fence_count := None; o_highlight_functions := None;
          o_function_style := Some st; o_full := None; o_title := None |}.
End Examples.

(** ** Vocabulary of the properties *)

(** A confirmed signature: the opening parenthesis at [open], the
    parameter loop run from the next index up to [p], and the terminator
    loop run from [p] up to [e]. *)
Definition confirmed (tokens : list token) (open p e : nat) : Prop :=
  nth_error tokens open = Some (Tok.Punctuation, "(")
  /\ (exists param_tokens,
        scan_parameters (S (length tokens)) tokens (S open) 1 [] = Ok (p, param_tokens))
  /\ scan_terminator (S (length tokens)) tokens p = Ok e.

(** The index [e] is that of the first token from [p] on whose text
    satisfies [is_term], or the length of the stream when there is none. *)
Definition ends_at_first (is_term : string -> bool) (tokens : list token)
    (p e : nat) : Prop :=
  p <= e <= length tokens
  /\ (forall k t, p <= k < e -> nth_error tokens k = Some t -> is_term (snd t) = false)
  /\ (e = length tokens
      \/ exists t, nth_error tokens e = Some t /\ is_term (snd t) = true).

(** The terminators as the specification words them: a colon, a brace, a
    semicolon, or any text that contains a line break. *)
Definition newline_containing_terminator (value : string) : bool :=
  PyStr.in_strings value [":"; "{"; ";"] || PyStr.has_char PyStr.nl_char value.

(** A record found by a scan that began at [i] or later, with a range
    that is not empty and lies within the stream. *)
Definition well_formed_at (tokens : list token) (i : nat) (a : Sig.t) : Prop :=
  i <= Sig.start_idx a /\ Sig.start_idx a < Sig.end_idx a
  /\ Sig.end_idx a <= length tokens.

(** The record [b] begins where the scan resumed after [a], or later. *)
Definition resumes_after (a b : Sig.t) : Prop := Sig.end_idx a <= Sig.start_idx b.

Definition is_fence_open (c : chunk) : bool :=
  match c with FenceOpen _ => true | _ => false end.

Definition is_fence_close (c : chunk) : bool :=
  match c with FenceClose _ => true | _ => false end.

Definition is_code_line (c : chunk) : bool :=
  match c with CodeLine _ _ _ _ => true | _ => false end.

Definition opening_fences (out : list chunk) : nat :=
  length (filter is_fence_open out).

Definition closing_fences (out : list chunk) : nat :=
  length (filter is_fence_close out).

(** What [_write_line] guarantees of the annotation of line [n]. *)
Definition note_ok (self : formatter) (n : Z) (note : annotation) : Prop :=
  match note with
  | FunctionMark _ =>
      highlight_functions self = true /\ function_style self = emphasis
  | Highlighted => In n (hl_lines self)
  | NoAnnotation => ~ In n (hl_lines self)
  end.

(** A line is written with the number prefix that [linenos] asks for and
    with an annotation that [note_ok] allows. *)
Definition line_ok (self : formatter) (c : chunk) : Prop :=
  match c with
  | CodeLine n numbered _ note => numbered = linenos self /\ note_ok self n note
  | _ => True
  end.

(** As many fences opened as closed, and every line as [line_ok] asks. *)
Definition chunks_ok (self : formatter) (out : list chunk) : Prop :=
  opening_fences out = closing_fences out /\ Forall (line_ok self) out.

(** Nothing but lines, each as [line_ok] asks. *)
Definition lines_only (self : formatter) (out : list chunk) : Prop :=
  Forall (fun c => is_code_line c = true /\ line_ok self c) out.

(** The line numbers given to the lines written, in order. *)
Fixpoint line_numbers (out : list chunk) : list Z :=
  match out with
  | [] => []
  | CodeLine n _ _ _ :: out' => n :: line_numbers out'
  | _ :: out' => line_numbers out'
  end.

(** The text of one line without its inline markup. *)
Definition plain_text (parts : list piece) : string :=
  PyStr.join (map p_text parts).

(** The output with fences, call-outs, summaries, line numbers,
    annotations and inline markup removed: the plain text of every line
    written, each followed by a line break. *)
Fixpoint code_text (out : list chunk) : string :=
  match out with
  | [] => ""
  | CodeLine _ _ parts _ :: out' =>
      (plain_text parts ++ PyStr.nl ++ code_text out')%str
  | _ :: out' => code_text out'
  end.

(** [''.join(text for _, text in tokens)] *)
Definition source_text (tokens : list token) : string :=
  PyStr.join (map snd tokens).

(** The stripped output reconstructs the source, line break for line
    break; a last line that the source leaves open is closed. *)
Definition faithful (tokens : list token) (out : list chunk) : Prop :=
  code_text out = source_text tokens
  \/ code_text out = (source_text tokens ++ PyStr.nl)%str.

(** The numbers [first], [first + 1], ... of [n] successive lines. *)
Fixpoint consecutive (first : Z) (n : nat) : list Z :=
  match n with
  | 0 => []
  | S n' => first :: consecutive (first + 1)%Z n'
  end.

(** Each string followed by a line break. *)
Fixpoint lines_text (l : list string) : string :=
  match l with
  | [] => ""
  | m :: l' => (m ++ PyStr.nl ++ lines_text l')%str
  end.

(** The text of the tokens from index [i] on. *)
Definition rest_text (tokens : list token) (i : nat) : string :=
  source_text (skipn i tokens).

(** No element of [current_line] holds an empty text. *)
Definition all_nonempty (current_line : list piece) : Prop :=
  Forall (fun p => p_text p <> "") current_line.

(** The number of line breaks in a text. *)
Definition count_nl (s : string) : nat := PyStr.count_char PyStr.nl_char s.

(** ** Vocabulary of the further properties *)

(** The fence string of [format_unencoded]. *)
Definition fence_of (self : formatter) : string :=
  repeat_char (fence_char self) (fence_count self).

(** What the rendering loop writes between the first opening fence and
    the last closing one: lines whose parts all satisfy [Q], call-out texts,
    and the fences that surround a call-out. *)
Definition body_chunk_ok (self : formatter) (fence : string) (Q : piece -> Prop)
    (c : chunk) : Prop :=
  match c with
  | CodeLine n numbered parts note =>
      numbered = linenos self /\ note_ok self n note /\ Forall Q parts
  | FenceOpen s => s = (fence ++ lang self ++ PyStr.nl)%str
  | FenceClose s => s = (fence ++ PyStr.nl ++ PyStr.nl)%str
  | Text _ => True
  end.

(** A part of a token text as [append_part] keeps it: not empty and
    without a line break. *)
Definition part_ok (part : string) : Prop :=
  part <> "" /\ PyStr.has_char PyStr.nl_char part = false.

(** The state of the rendering loop with respect to the records: those
    in [done] end at [token_idx] or before and are behind the loop, those
    in [rest] lie ahead of it, in order. *)
Definition records_ahead (tokens : list token) (sigs done rest : list Sig.t)
    (token_idx : nat) : Prop :=
  sigs = done ++ rest
  /\ Forall (fun a => Sig.start_idx a < Sig.end_idx a
                      /\ Sig.end_idx a <= token_idx) done
  /\ Forall (well_formed_at tokens token_idx) rest
  /\ StronglySorted resumes_after rest.

(** The only markers that [_get_markdown_style] can return. *)
Definition markers : list string := [""; "*"; "**"; "~~"].

(** A part of a line as the loop builds it: a piece of token text that is
    not empty and holds no line break, between two equal markers, which
    are empty when [inline_styles] is off. *)
Definition piece_ok (self : formatter) (p : piece) : Prop :=
  part_ok (p_text p)
  /\ p_prefix p = p_suffix p
  /\ In (p_prefix p) markers
  /\ (inline_styles self = false -> p_prefix p = "").

(** [value.lower() in ('def', ...)] for a token of category [Keyword] or
    [Keyword.Declaration]: the head of the keyword-prefixed branch. *)
Definition is_def_keyword (t : token) : bool :=
  ttype_in (fst t) [Tok.Keyword; Tok.Keyword .: "Declaration"]
  && PyStr.in_strings (PyStr.lower (snd t)) def_keywords.

(** [ttype in (Name, Name.Function, Name.Other)] *)
Definition is_name (t : token) : bool :=
  ttype_in (fst t) [Tok.Name; Tok.Name .: "Function"; Tok.Name .: "Other"].

(** Every token from index [a] up to, not including, [b] is white space. *)
Definition all_ws_between (tokens : list token) (a b : nat) : Prop :=
  forall m t, a <= m < b -> nth_error tokens m = Some t -> is_ws t = true.

(** The head that the scanner accepts at [h] for the name at [k]: a
    callable-introducer keyword before the name, or the name itself when
    it is a plain [Name] whose nearest preceding token that is not white
    space, at most five tokens back, is a type or a modifier. *)
Definition head_shape (tokens : list token) (h k : nat) (name_tok : token) : Prop :=
  (h < k
   /\ (exists t, nth_error tokens h = Some t /\ is_def_keyword t = true)
   /\ all_ws_between tokens (S h) k)
  \/ (h = k /\ 0 < k /\ fst name_tok = Tok.Name
      /\ exists before t gap,
           slice tokens (k - 5) k = before ++ t :: gap
           /\ Forall (fun x => is_ws x = true) gap
           /\ is_ws t = false /\ is_type_or_modifier t = true).

(** [paren_count] after the parameter loop has read the token [t]. *)
Definition paren_step (paren_count : nat) (t : token) : nat :=
  if ttype_eqb (fst t) Tok.Punctuation then
    if String.eqb (snd t) "(" then paren_count + 1
    else if String.eqb (snd t) ")" then paren_count - 1
    else paren_count
  else paren_count.

(** The depth of nesting after the tokens that follow the parenthesis at
    [open], up to, not including, the index [m]; the parenthesis at [open]
    counts for one. *)
Definition depth_before (tokens : list token) (open m : nat) : nat :=
  fold_left paren_step (slice tokens (S open) m) 1.

(** The parameter list opened at [open] ends at [p]: the depth is
    positive at every index between them, and at [p] it is back to zero,
    so that [p - 1] holds the parenthesis that matches the one at [open],
    or the stream is over. *)
Definition params_end (tokens : list token) (open p : nat) : Prop :=
  open < p
  /\ (forall m, open < m < p -> m < length tokens /\ 0 < depth_before tokens open m)
  /\ (depth_before tokens open p = 0 \/ length tokens <= p).

(** The tokens of the parameter list opened at [open] and ended at [p]:
    those between the two parentheses, or all that follow the first when
    the list is not closed. *)
Definition param_tokens_of (tokens : list token) (open p : nat) : list token :=
  slice tokens (S open) (if depth_before tokens open p =? 0 then p - 1 else p).

(** The head of the signature scanned from [start_idx]: white space, the
    head that [head_shape] describes, the name token at [k], white space,
    and the opening parenthesis at [open]. *)
Definition signature_head (tokens : list token) (start_idx k open : nat)
    (name_tok : token) : Prop :=
  exists h,
    start_idx <= h /\ h <= k /\ k < open
    /\ all_ws_between tokens start_idx h
    /\ nth_error tokens k = Some name_tok /\ is_name name_tok = true
    /\ head_shape tokens h k name_tok
    /\ all_ws_between tokens (S k) open
    /\ nth_error tokens open = Some (Tok.Punctuation, "(").

(** What a successful scan from [start_idx] has read. *)
Definition signature_shape (tokens : list token) (start_idx : nat)
    (r : scan_result) : Prop :=
  exists k open p name_tok,
    signature_head tokens start_idx k open name_tok
    /\ function_name r = Some (snd name_tok)
    /\ params_end tokens open p
    /\ parameters r = Some (parameter_text (param_tokens_of tokens open p))
    /\ ends_at_first is_terminator tokens p (end_idx r).


(** What the pre-pass stores in a record: the result of the scan at its
    first index, the number of the line on which that index lies, counted
    from 1, and the text of its tokens. *)
Definition record_ok (self : formatter) (tokens : list token) (a : Sig.t) : Prop :=
  exists r,
    _is_function_definition self tokens (Sig.start_idx a) = Ok r
    /\ is_function r = true
    /\ signature_shape tokens (Sig.start_idx a) r
    /\ Sig.end_idx a = end_idx r
    /\ Sig.name a = function_name r
    /\ Some (Sig.parameters a) = parameters r
    /\ Sig.line_num a
       = 1 + count_nl (source_text (firstn (Sig.start_idx a) tokens))
    /\ Sig.signature a
       = source_text (slice tokens (Sig.start_idx a) (Sig.end_idx a)).

(** The index [m] is the first of a record of [sigs], or lies inside the
    range of one. *)
Definition covered (sigs : list Sig.t) (m : nat) : Prop :=
  exists a, In a sigs
    /\ (Sig.start_idx a = m \/ Sig.start_idx a < m < Sig.end_idx a).

(** The language of a regular expression: [matches r s] when the whole of
    [s] is read by [r]. *)
Inductive matches : Regex.regex -> string -> Prop :=
| matches_eps : matches Regex.Eps ""
| matches_class (p : char -> bool) (c : char) :
    p c = true -> matches (Regex.Class p) (String c "")
| matches_cat (r1 r2 : Regex.regex) (s1 s2 : string) :
    matches r1 s1 -> matches r2 s2 -> matches (Regex.Cat r1 r2) (s1 ++ s2)
| matches_alt_l (r1 r2 : Regex.regex) (s : string) :
    matches r1 s -> matches (Regex.Alt r1 r2) s
| matches_alt_r (r1 r2 : Regex.regex) (s : string) :
    matches r2 s -> matches (Regex.Alt r1 r2) s
| matches_star_nil (r : Regex.regex) : matches (Regex.Star r) ""
| matches_star_app (r : Regex.regex) (s1 s2 : string) :
    matches r s1 -> matches (Regex.Star r) s2 ->
    matches (Regex.Star r) (s1 ++ s2).

(** [part] occurs in [s]. *)
Definition occurs_in (part s : string) : Prop :=
  exists pre post, s = (pre ++ part ++ post)%str.

(** Every character of [s] is white space. *)
Fixpoint all_space (s : string) : bool :=
  match s with
  | EmptyString => true
  | String c s' => PyStr.isspace c && all_space s'
  end.

(** No character of [s] is white space. *)
Fixpoint no_space (s : string) : bool :=
  match s with
  | EmptyString => true
  | String c s' => negb (PyStr.isspace c) && no_space s'
  end.

(** [s] is empty or begins with a character that is not white space. *)
Definition clean_start (s : string) : Prop :=
  match s with
  | EmptyString => True
  | String c _ => PyStr.isspace c = false
  end.

(** A word as [str.split()] returns it: not empty, without white space. *)
Definition is_word (w : string) : bool := nonempty w && no_space w.

(** The index [i] lies in the range of a record of [sigs]. *)
Definition inside (sigs : list Sig.t) (i : nat) : bool :=
  existsb (fun a => (Sig.start_idx a <=? i) && (i <? Sig.end_idx a)) sigs.

(** The tokens that lie outside the ranges of [sigs], [i] being the index
    of the first token of [tokens]. *)
Fixpoint kept (sigs : list Sig.t) (tokens : list token) (i : nat) : list token :=
  match tokens with
  | [] => []
  | t :: tokens' =>
      if inside sigs i then kept sigs tokens' (S i)
      else t :: kept sigs tokens' (S i)
  end.

(** A text without its line breaks. *)
Fixpoint strip_nl (s : string) : string :=
  match s with
  | EmptyString => EmptyString
  | String c s' =>
      if N.eqb c PyStr.nl_char then strip_nl s' else String c (strip_nl s')
  end.

(** Reading the output with a flag that tells whether a fenced block is
    open: a code line needs an open block, a text and an opening fence a
    closed one, a closing fence an open one.  [None] is a violation. *)
Fixpoint fence_state (open : bool) (out : list chunk) : option bool :=
  match out with
  | [] => Some open
  | CodeLine _ _ _ _ :: out' => if open then fence_state true out' else None
  | Text _ :: out' => if open then None else fence_state false out'
  | FenceOpen _ :: out' => if open then None else fence_state true out'
  | FenceClose _ :: out' => if open then fence_state false out' else None
  end.

(** What the lines written so far tell of the numbering: no line has been
    written, or the last line written carries [n], and [fresh] tells
    whether a fence has been opened since. *)
Inductive numbering : Type :=
| NoLine
| LastLine (n : Z) (fresh : bool).

(** The number that a line may carry after [st]: [start] for the first
    line; the next number after a line of the same fenced block; the same
    number or the next one after a line of the block before. *)
Definition follows (start : Z) (st : numbering) (n : Z) : bool :=
  match st with
  | NoLine => (n =? start)%Z
  | LastLine m false => (n =? m + 1)%Z
  | LastLine m true => (n =? m)%Z || (n =? m + 1)%Z
  end.

Definition after_fence (st : numbering) : numbering :=
  match st with
  | NoLine => NoLine
  | LastLine m _ => LastLine m true
  end.

(** Reading the output with the numbering: every line must carry a number
    that [follows] allows.  [None] is a violation. *)
Fixpoint numbered (start : Z) (st : numbering) (out : list chunk)
  : option numbering :=
  match out with
  | [] => Some st
  | CodeLine n _ _ _ :: out' =>
      if follows start st n then numbered start (LastLine n false) out' else None
  | FenceOpen _ :: out' => numbered start (after_fence st) out'
  | _ :: out' => numbered start st out'
  end.

(** The line counter of the rendering loop agrees with the numbering. *)
Definition counter_ok (start : Z) (st : numbering) (line_number : Z) : Prop :=
  match st with
  | NoLine => line_number = start
  | LastLine m false => line_number = (m + 1)%Z
  | LastLine m true => line_number = m \/ line_number = (m + 1)%Z
  end.

(** A token as [_write_line] collects it for the line it writes: the
    token of the stream at an index between [lo] and [hi], with its text
    cut at the first line break. *)
Definition line_token_of (tokens : list token) (lo hi : nat) (t : token) : Prop :=
  exists i value,
    lo <= i <= hi
    /\ nth_error tokens i = Some (fst t, value)
    /\ snd t = hd "" (PyStr.split_char PyStr.nl_char value).


(** [s] ends with the character [c]. *)
Definition ends_with (s : string) (c : char) : Prop :=
  exists pre, s = (pre ++ String c "")%str.





(** The last line of [s] is open: [s] is not empty and does not end with
    a line break. *)
Definition open_last_line (s : string) : Prop :=
  s <> "" /\ ~ ends_with s PyStr.nl_char.

(** * Properties *)

(** ** Equality of strings *)

Lemma string_eqb_refl (s : string) : String.eqb s s = true.
Proof.
  induction s as [|c s IH]; [reflexivity|].
  cbn [String.eqb]. rewrite N.eqb_refl. exact IH.
Qed.

Lemma string_eqb_eq (a b : string) : String.eqb a b = true <-> a = b.
Proof.
  split; [|intros ->; apply string_eqb_refl].
  revert b; induction a as [|c a IH]; intros [|d b] H; try discriminate;
    [reflexivity|].
  cbn [String.eqb] in H. apply andb_true_iff in H as [Hc Hs].
  apply N.eqb_eq in Hc. apply IH in Hs. subst. reflexivity.
Qed.

(** ** Token lookups and token types *)

Lemma tok_at_Ok (tokens : list token) (i : nat) :
  i < length tokens -> exists t, tok_at tokens i = Ok t /\ nth_error tokens i = Some t.
Proof.
  intros Hi. unfold tok_at.
  destruct (nth_error tokens i) as [t|] eqn:E.
  - exists t; split; reflexivity.
  - apply nth_error_None in E. lia.
Qed.

Lemma ttype_eqb_eq (a b : ttype) : ttype_eqb a b = true <-> a = b.
Proof.
  revert b; induction a as [|x a IH]; intros [|y b]; simpl; split; intros H;
    try reflexivity; try discriminate.
  - apply andb_true_iff in H as [Hx Hab].
    apply string_eqb_eq in Hx. apply IH in Hab. congruence.
  - injection H as -> ->. rewrite string_eqb_refl. simpl. apply IH. reflexivity.
Qed.

(** ** The loops of the scanner return *)

Lemma skip_whitespace_Ok (tokens : list token) :
  forall fuel i, length tokens - i < fuel ->
    exists j, skip_whitespace fuel tokens i = Ok j /\ i <= j
              /\ (i <= length tokens -> j <= length tokens).
Proof.
  induction fuel as [|fuel IH]; intros i Hf; [lia|]. simpl.
  destruct (i <? length tokens) eqn:Hi.
  - apply Nat.ltb_lt in Hi.
    destruct (tok_at_Ok tokens i Hi) as [t [-> _]]. simpl.
    destruct (is_ws t).
    + destruct (IH (S i)) as [j [-> [Hj Hl]]]; [lia|].
      exists j; repeat split; lia.
    + exists i; repeat split; lia.
  - exists i; repeat split; lia.
Qed.

Lemma look_back_Ok (tokens : list token) (i : nat) :
  i <= length tokens ->
  forall fuel j prev, i - j < fuel ->
    exists l, look_back fuel tokens i j prev = Ok l.
Proof.
  intros Hi. induction fuel as [|fuel IH]; intros j prev Hf; [lia|]. simpl.
  destruct (j <? i) eqn:Hj.
  - apply Nat.ltb_lt in Hj.
    destruct (tok_at_Ok tokens j) as [t [-> _]]; [lia|]. simpl.
    apply IH. lia.
  - eexists; reflexivity.
Qed.

Lemma scan_parameters_Ok (tokens : list token) :
  forall fuel i paren_count acc, length tokens - i < fuel ->
    exists j acc', scan_parameters fuel tokens i paren_count acc = Ok (j, acc')
      /\ i <= j /\ (i <= length tokens -> j <= length tokens)
      /\ (0 < paren_count ->
          length tokens <= j
          \/ (i < j /\ nth_error tokens (j - 1) = Some (Tok.Punctuation, ")"))).
Proof.
  induction fuel as [|fuel IH]; intros i pc acc Hf; [lia|]. simpl.
  destruct (i <? length tokens) eqn:Hi; simpl.
  - apply Nat.ltb_lt in Hi.
    destruct (0 <? pc) eqn:Hpc; simpl.
    + apply Nat.ltb_lt in Hpc.
      destruct (tok_at_Ok tokens i Hi) as [[ty value] [-> Hnth]]. simpl.
      match goal with
      | |- context [scan_parameters fuel tokens (S i) ?p ?a] =>
          destruct (IH (S i) p a) as [j [acc' [E [Hj [Hl Hp]]]]]; [lia|];
          remember p as pc' eqn:Epc'
      end.
      rewrite E. exists j, acc'. split; [reflexivity|].
      split; [lia|]. split; [lia|]. intros _.
      destruct (0 <? pc') eqn:Hpc'.
      * apply Nat.ltb_lt in Hpc'. destruct (Hp Hpc') as [H|[H1 H2]]; [left; lia|].
        right. split; [lia | exact H2].
      * apply Nat.ltb_ge in Hpc'.
        (* the count fell to zero: the token at [i] is the closing parenthesis *)
        destruct fuel as [|fuel']; [simpl in E; discriminate|].
        simpl in E.
        assert (Hz : (0 <? pc') = false) by (apply Nat.ltb_ge; exact Hpc').
        rewrite Hz, andb_false_r in E. injection E as <- <-.
        right. split; [lia|].
        replace (S i - 1) with i by lia. rewrite Hnth.
        destruct (ttype_eqb ty Tok.Punctuation) eqn:Hty; [|subst pc'; lia].
        apply ttype_eqb_eq in Hty. subst ty.
        destruct (String.eqb value "(") eqn:Ho; [subst pc'; lia|].
        destruct (String.eqb value ")") eqn:Hc; [|subst pc'; lia].
        apply string_eqb_eq in Hc. subst value. reflexivity.
    + exists i, acc. split; [reflexivity|].
      apply Nat.ltb_ge in Hpc. repeat split; lia.
  - apply Nat.ltb_ge in Hi. exists i, acc. split; [reflexivity|].
    split; [lia|]. split; [lia|]. intros _. left; lia.
Qed.

Lemma scan_terminator_Ok (tokens : list token) :
  forall fuel i, length tokens - i < fuel ->
    exists j, scan_terminator fuel tokens i = Ok j
      /\ i <= j /\ (i <= length tokens -> j <= length tokens)
      /\ (forall k t, i <= k < j -> nth_error tokens k = Some t ->
                      is_terminator (snd t) = false)
      /\ (j < length tokens ->
          exists t, nth_error tokens j = Some t /\ is_terminator (snd t) = true).
Proof.
  induction fuel as [|fuel IH]; intros i Hf; [lia|]. simpl.
  destruct (i <? length tokens) eqn:Hi.
  - apply Nat.ltb_lt in Hi.
    destruct (tok_at_Ok tokens i Hi) as [[ty value] [-> Hnth]]. simpl.
    destruct (is_terminator value) eqn:Ht.
    + exists i. split; [reflexivity|]. split; [lia|]. split; [lia|]. split.
      * intros k t Hk. lia.
      * intros _. exists (ty, value). split; [exact Hnth | exact Ht].
    + destruct (IH (S i)) as [j [-> [Hj [Hl [Hno Hat]]]]]; [lia|].
      exists j. split; [reflexivity|]. split; [lia|]. split; [lia|]. split.
      * intros k t Hk Hk'. destruct (Nat.eq_dec k i) as [->|Hne].
        -- rewrite Hnth in Hk'. injection Hk' as <-. exact Ht.
        -- apply (Hno k t); [lia | exact Hk'].
      * exact Hat.
  - apply Nat.ltb_ge in Hi. exists i. split; [reflexivity|].
    split; [lia|]. split; [lia|]. split.
    + intros k t Hk. lia.
    + intros H. lia.
Qed.

Lemma find_paren_Ok (tokens : list token) (start_idx : nat) (name : string) :
  forall fuel i, length tokens - i < fuel ->
    exists r, find_paren fuel tokens start_idx name i = Ok r
      /\ (r = not_found start_idx
          \/ (is_function r = true
              /\ exists open p, i <= open /\ confirmed tokens open p (end_idx r))).
Proof.
  induction fuel as [|fuel IH]; intros i Hf; [lia|]. cbn [find_paren].
  destruct (i <? length tokens) eqn:Hi.
  - apply Nat.ltb_lt in Hi.
    destruct (tok_at_Ok tokens i Hi) as [[ty value] [-> Hnth]]. cbn [bind].
    destruct (ttype_eqb ty Tok.Punctuation && String.eqb value "(") eqn:Hopen.
    + apply andb_true_iff in Hopen as [Hty Hv].
      apply ttype_eqb_eq in Hty. apply string_eqb_eq in Hv. subst ty value.
      destruct (scan_parameters_Ok tokens (S (length tokens)) (S i) 1 [])
        as [p [params [Ep _]]]; [lia|].
      destruct (scan_terminator_Ok tokens (S (length tokens)) p)
        as [e [Ee _]]; [lia|].
      rewrite Ep. cbn [bind]. rewrite Ee. cbn [bind].
      eexists. split; [reflexivity|]. right. cbn [is_function end_idx].
      split; [reflexivity|].
      exists i, p. split; [lia|]. split; [exact Hnth|].
      split; [exists params; exact Ep | exact Ee].
    + destruct (negb (ttype_in ty [Tok.Whitespace])).
      * eexists. split; [reflexivity|]. left; reflexivity.
      * destruct (IH (S i)) as [r [-> Hr]]; [lia|].
        exists r. split; [reflexivity|].
        destruct Hr as [Hr|[Hf' [open [p [Ho Hc]]]]]; [left; exact Hr|].
        right. split; [exact Hf'|]. exists open, p. split; [lia | exact Hc].
  - eexists. split; [reflexivity|]. left; reflexivity.
Qed.

Lemma detect_head_Ok (tokens : list token) (i : nat) :
  i < length tokens ->
  exists i' found_def, detect_head tokens i = Ok (i', found_def) /\ i <= i'.
Proof.
  intros Hi. unfold detect_head.
  destruct (tok_at_Ok tokens i Hi) as [[ty value] [-> _]]. cbn [bind].
  destruct (ttype_in ty [Tok.Keyword; Tok.Keyword .: "Declaration"]
            && PyStr.in_strings (PyStr.lower value) def_keywords).
  - exists (S i), true. split; [reflexivity | lia].
  - destruct (ttype_eqb ty Tok.Name && (0 <? i)).
    + destruct (look_back_Ok tokens i (Nat.lt_le_incl _ _ Hi)
                  (S (length tokens)) (Nat.max 0 (i - 5)) []) as [l El]; [lia|].
      rewrite El. cbn [bind].
      destruct (1 <=? length l); eexists _, _; (split; [reflexivity | lia]).
    + exists i, false. split; [reflexivity | lia].
Qed.

(** The scanner returns, and either reports [not_found] at the index it
    was given or has confirmed a signature past it. *)
Lemma scanner_Ok (self : formatter) (tokens : list token) (start_idx : nat) :
  exists r, _is_function_definition self tokens start_idx = Ok r
    /\ (r = not_found start_idx
        \/ (is_function r = true
            /\ exists open p, start_idx < open /\ confirmed tokens open p (end_idx r))).
Proof.
  unfold _is_function_definition.
  destruct (negb (highlight_functions self)).
  { eexists. split; [reflexivity|]. left; reflexivity. }
  destruct (skip_whitespace_Ok tokens (S (length tokens)) start_idx)
    as [i [-> [Hi _]]]; [lia|]. cbn [bind].
  destruct (length tokens <=? i) eqn:Hlen.
  { eexists. split; [reflexivity|]. left; reflexivity. }
  apply Nat.leb_gt in Hlen.
  destruct (detect_head_Ok tokens i Hlen) as [i' [found_def [-> Hi']]]. cbn [bind].
  destruct (negb found_def).
  { eexists. split; [reflexivity|]. left; reflexivity. }
  destruct (skip_whitespace_Ok tokens (S (length tokens)) i')
    as [i2 [-> [Hi2 _]]]; [lia|]. cbn [bind].
  destruct (length tokens <=? i2) eqn:Hlen2.
  { eexists. split; [reflexivity|]. left; reflexivity. }
  apply Nat.leb_gt in Hlen2.
  destruct (tok_at_Ok tokens i2 Hlen2) as [[ty value] [-> _]]. cbn [bind].
  destruct (ttype_in ty [Tok.Name; Tok.Name .: "Function"; Tok.Name .: "Other"]).
  - destruct (find_paren_Ok tokens start_idx value (S (length tokens)) (S i2))
      as [r [-> Hr]]; [lia|].
    exists r. split; [reflexivity|].
    destruct Hr as [Hr|[Hf [open [p [Ho Hc]]]]]; [left; exact Hr|].
    right. split; [exact Hf|]. exists open, p. split; [lia | exact Hc].
  - eexists. split; [reflexivity|]. left; reflexivity.
Qed.

Lemma confirmed_bounds (tokens : list token) (open p e : nat) :
  confirmed tokens open p e -> open < p /\ p <= e /\ e <= length tokens.
Proof.
  intros [Hopen [[params Hp] He]].
  assert (Hlt : open < length tokens)
    by (apply nth_error_Some; rewrite Hopen; discriminate).
  destruct (scan_parameters_Ok tokens (S (length tokens)) (S open) 1 [])
    as [p' [params' [Ep [H1 [H2 _]]]]]; [lia|].
  rewrite Ep in Hp. injection Hp as <- <-.
  destruct (scan_terminator_Ok tokens (S (length tokens)) p')
    as [e' [Ee [H3 [H4 _]]]]; [lia|].
  rewrite Ee in He. injection He as <-. lia.
Qed.

(** ** The pre-pass returns an ordered list *)

Lemma line_of_Ok (tokens : list token) (i : nat) :
  i <= length tokens -> exists n, line_of tokens i = Ok n.
Proof.
  induction i as [|j IH]; intros Hi; cbn [line_of].
  - eexists; reflexivity.
  - destruct IH as [n ->]; [lia|]. cbn [bind].
    destruct (tok_at_Ok tokens j) as [t [-> _]]; [lia|]. cbn [bind].
    eexists; reflexivity.
Qed.

Lemma find_signatures_Ok (self : formatter) (tokens : list token) :
  forall fuel i, length tokens - i < fuel ->
    exists sigs, find_signatures fuel self tokens i = Ok sigs
      /\ Forall (well_formed_at tokens i) sigs
      /\ StronglySorted resumes_after sigs.
Proof.
  induction fuel as [|fuel IH]; intros i Hf; [lia|]. cbn [find_signatures].
  destruct (i <? length tokens) eqn:Hi.
  - apply Nat.ltb_lt in Hi.
    destruct (scanner_Ok self tokens i) as [r [-> Hr]]. cbn [bind].
    destruct Hr as [->|[Hfound [open [p [Ho Hc]]]]].
    + cbn [is_function not_found].
      destruct (IH (S i)) as [sigs [-> [Hwf Hs]]]; [lia|].
      exists sigs. split; [reflexivity|]. split; [|exact Hs].
      eapply Forall_impl; [|exact Hwf].
      intros a [H1 H2]. split; [lia | exact H2].
    + rewrite Hfound.
      apply confirmed_bounds in Hc. destruct Hc as [Hc1 [Hc2 Hc3]].
      destruct (line_of_Ok tokens i) as [n ->]; [lia|]. cbn [bind].
      destruct (IH (end_idx r)) as [sigs [-> [Hwf Hs]]]; [lia|]. cbn [bind].
      eexists. split; [reflexivity|]. split.
      * constructor.
        -- unfold well_formed_at; cbn. lia.
        -- eapply Forall_impl; [|exact Hwf].
           intros a [H1 H2]. split; [lia | exact H2].
      * constructor; [exact Hs|].
        eapply Forall_impl; [|exact Hwf].
        intros a [H1 _]. unfold resumes_after; cbn. exact H1.
  - exists []. split; [reflexivity|]. split; constructor.
Qed.

Lemma function_signatures_Ok (self : formatter) (tokens : list token) :
  exists sigs, function_signatures self tokens = Ok sigs
    /\ Forall (well_formed_at tokens 0) sigs
    /\ StronglySorted resumes_after sigs.
Proof.
  unfold function_signatures. destruct (highlight_functions self).
  - apply find_signatures_Ok. lia.
  - exists []. split; [reflexivity|]. split; constructor.
Qed.

Lemma StronglySorted_nth {A : Type} (R : A -> A -> Prop) (l : list A) :
  StronglySorted R l ->
  forall i j a b, i < j -> nth_error l i = Some a -> nth_error l j = Some b -> R a b.
Proof.
  induction 1 as [|x l Hs IH Hall]; intros i j a b Hij Ha Hb.
  - destruct i; discriminate.
  - destruct j as [|j]; [lia|]. cbn in Hb.
    destruct i as [|i].
    + cbn in Ha. injection Ha as <-.
      rewrite Forall_forall in Hall. apply Hall.
      eapply nth_error_In; exact Hb.
    + cbn in Ha. apply (IH i j); [lia | exact Ha | exact Hb].
Qed.

(** ** [_write_line] and the rendering loop return *)

Lemma collect_line_tokens_Ok (tokens : list token) (line_number : Z) (hi : nat) :
  forall fuel i temp acc, S hi - i < fuel ->
    exists l, collect_line_tokens fuel tokens line_number hi i temp acc = Ok l.
Proof.
  induction fuel as [|fuel IH]; intros i temp acc Hf; [lia|].
  cbn [collect_line_tokens].
  destruct (i <=? hi) eqn:Hi; [|eexists; reflexivity].
  apply Nat.leb_le in Hi.
  destruct (i <? length tokens) eqn:Hl; [|apply IH; lia].
  apply Nat.ltb_lt in Hl.
  destruct (tok_at_Ok tokens i Hl) as [[ty value] [-> _]]. cbn [bind].
  destruct (PyStr.has_char PyStr.nl_char value); [|apply IH; lia].
  match goal with |- context [if ?b then Ok _ else _] => destruct b end;
    [eexists; reflexivity | apply IH; lia].
Qed.

Lemma function_line_Ok (self : formatter) (line_number : Z)
    (tokens : option (list token)) (token_idx : option nat) :
  exists b name, function_line self line_number tokens token_idx = Ok (b, name)
    /\ (b = true ->
        highlight_functions self = true /\ function_style self = emphasis).
Proof.
  unfold function_line.
  destruct tokens as [[|t tokens]|]; try (exists false, ""; split; [reflexivity | discriminate]).
  destruct token_idx as [token_idx|];
    [|exists false, ""; split; [reflexivity | discriminate]].
  destruct (highlight_functions self && function_style_eqb (function_style self) emphasis)
    eqn:Hg; [|exists false, ""; split; [reflexivity | discriminate]].
  apply andb_true_iff in Hg as [Hh Hs].
  assert (Hst : function_style self = emphasis)
    by (destruct (function_style self); try discriminate; reflexivity).
  destruct (collect_line_tokens_Ok (t :: tokens) line_number
              (Nat.min (length (t :: tokens) - 1) (token_idx + 10))
              (S (length (t :: tokens))) (Nat.max 0 (token_idx - 10))
              line_number []) as [l El].
  { cbn [length]. lia. }
  rewrite El. cbn [bind].
  match goal with |- context [if ?b then _ else _] => destruct b end;
    eexists _, _; (split; [reflexivity | intros _; split; assumption]).
Qed.

Lemma existsb_Z_In (n : Z) (l : list Z) : existsb (Z.eqb n) l = true <-> In n l.
Proof.
  rewrite existsb_exists. split.
  - intros [x [Hx Hn]]. apply Z.eqb_eq in Hn. subst x. exact Hx.
  - intros H. exists n. split; [exact H | apply Z.eqb_refl].
Qed.

Lemma write_line_Ok (self : formatter) (parts : list piece) (line_number : Z)
    (tokens : option (list token)) (token_idx : option nat) :
  exists note,
    _write_line self parts line_number tokens token_idx
    = Ok (CodeLine line_number (linenos self) parts note)
    /\ note_ok self line_number note.
Proof.
  unfold _write_line.
  destruct (function_line_Ok self line_number tokens token_idx)
    as [b [name [-> Hb]]]. cbn [bind].
  destruct (b && function_style_eqb (function_style self) emphasis) eqn:Hg.
  - eexists. split; [reflexivity|]. cbn.
    apply andb_true_iff in Hg as [-> _]. apply Hb. reflexivity.
  - destruct (existsb (Z.eqb line_number) (hl_lines self)) eqn:Hhl.
    + eexists. split; [reflexivity|]. cbn. apply existsb_Z_In. exact Hhl.
    + eexists. split; [reflexivity|]. cbn. intros Hin.
      apply existsb_Z_In in Hin. congruence.
Qed.

Lemma opening_fences_app (a b : list chunk) :
  opening_fences (a ++ b) = opening_fences a + opening_fences b.
Proof. unfold opening_fences. rewrite filter_app, length_app. reflexivity. Qed.

Lemma closing_fences_app (a b : list chunk) :
  closing_fences (a ++ b) = closing_fences a + closing_fences b.
Proof. unfold closing_fences. rewrite filter_app, length_app. reflexivity. Qed.

Lemma lines_only_chunks_ok (self : formatter) (out : list chunk) :
  lines_only self out -> chunks_ok self out.
Proof.
  unfold lines_only, chunks_ok, opening_fences, closing_fences.
  induction 1 as [|c out [Hc Hl] _ [IH1 IH2]]; [split; [reflexivity | constructor]|].
  split.
  - destruct c; try discriminate. cbn. exact IH1.
  - constructor; assumption.
Qed.

Lemma chunks_ok_app (self : formatter) (a b : list chunk) :
  chunks_ok self a -> chunks_ok self b -> chunks_ok self (a ++ b).
Proof.
  intros [Ha1 Ha2] [Hb1 Hb2]. split.
  - rewrite opening_fences_app, closing_fences_app. lia.
  - apply Forall_app. split; assumption.
Qed.

Lemma middle_lines_Ok (self : formatter) (tokens : list token) (token_idx : nat)
    (ty : ttype) :
  forall middle line_number,
    exists cs line_number',
      middle_lines self tokens token_idx ty middle line_number = Ok (cs, line_number')
      /\ lines_only self cs.
Proof.
  induction middle as [|part middle IH]; intros line_number; cbn [middle_lines].
  - eexists _, _. split; [reflexivity | constructor].
  - destruct (write_line_Ok self (append_part self ty [] part) line_number
                (Some tokens) (Some token_idx)) as [note [-> Hn]]. cbn [bind].
    destruct (IH (line_number + 1)%Z) as [cs [ln' [-> Hcs]]]. cbn [bind].
    eexists _, _. split; [reflexivity|].
    constructor; [|exact Hcs]. split; [reflexivity|]. split; [reflexivity | exact Hn].
Qed.

Lemma emit_token_Ok (self : formatter) (tokens : list token) (token_idx : nat)
    (ty : ttype) (value : string) (current_line : list piece) (line_number : Z) :
  exists cs current_line' line_number',
    emit_token self tokens token_idx ty value current_line line_number
    = Ok (cs, current_line', line_number')
    /\ lines_only self cs.
Proof.
  unfold emit_token.
  destruct (PyStr.has_char PyStr.nl_char value).
  - match goal with
    | |- context [_write_line self ?p ?n ?t ?i] =>
        destruct (write_line_Ok self p n t i) as [note [-> Hn]]
    end. cbn [bind].
    match goal with
    | |- context [middle_lines self tokens token_idx ty ?m ?n] =>
        destruct (middle_lines_Ok self tokens token_idx ty m n) as [cs [ln' [-> Hcs]]]
    end. cbn [bind].
    eexists _, _, _. split; [reflexivity|].
    constructor; [|exact Hcs]. split; [reflexivity|]. split; [reflexivity | exact Hn].
  - eexists _, _, _. split; [reflexivity | constructor].
Qed.

Lemma splice_Ok (self : formatter) (fence : string) (func : Sig.t)
    (current_line : list piece) (line_number : Z) :
  exists cs current_line',
    splice self fence func current_line line_number = Ok (cs, current_line')
    /\ chunks_ok self cs.
Proof.
  unfold splice.
  destruct (function_style self).
  - destruct current_line as [|pc current_line].
    + cbn [bind]. eexists _, _. split; [reflexivity|].
      split; [reflexivity | repeat constructor].
    + destruct (write_line_Ok self (pc :: current_line) line_number None None)
        as [note [-> Hn]]. cbn [bind].
      eexists _, _. split; [reflexivity|].
      split; [reflexivity|]. repeat constructor. exact Hn.
  - eexists _, _. split; [reflexivity|]. split; [reflexivity | constructor].
  - destruct current_line as [|pc current_line].
    + cbn [bind]. eexists _, _. split; [reflexivity|].
      split; [reflexivity | repeat constructor].
    + destruct (write_line_Ok self (pc :: current_line) line_number None None)
        as [note [-> Hn]]. cbn [bind].
      eexists _, _. split; [reflexivity|].
      split; [reflexivity|]. repeat constructor. exact Hn.
Qed.

Lemma current_func_start (sigs : list Sig.t) (token_idx : nat) (func : Sig.t) :
  current_func sigs token_idx = Some func ->
  In func sigs /\ Sig.start_idx func = token_idx.
Proof.
  unfold current_func. intros H. apply find_some in H as [Hin Heq].
  apply Nat.eqb_eq in Heq. split; [exact Hin | symmetry; exact Heq].
Qed.

Lemma render_loop_Ok (self : formatter) (tokens : list token) (sigs : list Sig.t)
    (fence : string) :
  Forall (well_formed_at tokens 0) sigs ->
  forall fuel current_line line_number token_idx,
    length tokens - token_idx < fuel ->
    exists body current_line' line_number',
      render_loop fuel self tokens sigs fence current_line line_number token_idx
      = Ok (body, current_line', line_number')
      /\ chunks_ok self body.
Proof.
  intros Hwf.
  induction fuel as [|fuel IH]; intros cl ln idx Hf; [lia|].
  cbn [render_loop].
  destruct (idx <? length tokens) eqn:Hi;
    [|eexists _, _, _; split; [reflexivity | split; [reflexivity | constructor]]].
  apply Nat.ltb_lt in Hi.
  destruct (tok_at_Ok tokens idx Hi) as [[ty value] [-> _]]. cbn [bind].
  assert (Hemit :
    exists body cl' ln',
      (' (cs, current_line, line_number) <-
          emit_token self tokens idx ty value cl ln ;;
       ' (rest, current_line, line_number) <-
          render_loop fuel self tokens sigs fence current_line line_number (S idx) ;;
       Ok (cs ++ rest, current_line, line_number))
      = Ok (body, cl', ln') /\ chunks_ok self body).
  { destruct (emit_token_Ok self tokens idx ty value cl ln)
      as [cs [cl1 [ln1 [-> Hcs]]]]. cbn [bind].
    destruct (IH cl1 ln1 (S idx)) as [rest [cl2 [ln2 [-> Hrest]]]]; [lia|].
    cbn [bind]. eexists _, _, _. split; [reflexivity|].
    apply chunks_ok_app; [apply lines_only_chunks_ok; exact Hcs | exact Hrest]. }
  destruct (current_func sigs idx) as [func|] eqn:Hcur; [|exact Hemit].
  destruct (negb (function_style_eqb (function_style self) emphasis));
    [|exact Hemit].
  apply current_func_start in Hcur as [Hin Hstart].
  rewrite Forall_forall in Hwf. destruct (Hwf func Hin) as [_ [Hlt Hle]].
  destruct (splice_Ok self fence func cl ln) as [cs [cl1 [-> Hcs]]]. cbn [bind].
  destruct (IH cl1 ln (Sig.end_idx func)) as [rest [cl2 [ln2 [-> Hrest]]]]; [lia|].
  cbn [bind]. eexists _, _, _. split; [reflexivity|].
  apply chunks_ok_app; assumption.
Qed.

Lemma header_texts (self : formatter) :
  Forall (fun c => exists s, c = Text s) (header self).
Proof.
  unfold header. destruct (opt_full self); repeat constructor; eexists; reflexivity.
Qed.

Lemma summary_texts (self : formatter) (sigs : list Sig.t) :
  Forall (fun c => exists s, c = Text s) (summary self sigs).
Proof.
  unfold summary. destruct sigs as [|a sigs]; [constructor|].
  destruct (function_style self); try constructor.
  - eexists; reflexivity.
  - apply Forall_app. split; [|repeat constructor; eexists; reflexivity].
    apply Forall_forall. intros c Hc. apply in_map_iff in Hc as [f [<- _]].
    eexists; reflexivity.
Qed.

Lemma highlighted_comment_texts (self : formatter) :
  Forall (fun c => exists s, c = Text s) (highlighted_comment self).
Proof.
  unfold highlighted_comment.
  destruct (hl_lines self); repeat constructor; eexists; reflexivity.
Qed.

Lemma functions_list_texts (self : formatter) (sigs : list Sig.t) :
  Forall (fun c => exists s, c = Text s) (functions_list self sigs).
Proof.
  unfold functions_list. destruct sigs as [|a sigs]; [constructor|].
  destruct (function_style self); try constructor.
  - eexists; reflexivity.
  - apply Forall_app. split; [|repeat constructor; eexists; reflexivity].
    apply Forall_forall. intros c Hc. apply in_map_iff in Hc as [f [<- _]].
    eexists; reflexivity.
Qed.

Lemma texts_chunks_ok (self : formatter) (out : list chunk) :
  Forall (fun c => exists s, c = Text s) out -> chunks_ok self out.
Proof.
  unfold chunks_ok, opening_fences, closing_fences.
  induction 1 as [|c out [s ->] _ [IH1 IH2]]; [split; [reflexivity | constructor]|].
  split; [cbn; exact IH1 | constructor; [exact I | exact IH2]].
Qed.

(** [format_unencoded] returns, with as many opening as closing fences
    and every line annotated as [_write_line] decides. *)
Lemma format_unencoded_Ok (self : formatter) (tokens : list token) :
  exists out, format_unencoded self tokens = Ok out /\ chunks_ok self out.
Proof.
  unfold format_unencoded.
  destruct (function_signatures_Ok self tokens) as [sigs [-> [Hwf _]]]. cbn [bind].
  destruct (render_loop_Ok self tokens sigs
              (repeat_char (fence_char self) (fence_count self)) Hwf
              (S (length tokens)) [] (linenostart self) 0)
    as [body [cl [ln [-> Hbody]]]]; [lia|]. cbn [bind].
  pose proof (texts_chunks_ok self _ (header_texts self)) as Hhead.
  pose proof (texts_chunks_ok self _ (summary_texts self sigs)) as Hsum.
  pose proof (texts_chunks_ok self _ (highlighted_comment_texts self)) as Hhl.
  pose proof (texts_chunks_ok self _ (functions_list_texts self sigs)) as Hfl.
  assert (Hrem : exists remaining,
    (match cl with
     | [] => Ok []
     | _ :: _ => c <- _write_line self cl ln (Some tokens) (Some (length tokens - 1)) ;;
                 Ok [c]
     end) = Ok remaining /\ chunks_ok self remaining).
  { destruct cl as [|pc cl].
    - exists []. split; [reflexivity | split; [reflexivity | constructor]].
    - destruct (write_line_Ok self (pc :: cl) ln (Some tokens)
                  (Some (length tokens - 1))) as [note [-> Hn]]. cbn [bind].
      eexists. split; [reflexivity|].
      apply lines_only_chunks_ok. repeat constructor. exact Hn. }
  destruct Hrem as [remaining [-> Hrem]]. cbn [bind].
  eexists. split; [reflexivity|].
  destruct Hhead as [Hh1 Hh2], Hsum as [Hs1 Hs2], Hbody as [Hb1 Hb2],
    Hrem as [Hr1 Hr2], Hhl as [Hl1 Hl2], Hfl as [Hf1 Hf2].
  split.
  - rewrite !opening_fences_app, !closing_fences_app.
    change (opening_fences [FenceOpen _]) with 1.
    change (closing_fences [FenceOpen _]) with 0.
    change (opening_fences [FenceClose _]) with 0.
    change (closing_fences [FenceClose _]) with 1.
    lia.
  - repeat (apply Forall_app; split); try assumption; repeat constructor.
Qed.


(** ** The path without call-outs keeps every line

    When no call-out is spliced in (the style is [emphasis], or
    [highlight_functions] is off) every token is written and every line
    break advances the line number. *)

Lemma append_assoc (a b c : string) : ((a ++ b) ++ c = a ++ (b ++ c))%str.
Proof. induction a as [|x a IH]; cbn; [reflexivity | rewrite IH; reflexivity]. Qed.

Lemma append_nil_r (a : string) : (a ++ "")%str = a.
Proof. induction a as [|x a IH]; cbn; [reflexivity | rewrite IH; reflexivity]. Qed.

Lemma join_cons (x : string) (l : list string) :
  PyStr.join (x :: l) = (x ++ PyStr.join l)%str.
Proof.
  unfold PyStr.join. destruct l; cbn; [rewrite append_nil_r|]; reflexivity.
Qed.

Lemma count_char_app (c : char) (a b : string) :
  PyStr.count_char c (a ++ b) = PyStr.count_char c a + PyStr.count_char c b.
Proof. induction a as [|x a IH]; cbn; [reflexivity | rewrite IH; lia]. Qed.

Lemma has_char_count (c : char) (s : string) :
  PyStr.has_char c s = false <-> PyStr.count_char c s = 0.
Proof.
  induction s as [|x s IH]; cbn; [tauto|].
  destruct (N.eqb x c); cbn; [split; [discriminate | lia] | exact IH].
Qed.

Lemma split_char_length (c : char) (s : string) :
  length (PyStr.split_char c s) = S (PyStr.count_char c s).
Proof.
  induction s as [|x s IH]; cbn; [reflexivity|].
  destruct (N.eqb x c); cbn; [rewrite IH; reflexivity|].
  destruct (PyStr.split_char c s) as [|p ps]; cbn in *; lia.
Qed.

Lemma split_char_join (c : char) (s : string) :
  String.concat (String c "") (PyStr.split_char c s) = s.
Proof.
  induction s as [|x s IH]; cbn [PyStr.split_char]; [reflexivity|].
  destruct (N.eqb_spec x c) as [->|Hne].
  - pose proof (split_char_length c s) as Hl.
    destruct (PyStr.split_char c s) as [|p ps]; [discriminate|].
    cbn [String.concat]. cbn. rewrite <- IH. reflexivity.
  - pose proof (split_char_length c s) as Hl.
    destruct (PyStr.split_char c s) as [|p ps]; [discriminate|].
    rewrite <- IH. destruct ps; reflexivity.
Qed.

Lemma concat_lines_last (middle : list string) (lastp : string) :
  String.concat PyStr.nl (middle ++ [lastp]) = (lines_text middle ++ lastp)%str.
Proof.
  induction middle as [|m middle IH]; [reflexivity|].
  cbn [app lines_text]. rewrite append_assoc, append_assoc, <- IH.
  destruct (middle ++ [lastp]) eqn:E; [destruct middle; discriminate|].
  reflexivity.
Qed.

Lemma consecutive_app (first : Z) (a b : nat) :
  consecutive first (a + b)
  = consecutive first a ++ consecutive (first + Z.of_nat a)%Z b.
Proof.
  revert first; induction a as [|a IH]; intros first.
  - cbn. rewrite Z.add_0_r. reflexivity.
  - cbn [Nat.add consecutive app]. rewrite IH. do 3 f_equal. lia.
Qed.

Lemma consecutive_length (first : Z) (n : nat) : length (consecutive first n) = n.
Proof. revert first; induction n; intros; cbn; [|rewrite IHn]; reflexivity. Qed.

Lemma code_text_app (a b : list chunk) :
  code_text (a ++ b) = (code_text a ++ code_text b)%str.
Proof.
  induction a as [|c a IH]; [reflexivity|].
  destruct c; cbn; rewrite IH; try reflexivity.
  rewrite append_assoc. reflexivity.
Qed.

Lemma line_numbers_app (a b : list chunk) :
  line_numbers (a ++ b) = line_numbers a ++ line_numbers b.
Proof.
  induction a as [|c a IH]; [reflexivity|].
  destruct c; cbn; rewrite IH; reflexivity.
Qed.

Lemma plain_text_append_part (self : formatter) (ty : ttype)
    (current_line : list piece) (part : string) :
  plain_text (append_part self ty current_line part)
  = (plain_text current_line ++ part)%str.
Proof.
  unfold append_part. destruct part as [|x part]; cbn [nonempty].
  - rewrite append_nil_r. reflexivity.
  - assert (Hs : p_text (styled self ty (String x part)) = String x part).
    { unfold styled. destruct (inline_styles self); [|reflexivity].
      destruct (_get_markdown_style self ty) as [pre suf].
      destruct (nonempty pre || nonempty suf); reflexivity. }
    unfold plain_text. induction current_line as [|p cl IH].
    + cbn. rewrite Hs. reflexivity.
    + cbn [app map]. rewrite !join_cons, IH, append_assoc. reflexivity.
Qed.

Lemma all_nonempty_append_part (self : formatter) (ty : ttype)
    (current_line : list piece) (part : string) :
  all_nonempty current_line ->
  all_nonempty (append_part self ty current_line part).
Proof.
  intros H. unfold append_part. destruct part as [|x part]; [exact H|].
  cbn [nonempty]. apply Forall_app. split; [exact H|].
  constructor; [|constructor].
  unfold styled. destruct (inline_styles self); [|discriminate].
  destruct (_get_markdown_style self ty) as [pre suf].
  destruct (nonempty pre || nonempty suf); discriminate.
Qed.

Lemma all_nonempty_plain_text (current_line : list piece) :
  all_nonempty current_line -> plain_text current_line = "" -> current_line = [].
Proof.
  intros H E. destruct current_line as [|p cl]; [reflexivity|].
  inversion H as [|? ? Hp _]; subst. unfold plain_text in E. cbn [map] in E.
  rewrite join_cons in E. destruct (p_text p); [contradiction | discriminate].
Qed.

Lemma middle_lines_spec (self : formatter) (tokens : list token) (token_idx : nat)
    (ty : ttype) :
  forall middle line_number,
    exists cs,
      middle_lines self tokens token_idx ty middle line_number
      = Ok (cs, (line_number + Z.of_nat (length middle))%Z)
      /\ line_numbers cs = consecutive line_number (length middle)
      /\ code_text cs = lines_text middle.
Proof.
  induction middle as [|part middle IH]; intros line_number; cbn [middle_lines].
  - exists []. rewrite Z.add_0_r. repeat split.
  - destruct (write_line_Ok self (append_part self ty [] part) line_number
                (Some tokens) (Some token_idx)) as [note [-> _]]. cbn [bind].
    destruct (IH (line_number + 1)%Z) as [cs [-> [Hn Ht]]]. cbn [bind].
    replace (line_number + Z.of_nat (length (part :: middle)))%Z
      with (line_number + 1 + Z.of_nat (length middle))%Z by (cbn [length]; lia).
    eexists. split; [reflexivity|split].
    + cbn [line_numbers length consecutive]. rewrite Hn. reflexivity.
    + cbn [code_text lines_text]. rewrite Ht, plain_text_append_part. reflexivity.
Qed.

Lemma emit_token_spec (self : formatter) (tokens : list token) (token_idx : nat)
    (ty : ttype) (value : string) (current_line : list piece) (line_number : Z) :
  exists cs current_line',
    emit_token self tokens token_idx ty value current_line line_number
    = Ok (cs, current_line', (line_number + Z.of_nat (count_nl value))%Z)
    /\ line_numbers cs = consecutive line_number (count_nl value)
    /\ (code_text cs ++ plain_text current_line'
        = plain_text current_line ++ value)%str
    /\ (all_nonempty current_line -> all_nonempty current_line').
Proof.
  unfold emit_token, count_nl.
  destruct (PyStr.has_char PyStr.nl_char value) eqn:Hnl.
  - pose proof (split_char_length PyStr.nl_char value) as Hlen.
    pose proof (split_char_join PyStr.nl_char value) as Hjoin.
    destruct (PyStr.split_char PyStr.nl_char value) as [|p0 rest]; [discriminate|].
    assert (Hrest : rest <> []).
    { intros ->. cbn in Hlen. injection Hlen as Hlen. symmetry in Hlen.
      apply has_char_count in Hlen. congruence. }
    destruct (exists_last Hrest) as [middle [lastp ->]].
    cbn [hd tl]. rewrite removelast_last.
    replace (last (p0 :: middle ++ [lastp]) "") with lastp
      by (symmetry; apply (last_last (p0 :: middle) lastp "")).
    match goal with
    | |- context [_write_line self ?p ?n ?t ?i] =>
        destruct (write_line_Ok self p n t i) as [note [-> _]]
    end. cbn [bind].
    destruct (middle_lines_spec self tokens token_idx ty middle (line_number + 1)%Z)
      as [cs [-> [Hn Ht]]]. cbn [bind].
    cbn [length] in Hlen. rewrite length_app in Hlen. cbn [length] in Hlen.
    assert (Hcount : PyStr.count_char PyStr.nl_char value = S (length middle)) by lia.
    assert (Hlt : (1 <? length (p0 :: middle ++ [lastp])) = true)
      by (apply Nat.ltb_lt; cbn [length]; rewrite length_app; cbn; lia).
    rewrite Hlt.
    rewrite Hcount.
    replace (line_number + Z.of_nat (S (length middle)))%Z
      with (line_number + 1 + Z.of_nat (length middle))%Z by lia.
    eexists _, _. split; [reflexivity|split; [|split]].
    + cbn [line_numbers consecutive]. rewrite Hn. reflexivity.
    + cbn [code_text]. rewrite Ht, !plain_text_append_part.
      change (plain_text []) with "". cbn [append].
      rewrite <- Hjoin.
      change (String.concat (String PyStr.nl_char "") (p0 :: middle ++ [lastp]))
        with (String.concat PyStr.nl (p0 :: middle ++ [lastp])).
      assert (Hc : String.concat PyStr.nl (p0 :: middle ++ [lastp])
                   = (p0 ++ PyStr.nl ++ String.concat PyStr.nl (middle ++ [lastp]))%str).
      { destruct (middle ++ [lastp]) eqn:E; [destruct middle; discriminate|].
        reflexivity. }
      rewrite Hc, concat_lines_last, !append_assoc. reflexivity.
    + intros _. apply all_nonempty_append_part. constructor.
  - apply has_char_count in Hnl. rewrite Hnl.
    eexists _, _. split; [|split; [|split]].
    + rewrite Z.add_0_r. reflexivity.
    + reflexivity.
    + cbn [code_text append]. apply plain_text_append_part.
    + apply all_nonempty_append_part.
Qed.

Lemma skipn_nth_error {A : Type} (l : list A) (i : nat) (t : A) :
  nth_error l i = Some t -> skipn i l = t :: skipn (S i) l.
Proof.
  revert i; induction l as [|x l IH]; intros [|i] H; try discriminate.
  - cbn in H. injection H as ->. reflexivity.
  - cbn in H. cbn [skipn]. apply IH. exact H.
Qed.

Lemma rest_text_step (tokens : list token) (i : nat) (t : token) :
  nth_error tokens i = Some t ->
  rest_text tokens i = (snd t ++ rest_text tokens (S i))%str.
Proof.
  intros H. unfold rest_text, source_text.
  rewrite (skipn_nth_error _ _ _ H). cbn [map]. apply join_cons.
Qed.

Lemma rest_text_end (tokens : list token) (i : nat) :
  length tokens <= i -> rest_text tokens i = "".
Proof.
  intros H. unfold rest_text. rewrite skipn_all2 by exact H. reflexivity.
Qed.

Lemma render_loop_plain (self : formatter) (tokens : list token) (sigs : list Sig.t)
    (fence : string) :
  function_style self = emphasis \/ sigs = [] ->
  forall fuel current_line line_number token_idx,
    length tokens - token_idx < fuel ->
    exists body current_line',
      render_loop fuel self tokens sigs fence current_line line_number token_idx
      = Ok (body, current_line',
            (line_number + Z.of_nat (count_nl (rest_text tokens token_idx)))%Z)
      /\ line_numbers body
         = consecutive line_number (count_nl (rest_text tokens token_idx))
      /\ (code_text body ++ plain_text current_line'
          = plain_text current_line ++ rest_text tokens token_idx)%str
      /\ (all_nonempty current_line -> all_nonempty current_line').
Proof.
  intros Hplain.
  induction fuel as [|fuel IH]; intros cl ln idx Hf; [lia|].
  cbn [render_loop].
  destruct (idx <? length tokens) eqn:Hi.
  - apply Nat.ltb_lt in Hi.
    destruct (tok_at_Ok tokens idx Hi) as [[ty value] [-> Hnth]]. cbn [bind].
    rewrite (rest_text_step _ _ _ Hnth). cbn [snd].
    assert (Hbranch :
      match current_func sigs idx,
            negb (function_style_eqb (function_style self) emphasis) with
      | Some _, true => False
      | _, _ => True
      end).
    { destruct Hplain as [-> | ->]; [destruct (current_func sigs idx)|]; exact I. }
    destruct (emit_token_spec self tokens idx ty value cl ln)
      as [cs [cl1 [Ecs [Hn1 [Ht1 Hne1]]]]].
    destruct (IH cl1 (ln + Z.of_nat (count_nl value))%Z (S idx))
      as [rest [cl2 [Erest [Hn2 [Ht2 Hne2]]]]]; [lia|].
    exists (cs ++ rest), cl2.
    split; [|split; [|split]].
    + destruct (current_func sigs idx) as [func|];
        [destruct (negb (function_style_eqb (function_style self) emphasis));
         [contradiction|]|];
        rewrite Ecs; cbn [bind]; rewrite Erest; cbn [bind];
        unfold count_nl; rewrite count_char_app, Nat2Z.inj_add, Z.add_assoc;
        reflexivity.
    + rewrite line_numbers_app, Hn1, Hn2. unfold count_nl.
      rewrite count_char_app, consecutive_app. reflexivity.
    + rewrite code_text_app, append_assoc, Ht2, <- append_assoc, Ht1, append_assoc.
      reflexivity.
    + intros H. apply Hne2, Hne1, H.
  - apply Nat.ltb_ge in Hi. rewrite (rest_text_end _ _ Hi).
    exists [], cl. cbn [count_nl PyStr.count_char Z.of_nat].
    rewrite Z.add_0_r, append_nil_r. repeat split; auto.
Qed.

Lemma texts_code_text (out : list chunk) :
  Forall (fun c => exists s, c = Text s) out ->
  code_text out = "" /\ line_numbers out = [].
Proof.
  induction 1 as [|c out [s ->] _ [IH1 IH2]]; [split; reflexivity|].
  cbn. split; assumption.
Qed.

(** ** Claims on the scanner and the pre-pass *)

(** C2. The records that one pre-pass produces are in ascending order of
    [start_idx]; each record begins at or after the [end_idx] of every
    record before it, where the scan resumed; and no token index lies in
    the half-open ranges of two records. *)
Theorem signatures_ordered_and_disjoint (self : formatter) (tokens : list token) :
  exists sigs, function_signatures self tokens = Ok sigs
    /\ forall i j a b, i < j ->
         nth_error sigs i = Some a -> nth_error sigs j = Some b ->
         Sig.start_idx a < Sig.start_idx b
         /\ Sig.end_idx a <= Sig.start_idx b
         /\ forall k, ~ (Sig.start_idx a <= k < Sig.end_idx a
                         /\ Sig.start_idx b <= k < Sig.end_idx b).
Proof.
  destruct (function_signatures_Ok self tokens) as [sigs [E [Hwf Hs]]].
  exists sigs. split; [exact E|].
  intros i j a b Hij Ha Hb.
  pose proof (StronglySorted_nth _ _ Hs i j a b Hij Ha Hb) as Hab.
  unfold resumes_after in Hab.
  rewrite Forall_forall in Hwf.
  destruct (Hwf a (nth_error_In _ _ Ha)) as [_ [Ha1 _]].
  repeat split; [lia | exact Hab | lia].
Qed.

Lemma signatures_ordered_and_disjoint_witness :
  exists a b,
    function_signatures (init no_options) Examples.two_defs = Ok [a; b]
    /\ Sig.start_idx a < Sig.start_idx b
    /\ Sig.end_idx a <= Sig.start_idx b.
Proof.
  destruct (signatures_ordered_and_disjoint (init no_options) Examples.two_defs)
    as [sigs [E H]].
  vm_compute in E. injection E as <-.
  eexists _, _. split; [reflexivity|].
  destruct (H 0 1 _ _ (Nat.lt_0_1) eq_refl eq_refl) as [H1 [H2 _]].
  split; [exact H1 | exact H2].
Defined.

(** C9. A successful scan ends strictly past the index it started at, and
    the pre-pass, run from any index with fuel for the tokens that remain,
    returns its list of records. *)
Theorem scanner_progress_and_prepass_termination (self : formatter)
    (tokens : list token) :
  (forall start_idx r,
      _is_function_definition self tokens start_idx = Ok r ->
      is_function r = true -> start_idx < end_idx r <= length tokens)
  /\ (forall fuel i, length tokens - i < fuel ->
        exists sigs, find_signatures fuel self tokens i = Ok sigs)
  /\ exists sigs, function_signatures self tokens = Ok sigs.
Proof.
  split; [|split].
  - intros start_idx r E Hfound.
    destruct (scanner_Ok self tokens start_idx) as [r' [E' Hr]].
    rewrite E in E'. injection E' as <-.
    destruct Hr as [->|[_ [open [p [Ho Hc]]]]]; [discriminate|].
    apply confirmed_bounds in Hc. lia.
  - intros fuel i Hf.
    destruct (find_signatures_Ok self tokens fuel i Hf) as [sigs [E _]].
    exists sigs; exact E.
  - destruct (function_signatures_Ok self tokens) as [sigs [E _]].
    exists sigs; exact E.
Qed.

Lemma scanner_progress_and_prepass_termination_witness :
  exists r, _is_function_definition (init no_options) Examples.def_f 0 = Ok r
    /\ 0 < end_idx r <= length Examples.def_f.
Proof.
  eexists. split; [vm_compute; reflexivity|].
  refine (proj1 (scanner_progress_and_prepass_termination
                   (init no_options) Examples.def_f) 0 _ _ _);
    vm_compute; reflexivity.
Defined.

(** ** Claims on rendering *)

(** C10. For the empty token stream and a formatter built without options
    the output is the opening fence line followed by the closing fence
    line, and nothing else. *)
Theorem empty_stream_rendering :
  format_unencoded (init no_options) []
  = Ok [FenceOpen ("```" ++ PyStr.nl); FenceClose ("```" ++ PyStr.nl)]
  /\ render (init no_options) []
     = Ok ("```" ++ PyStr.nl ++ "```" ++ PyStr.nl)%str.
Proof. split; vm_compute; reflexivity. Qed.

(** C6. With [function_style] set to [callout] or [heading] and
    [highlight_functions] on, [format_unencoded] returns and writes as many
    opening fences as closing fences. *)
Theorem fence_integrity (self : formatter) (tokens : list token) :
  function_style self = callout \/ function_style self = heading ->
  highlight_functions self = true ->
  exists out, format_unencoded self tokens = Ok out
    /\ opening_fences out = closing_fences out.
Proof.
  intros _ _.
  destruct (format_unencoded_Ok self tokens) as [out [E [Hf _]]].
  exists out. split; [exact E | exact Hf].
Qed.

Lemma fence_integrity_witness :
  exists out,
    format_unencoded (Examples.with_style "callout") Examples.two_defs = Ok out
    /\ opening_fences out = 3 /\ closing_fences out = 3.
Proof.
  destruct (fence_integrity (Examples.with_style "callout") Examples.two_defs
              (or_introl eq_refl) eq_refl) as [out [E H]].
  exists out. split; [exact E|].
  assert (H3 : opening_fences out = 3).
  { vm_compute in E. injection E as <-. reflexivity. }
  split; [exact H3 | rewrite <- H; exact H3].
Defined.

(** C7, amended. [format_unencoded] returns, and every line it writes
    whose number is in [hl_lines] carries the highlight annotation, unless
    the style is [emphasis] with [highlight_functions] on and the line
    carries the function marker instead. *)
Theorem highlight_annotation (self : formatter) (tokens : list token) :
  exists out, format_unencoded self tokens = Ok out
    /\ forall n numbered parts note,
         In (CodeLine n numbered parts note) out ->
         In n (hl_lines self) ->
         note = Highlighted
         \/ (exists f, note = FunctionMark f
                       /\ highlight_functions self = true
                       /\ function_style self = emphasis).
Proof.
  destruct (format_unencoded_Ok self tokens) as [out [E [_ Hl]]].
  exists out. split; [exact E|].
  intros n numbered parts note Hin Hn.
  rewrite Forall_forall in Hl. destruct (Hl _ Hin) as [_ Hnote].
  destruct note as [|f|]; cbn in Hnote.
  - contradiction.
  - right. exists f. split; [reflexivity | exact Hnote].
  - left; reflexivity.
Qed.

Lemma highlight_annotation_witness :
  exists out,
    format_unencoded Examples.highlight_first [Examples.kw "pass"] = Ok out
    /\ In (CodeLine 1 false [{| p_prefix := ""; p_text := "pass"; p_suffix := "" |}]
             Highlighted) out.
Proof.
  destruct (highlight_annotation Examples.highlight_first [Examples.kw "pass"])
    as [out [E H]].
  exists out. split; [exact E|].
  vm_compute in E. injection E as <-.
  right; left; reflexivity.
Defined.

(** C7 as stated fails under the default [emphasis] style: line 1 of
    [def f(a, b):] is in [hl_lines], and it is written with the function
    marker and without the highlight annotation. *)
Lemma highlight_annotation_as_stated_fails :
  ~ (forall (self : formatter) (tokens : list token) (out : list chunk)
            (n : Z) (numbered : bool) (parts : list piece) (note : annotation),
        format_unencoded self tokens = Ok out ->
        In (CodeLine n numbered parts note) out ->
        In n (hl_lines self) ->
        note = Highlighted).
Proof.
  intros H.
  pose proof (H Examples.highlight_first Examples.def_f) as H'.
  remember (format_unencoded Examples.highlight_first Examples.def_f) as o eqn:E.
  vm_compute in E. subst o.
  specialize (H' _ 1%Z false _ (FunctionMark "f") eq_refl
                (or_intror (or_introl eq_refl)) (or_introl eq_refl)).
  discriminate H'.
Qed.

(** C1 at a failing input. In [callout] style the tokens of the detected
    signature [def f(a, b)] are skipped: the stripped output holds only
    what follows the signature, and is not the text of the tokens. *)
Theorem callout_drops_signature_text :
  exists out,
    format_unencoded (Examples.with_style "callout") Examples.def_f = Ok out
    /\ source_text Examples.def_f
       = ("def f(a, b):" ++ PyStr.nl ++ "    pass" ++ PyStr.nl)%str
    /\ code_text out = (":" ++ PyStr.nl ++ "    pass" ++ PyStr.nl)%str
    /\ ~ faithful Examples.def_f out.
Proof.
  eexists. split; [vm_compute; reflexivity|].
  split; [reflexivity|]. split; [reflexivity|].
  intros [H|H]; vm_compute in H; discriminate H.
Qed.

(** C3 at a failing input. In [callout] style the two lines written for
    [two_defs] both carry the number 1, although the tokens hold two line
    breaks: the line pending at a signature is written without advancing
    the number, and the line break inside the skipped range is not
    counted. *)
Theorem callout_repeats_line_number :
  exists out,
    format_unencoded (Examples.with_style "callout") Examples.two_defs = Ok out
    /\ PyStr.count_char PyStr.nl_char (source_text Examples.two_defs) = 2
    /\ line_numbers out = [1%Z; 1%Z]
    /\ line_numbers out <> consecutive 1 2.
Proof.
  eexists. split; [vm_compute; reflexivity|].
  split; [reflexivity|]. split; [reflexivity|].
  vm_compute. discriminate.
Qed.


(** * Further properties of the code *)

(** ** What the rendering loop writes *)

Lemma split_char_no_sep (c : char) (s : string) :
  Forall (fun p => PyStr.has_char c p = false) (PyStr.split_char c s).
Proof.
  induction s as [|x s IH]; cbn [PyStr.split_char]; [repeat constructor|].
  destruct (N.eqb x c) eqn:E.
  - constructor; [reflexivity | exact IH].
  - destruct (PyStr.split_char c s) as [|p ps]; [repeat constructor; cbn; rewrite E; reflexivity|].
    inversion IH as [|? ? Hp Hps]; subst.
    constructor; [cbn; rewrite E; exact Hp | exact Hps].
Qed.

Lemma append_part_inv (self : formatter) (Q : piece -> Prop) (ty : ttype)
    (current_line : list piece) (part : string) :
  (forall ty part, part_ok part -> Q (styled self ty part)) ->
  PyStr.has_char PyStr.nl_char part = false ->
  Forall Q current_line ->
  Forall Q (append_part self ty current_line part).
Proof.
  intros HQ Hnl Hcl. unfold append_part.
  destruct part as [|x part]; [exact Hcl|]. cbn [nonempty].
  apply Forall_app. split; [exact Hcl|].
  constructor; [|constructor]. apply HQ. split; [discriminate | exact Hnl].
Qed.

Lemma middle_lines_inv (self : formatter) (fence : string) (Q : piece -> Prop)
    (tokens : list token) (token_idx : nat) (ty : ttype) :
  (forall ty part, part_ok part -> Q (styled self ty part)) ->
  forall middle line_number,
    Forall (fun m => PyStr.has_char PyStr.nl_char m = false) middle ->
    exists cs line_number',
      middle_lines self tokens token_idx ty middle line_number = Ok (cs, line_number')
      /\ Forall (body_chunk_ok self fence Q) cs
      /\ Forall (fun c => is_code_line c = true) cs.
Proof.
  intros HQ.
  induction middle as [|part middle IH]; intros line_number Hm; cbn [middle_lines].
  - eexists _, _. split; [reflexivity | split; constructor].
  - inversion Hm as [|? ? Hp Hrest]; subst.
    destruct (write_line_Ok self (append_part self ty [] part) line_number
                (Some tokens) (Some token_idx)) as [note [-> Hn]]. cbn [bind].
    destruct (IH (line_number + 1)%Z Hrest) as [cs [ln' [-> [Hcs Hlines]]]].
    cbn [bind]. eexists _, _. split; [reflexivity|].
    split; [|constructor; [reflexivity | exact Hlines]].
    constructor; [|exact Hcs]. cbn [body_chunk_ok].
    split; [reflexivity|]. split; [exact Hn|].
    apply append_part_inv; [exact HQ | exact Hp | constructor].
Qed.

Lemma code_lines_no_fence (cs : list chunk) :
  Forall (fun c => is_code_line c = true) cs ->
  opening_fences cs = 0 /\ closing_fences cs = 0.
Proof.
  unfold opening_fences, closing_fences.
  induction 1 as [|c cs Hc _ IH]; [split; reflexivity|].
  destruct c; try discriminate. cbn. exact IH.
Qed.

Lemma emit_token_inv (self : formatter) (fence : string) (Q : piece -> Prop)
    (tokens : list token) (token_idx : nat) (ty : ttype) (value : string)
    (current_line : list piece) (line_number : Z) :
  (forall ty part, part_ok part -> Q (styled self ty part)) ->
  Forall Q current_line ->
  exists cs current_line' line_number',
    emit_token self tokens token_idx ty value current_line line_number
    = Ok (cs, current_line', line_number')
    /\ Forall (body_chunk_ok self fence Q) cs
    /\ Forall Q current_line'
    /\ Forall (fun c => is_code_line c = true) cs.
Proof.
  intros HQ Hcl. unfold emit_token.
  destruct (PyStr.has_char PyStr.nl_char value) eqn:Hnl.
  - pose proof (split_char_no_sep PyStr.nl_char value) as Hparts.
    pose proof (split_char_length PyStr.nl_char value) as Hlen.
    destruct (PyStr.split_char PyStr.nl_char value) as [|p0 rest]; [discriminate|].
    inversion Hparts as [|? ? Hp0 Hrest]; subst.
    cbn [hd tl].
    match goal with
    | |- context [_write_line self ?p ?n ?t ?i] =>
        destruct (write_line_Ok self p n t i) as [note [-> Hn]]
    end. cbn [bind].
    assert (Hmid : Forall (fun m => PyStr.has_char PyStr.nl_char m = false)
                     (removelast rest)).
    { apply Forall_forall. intros m Hm. rewrite Forall_forall in Hrest.
      apply Hrest. clear - Hm. induction rest as [|r rest IH]; [contradiction|].
      cbn in Hm. destruct rest as [|r' rest]; [contradiction|].
      destruct Hm as [<-|Hm]; [left; reflexivity | right; apply IH; exact Hm]. }
    destruct (middle_lines_inv self fence Q tokens token_idx ty HQ
                (removelast rest) (line_number + 1)%Z Hmid)
      as [cs [ln' [-> [Hcs Hlines]]]].
    cbn [bind]. eexists _, _, _. split; [reflexivity|].
    split; [|split; [|constructor; [reflexivity | exact Hlines]]].
    + constructor; [|exact Hcs]. cbn [body_chunk_ok].
      split; [reflexivity|]. split; [exact Hn|].
      apply append_part_inv; assumption.
    + destruct (1 <? length (p0 :: rest)); [|constructor].
      apply append_part_inv; [exact HQ| |constructor].
      destruct rest as [|r rest]; [cbn; exact Hp0|].
      assert (Hin : In (last (p0 :: r :: rest) "") (r :: rest)).
      { change (last (p0 :: r :: rest) "") with (last (r :: rest) "").
        clear. revert r; induction rest as [|r' rest IH]; intros r;
          [left; reflexivity | right; apply IH]. }
      rewrite Forall_forall in Hrest. apply Hrest. exact Hin.
  - eexists _, _, _. split; [reflexivity|]. split; [constructor|].
    split; [apply append_part_inv; assumption | constructor].
Qed.

Lemma splice_inv (self : formatter) (fence : string) (Q : piece -> Prop)
    (func : Sig.t) (current_line : list piece) (line_number : Z) :
  Forall Q current_line ->
  exists cs current_line',
    splice self fence func current_line line_number = Ok (cs, current_line')
    /\ Forall (body_chunk_ok self fence Q) cs
    /\ Forall Q current_line'
    /\ opening_fences cs
       = (if function_style_eqb (function_style self) emphasis then 0 else 1).
Proof.
  intros Hcl. unfold splice.
  destruct (function_style self).
  - destruct current_line as [|pc current_line].
    + cbn [bind]. eexists _, _. split; [reflexivity|].
      split; [repeat constructor|]. split; [constructor | reflexivity].
    + destruct (write_line_Ok self (pc :: current_line) line_number None None)
        as [note [-> Hn]]. cbn [bind].
      eexists _, _. split; [reflexivity|].
      split; [|split; [constructor | reflexivity]].
      constructor; [|repeat constructor].
      cbn [body_chunk_ok]. split; [reflexivity|]. split; [exact Hn | exact Hcl].
  - eexists _, _. split; [reflexivity|].
    split; [constructor|]. split; [exact Hcl | reflexivity].
  - destruct current_line as [|pc current_line].
    + cbn [bind]. eexists _, _. split; [reflexivity|].
      split; [repeat constructor|]. split; [constructor | reflexivity].
    + destruct (write_line_Ok self (pc :: current_line) line_number None None)
        as [note [-> Hn]]. cbn [bind].
      eexists _, _. split; [reflexivity|].
      split; [|split; [constructor | reflexivity]].
      constructor; [|repeat constructor].
      cbn [body_chunk_ok]. split; [reflexivity|]. split; [exact Hn | exact Hcl].
Qed.

Lemma find_app_none {A : Type} (f : A -> bool) (l1 l2 : list A) :
  Forall (fun x => f x = false) l1 -> find f (l1 ++ l2) = find f l2.
Proof.
  induction 1 as [|x l1 Hx _ IH]; [reflexivity|]. cbn. rewrite Hx. exact IH.
Qed.

Lemma find_none {A : Type} (f : A -> bool) (l : list A) :
  Forall (fun x => f x = false) l -> find f l = None.
Proof.
  induction 1 as [|x l Hx _ IH]; [reflexivity|]. cbn. rewrite Hx. exact IH.
Qed.

(** The record that the loop meets at [token_idx] is the first one ahead,
    when it begins there, and none otherwise. *)
Lemma current_func_ahead (tokens : list token) (sigs done rest : list Sig.t)
    (token_idx : nat) :
  records_ahead tokens sigs done rest token_idx ->
  current_func sigs token_idx
  = match rest with
    | a :: _ => if token_idx =? Sig.start_idx a then Some a else None
    | [] => None
    end.
Proof.
  intros [-> [Hdone [Hrest Hsorted]]]. unfold current_func.
  rewrite find_app_none.
  2:{ eapply Forall_impl; [|exact Hdone]. intros a Ha. cbv beta in Ha |- *.
      apply Nat.eqb_neq. lia. }
  destruct rest as [|a rest]; [reflexivity|]. cbn [find].
  destruct (token_idx =? Sig.start_idx a) eqn:E; [reflexivity|].
  apply Nat.eqb_neq in E. apply find_none.
  inversion Hrest as [|? ? [Ha1 [Ha2 Ha3]] _]; subst.
  inversion Hsorted as [|? ? _ Hall]; subst.
  eapply Forall_impl; [|exact Hall]. intros b Hb. cbv beta in Hb |- *.
  unfold resumes_after in Hb. apply Nat.eqb_neq. lia.
Qed.

Lemma records_ahead_step (tokens : list token) (sigs done rest : list Sig.t)
    (token_idx : nat) :
  records_ahead tokens sigs done rest token_idx ->
  current_func sigs token_idx = None ->
  records_ahead tokens sigs done rest (S token_idx).
Proof.
  intros H Hnone. rewrite (current_func_ahead _ _ _ _ _ H) in Hnone.
  destruct H as [Hs [Hdone [Hrest Hsorted]]].
  split; [exact Hs|]. split; [|split; [|exact Hsorted]].
  - eapply Forall_impl; [|exact Hdone]. intros a Ha. cbv beta in *. lia.
  - destruct rest as [|a rest]; [constructor|].
    destruct (token_idx =? Sig.start_idx a) eqn:E; [discriminate|].
    apply Nat.eqb_neq in E.
    inversion Hrest as [|? ? [Ha1 [Ha2 Ha3]] Hr]; subst.
    inversion Hsorted as [|? ? _ Hall]; subst.
    constructor; [unfold well_formed_at; lia|].
    rewrite Forall_forall in *. intros b Hb.
    destruct (Hr b Hb) as [Hb1 [Hb2 Hb3]]. specialize (Hall b Hb).
    unfold resumes_after in Hall. unfold well_formed_at. lia.
Qed.

Lemma records_ahead_jump (tokens : list token) (sigs done rest : list Sig.t)
    (a : Sig.t) :
  records_ahead tokens sigs done (a :: rest) (Sig.start_idx a) ->
  records_ahead tokens sigs (done ++ [a]) rest (Sig.end_idx a).
Proof.
  intros [Hs [Hdone [Hrest Hsorted]]].
  inversion Hrest as [|? ? [Ha1 [Ha2 Ha3]] Hr]; subst.
  inversion Hsorted as [|? ? Hsr Hall]; subst.
  split; [rewrite <- app_assoc; reflexivity|]. split; [|split; [|exact Hsr]].
  - apply Forall_app. split; [|repeat constructor; exact Ha2].
    eapply Forall_impl; [|exact Hdone]. intros b Hb. cbv beta in *. lia.
  - rewrite Forall_forall in *. intros b Hb.
    destruct (Hr b Hb) as [Hb1 [Hb2 Hb3]]. specialize (Hall b Hb).
    unfold resumes_after in Hall. unfold well_formed_at. lia.
Qed.

Lemma render_loop_inv (self : formatter) (tokens : list token) (sigs : list Sig.t)
    (fence : string) (Q : piece -> Prop) :
  (forall ty part, part_ok part -> Q (styled self ty part)) ->
  forall fuel current_line line_number token_idx done rest,
    function_style self = emphasis
    \/ records_ahead tokens sigs done rest token_idx ->
    Forall Q current_line ->
    length tokens - token_idx < fuel ->
    exists body current_line' line_number',
      render_loop fuel self tokens sigs fence current_line line_number token_idx
      = Ok (body, current_line', line_number')
      /\ Forall (body_chunk_ok self fence Q) body
      /\ Forall Q current_line'
      /\ opening_fences body
         = (if function_style_eqb (function_style self) emphasis
            then 0 else length rest).
Proof.
  intros HQ.
  induction fuel as [|fuel IH]; intros cl ln idx done rest Hinv Hcl Hf; [lia|].
  cbn [render_loop].
  destruct (idx <? length tokens) eqn:Hi.
  - apply Nat.ltb_lt in Hi.
    destruct (tok_at_Ok tokens idx Hi) as [[ty value] [-> _]]. cbn [bind].
    assert (Hemit :
      (function_style self = emphasis
       \/ records_ahead tokens sigs done rest (S idx)) ->
      exists body cl' ln',
        (' (cs, current_line, line_number) <-
            emit_token self tokens idx ty value cl ln ;;
         ' (rest, current_line, line_number) <-
            render_loop fuel self tokens sigs fence current_line line_number (S idx) ;;
         Ok (cs ++ rest, current_line, line_number))
        = Ok (body, cl', ln')
        /\ Forall (body_chunk_ok self fence Q) body /\ Forall Q cl'
        /\ opening_fences body
           = (if function_style_eqb (function_style self) emphasis
              then 0 else length rest)).
    { intros Hinv'.
      destruct (emit_token_inv self fence Q tokens idx ty value cl ln HQ Hcl)
        as [cs [cl1 [ln1 [-> [Hcs [Hcl1 Hlines]]]]]]. cbn [bind].
      destruct (IH cl1 ln1 (S idx) done rest Hinv' Hcl1)
        as [body [cl2 [ln2 [-> [Hbody [Hcl2 Hopen]]]]]]; [lia|].
      cbn [bind]. eexists _, _, _. split; [reflexivity|].
      split; [apply Forall_app; split; assumption|]. split; [exact Hcl2|].
      rewrite opening_fences_app, Hopen.
      rewrite (proj1 (code_lines_no_fence cs Hlines)). reflexivity. }
    destruct Hinv as [Hemph|Hahead].
    { rewrite Hemph. cbn [function_style_eqb negb].
      rewrite Hemph in Hemit. cbn [function_style_eqb] in Hemit.
      destruct (current_func sigs idx); apply Hemit; left; reflexivity. }
    rewrite (current_func_ahead _ _ _ _ _ Hahead).
    pose proof (records_ahead_step _ _ _ _ _ Hahead) as Hstep.
    rewrite (current_func_ahead _ _ _ _ _ Hahead) in Hstep.
    destruct rest as [|a rest]; [apply Hemit; right; apply Hstep; reflexivity|].
    destruct (idx =? Sig.start_idx a) eqn:Estart;
      [|apply Hemit; right; apply Hstep; reflexivity].
    apply Nat.eqb_eq in Estart. subst idx.
    destruct (negb (function_style_eqb (function_style self) emphasis)) eqn:Estyle.
    + destruct (splice_inv self fence Q a cl ln Hcl)
        as [cs [cl1 [-> [Hcs [Hcl1 Hopen1]]]]]. cbn [bind].
      pose proof (records_ahead_jump _ _ _ _ _ Hahead) as Hjump.
      destruct Hahead as [_ [_ [Hwf _]]].
      inversion Hwf as [|? ? [Ha1 [Ha2 Ha3]] _]; subst.
      destruct (IH cl1 ln (Sig.end_idx a) (done ++ [a]) rest (or_intror Hjump) Hcl1)
        as [body [cl2 [ln2 [-> [Hbody [Hcl2 Hopen]]]]]]; [lia|].
      cbn [bind]. eexists _, _, _. split; [reflexivity|].
      split; [apply Forall_app; split; assumption|]. split; [exact Hcl2|].
      rewrite opening_fences_app, Hopen, Hopen1.
      apply negb_true_iff in Estyle. rewrite Estyle. reflexivity.
    + apply negb_false_iff in Estyle.
      assert (Hemph : function_style self = emphasis)
        by (destruct (function_style self); try discriminate; reflexivity).
      apply Hemit. left; exact Hemph.
  - apply Nat.ltb_ge in Hi.
    exists [], cl, ln. split; [reflexivity|]. split; [constructor|].
    split; [exact Hcl|].
    destruct (function_style_eqb (function_style self) emphasis) eqn:Estyle;
      [reflexivity|].
    destruct Hinv as [Hemph|[_ [_ [Hwf _]]]];
      [rewrite Hemph in Estyle; discriminate|].
    destruct rest as [|a rest]; [reflexivity|].
    inversion Hwf as [|? ? [Ha1 [Ha2 Ha3]] _]; subst. lia.
Qed.

Lemma dict_get_cases (m : list (ttype * (string * string))) (k : ttype)
    (default : string * string) :
  dict_get m k default = default \/ In (dict_get m k default) (map snd m).
Proof.
  induction m as [|[k' v] m IH]; [left; reflexivity|]. cbn.
  destruct (ttype_eqb k k'); [right; left; reflexivity|].
  destruct IH as [IH|IH]; [left; exact IH | right; right; exact IH].
Qed.

Lemma style_map_markers :
  Forall (fun v : string * string => fst v = snd v /\ In (fst v) markers)
    (map snd style_map).
Proof.
  unfold style_map, markers. cbn [map snd].
  repeat (apply Forall_cons; [split; [reflexivity | cbn; auto 6]|]).
  apply Forall_nil.
Qed.

Lemma get_markdown_style_markers (self : formatter) (ty : ttype) :
  fst (_get_markdown_style self ty) = snd (_get_markdown_style self ty)
  /\ In (fst (_get_markdown_style self ty)) markers
  /\ (inline_styles self = false -> _get_markdown_style self ty = ("", "")).
Proof.
  unfold _get_markdown_style. destruct (inline_styles self); cbn [negb].
  - destruct (dict_get_cases style_map ty ("", "")) as [->|Hin].
    + split; [reflexivity|]. split; [left; reflexivity | discriminate].
    + pose proof style_map_markers as H. rewrite Forall_forall in H.
      destruct (H _ Hin) as [H1 H2].
      split; [exact H1|]. split; [exact H2 | discriminate].
  - split; [reflexivity|]. split; [left; reflexivity | reflexivity].
Qed.

Lemma styled_ok (self : formatter) (ty : ttype) (part : string) :
  part_ok part -> piece_ok self (styled self ty part).
Proof.
  intros Hpart. unfold styled, piece_ok.
  destruct (inline_styles self) eqn:Hin.
  - destruct (get_markdown_style_markers self ty) as [H1 [H2 _]].
    destruct (_get_markdown_style self ty) as [pre suf]. cbn [fst snd] in *.
    destruct (nonempty pre || nonempty suf); cbn [p_text p_prefix p_suffix].
    + split; [exact Hpart|]. split; [exact H1|]. split; [exact H2 | discriminate].
    + split; [exact Hpart|]. split; [reflexivity|].
      split; [left; reflexivity | reflexivity].
  - cbn [p_text p_prefix p_suffix]. split; [exact Hpart|]. split; [reflexivity|].
    split; [left; reflexivity | reflexivity].
Qed.

(** [format_unencoded] returns the header, the summary, the opening fence,
    the lines and call-outs of the loop, the closing fence and the
    trailers, in this order; the loop opens one fence for each record when
    the style is not [emphasis], and none otherwise. *)
Lemma format_unencoded_shape (self : formatter) (tokens : list token) :
  exists sigs body,
    function_signatures self tokens = Ok sigs
    /\ format_unencoded self tokens
       = Ok (header self ++ summary self sigs
             ++ [FenceOpen (fence_of self ++ lang self ++ PyStr.nl)]
             ++ body
             ++ [FenceClose (fence_of self ++ PyStr.nl)]
             ++ highlighted_comment self ++ functions_list self sigs)
    /\ Forall (body_chunk_ok self (fence_of self) (piece_ok self)) body
    /\ opening_fences body
       = (if function_style_eqb (function_style self) emphasis
          then 0 else length sigs).
Proof.
  unfold format_unencoded.
  destruct (function_signatures_Ok self tokens) as [sigs [Esigs [Hwf Hsorted]]].
  exists sigs. rewrite Esigs. cbn [bind]. fold (fence_of self).
  destruct (render_loop_inv self tokens sigs (fence_of self) (piece_ok self)
              (styled_ok self) (S (length tokens)) [] (linenostart self) 0 [] sigs)
    as [body [cl [ln [-> [Hbody [Hcl Hopen]]]]]].
  { right. split; [reflexivity|]. split; [constructor|]. split; assumption. }
  { constructor. }
  { lia. }
  cbn [bind]. destruct cl as [|pc cl].
  - cbn [bind]. exists body.
    split; [reflexivity|]. split; [reflexivity|]. split; assumption.
  - destruct (write_line_Ok self (pc :: cl) ln (Some tokens)
                (Some (length tokens - 1))) as [note [-> Hn]]. cbn [bind].
    eexists (body ++ [_]). rewrite <- !app_assoc.
    split; [reflexivity|]. split; [reflexivity|]. split.
    + apply Forall_app. split; [exact Hbody|]. constructor; [|constructor].
      cbn [body_chunk_ok]. split; [reflexivity|]. split; assumption.
    + rewrite opening_fences_app, Hopen. cbn. lia.
Qed.

Lemma texts_no_fence (out : list chunk) :
  Forall (fun c => exists s, c = Text s) out ->
  opening_fences out = 0 /\ closing_fences out = 0.
Proof.
  unfold opening_fences, closing_fences.
  induction 1 as [|c out [s ->] _ IH]; [split; reflexivity | exact IH].
Qed.

Lemma in_texts (l : list chunk) (c : chunk) :
  Forall (fun c => exists s, c = Text s) l -> In c l -> exists s, c = Text s.
Proof. intros H Hin. rewrite Forall_forall in H. exact (H c Hin). Qed.

Lemma in_output_cases (self : formatter) (sigs : list Sig.t) (body : list chunk)
    (c : chunk) :
  In c (header self ++ summary self sigs
        ++ [FenceOpen (fence_of self ++ lang self ++ PyStr.nl)]
        ++ body
        ++ [FenceClose (fence_of self ++ PyStr.nl)]
        ++ highlighted_comment self ++ functions_list self sigs) ->
  (exists s, c = Text s)
  \/ c = FenceOpen (fence_of self ++ lang self ++ PyStr.nl)
  \/ In c body
  \/ c = FenceClose (fence_of self ++ PyStr.nl).
Proof.
  intros H.
  repeat (apply in_app_or in H; destruct H as [H|H]).
  - left. exact (in_texts _ _ (header_texts self) H).
  - left. exact (in_texts _ _ (summary_texts self sigs) H).
  - destruct H as [<-|[]]. right; left; reflexivity.
  - right; right; left; exact H.
  - destruct H as [<-|[]]. right; right; right; reflexivity.
  - left. exact (in_texts _ _ (highlighted_comment_texts self) H).
  - left. exact (in_texts _ _ (functions_list_texts self sigs) H).
Qed.

(** ** Further properties of rendering *)

(** One fenced block is written in [emphasis] style, and one more than
    there are detected signatures in the other styles; every block that is
    opened is closed. *)
Theorem fenced_blocks_count (self : formatter) (tokens : list token) :
  exists sigs out,
    function_signatures self tokens = Ok sigs
    /\ format_unencoded self tokens = Ok out
    /\ closing_fences out = opening_fences out
    /\ (function_style self = emphasis -> opening_fences out = 1)
    /\ (function_style self <> emphasis -> opening_fences out = 1 + length sigs).
Proof.
  destruct (format_unencoded_shape self tokens)
    as [sigs [body [Esigs [Eout [_ Hopen]]]]].
  destruct (format_unencoded_Ok self tokens) as [out [Eout' [Hbal _]]].
  exists sigs, out. split; [exact Esigs|]. split; [exact Eout'|].
  split; [symmetry; exact Hbal|].
  assert (Hout : out = header self ++ summary self sigs
                        ++ [FenceOpen (fence_of self ++ lang self ++ PyStr.nl)]
                        ++ body
                        ++ [FenceClose (fence_of self ++ PyStr.nl)]
                        ++ highlighted_comment self ++ functions_list self sigs)
    by (rewrite Eout in Eout'; injection Eout' as <-; reflexivity).
  assert (Hcount : opening_fences out = 1 + opening_fences body).
  { rewrite Hout, !opening_fences_app.
    rewrite (proj1 (texts_no_fence _ (header_texts self))).
    rewrite (proj1 (texts_no_fence _ (summary_texts self sigs))).
    rewrite (proj1 (texts_no_fence _ (highlighted_comment_texts self))).
    rewrite (proj1 (texts_no_fence _ (functions_list_texts self sigs))).
    change (opening_fences [FenceOpen _]) with 1.
    change (opening_fences [FenceClose _]) with 0. lia. }
  rewrite Hcount, Hopen. split.
  - intros ->. reflexivity.
  - intros Hne. destruct (function_style self); try reflexivity. contradiction.
Qed.

Lemma fenced_blocks_count_witness :
  exists out,
    format_unencoded (Examples.with_style "heading") Examples.two_defs = Ok out
    /\ opening_fences out = 3.
Proof.
  destruct (fenced_blocks_count (Examples.with_style "heading") Examples.two_defs)
    as [sigs [out [Esigs [Eout [_ [_ H]]]]]].
  exists out. split; [exact Eout|].
  rewrite H by discriminate.
  vm_compute in Esigs. injection Esigs as <-. reflexivity.
Defined.

(** Whatever options the formatter is built with, every fence of its
    output is the same run of at least three backticks or tildes; an
    opening fence carries the language tag, a closing fence nothing. *)
Theorem fences_uniform (o : options) (tokens : list token) :
  exists out c n,
    format_unencoded (init o) tokens = Ok out
    /\ (c = (ch "`") \/ c = (ch "~")) /\ 3 <= n
    /\ (forall s, In (FenceOpen s) out ->
                  s = (repeat_char c n ++ lang (init o) ++ PyStr.nl)%str)
    /\ (forall s, In (FenceClose s) out ->
                  s = (repeat_char c n ++ PyStr.nl)%str
                  \/ s = (repeat_char c n ++ PyStr.nl ++ PyStr.nl)%str).
Proof.
  destruct (format_unencoded_shape (init o) tokens)
    as [sigs [body [_ [Eout [Hbody _]]]]].
  eexists _, (fence_char (init o)), (fence_count (init o)).
  split; [exact Eout|]. fold (fence_of (init o)).
  rewrite Forall_forall in Hbody.
  split; [|split; [|split]].
  - cbn [init fence_char].
    destruct (get (o_fence_char o) "`" =? "`")%str; [left; reflexivity|].
    destruct (get (o_fence_char o) "`" =? "~")%str;
      [right; reflexivity | left; reflexivity].
  - cbn [init fence_count].
    destruct (get (o_fence_count o) 3 <? 3)%Z eqn:E; [lia|].
    apply Z.ltb_ge in E. lia.
  - intros s Hin.
    destruct (in_output_cases _ _ _ _ Hin) as [[t Ht]|[Ho|[Hb|Hc]]];
      try discriminate.
    + injection Ho as ->. reflexivity.
    + exact (Hbody _ Hb).
  - intros s Hin.
    destruct (in_output_cases _ _ _ _ Hin) as [[t Ht]|[Ho|[Hb|Hc]]];
      try discriminate.
    + right. exact (Hbody _ Hb).
    + injection Hc as ->. left; reflexivity.
Qed.

Lemma fences_uniform_witness :
  exists out,
    format_unencoded (init Examples.odd_fence) Examples.two_defs = Ok out
    /\ In (FenceOpen ("```python" ++ PyStr.nl)) out
    /\ forall s, In (FenceOpen s) out -> s = ("```python" ++ PyStr.nl)%str.
Proof.
  destruct (fences_uniform Examples.odd_fence Examples.two_defs)
    as [out [c [n [Eout [_ [_ [Hopen _]]]]]]].
  exists out. split; [exact Eout|].
  assert (Hin : In (FenceOpen ("```python" ++ PyStr.nl)) out).
  { vm_compute in Eout. injection Eout as <-. left; reflexivity. }
  split; [exact Hin|].
  intros s Hs. rewrite (Hopen s Hs). symmetry. exact (Hopen _ Hin).
Defined.

(** Every part of every line written is a piece of token text that is not
    empty and holds no line break, between two equal markers out of the
    empty one, [*], [**] and [~~]; the number prefix is written exactly when
    [linenos] is set. *)
Theorem line_parts_well_formed (self : formatter) (tokens : list token) :
  exists out,
    format_unencoded self tokens = Ok out
    /\ forall n numbered parts note,
         In (CodeLine n numbered parts note) out ->
         numbered = linenos self /\ Forall (piece_ok self) parts.
Proof.
  destruct (format_unencoded_shape self tokens)
    as [sigs [body [_ [Eout [Hbody _]]]]].
  eexists. split; [exact Eout|].
  intros n numbered parts note Hin.
  destruct (in_output_cases _ _ _ _ Hin) as [[t Ht]|[Ho|[Hb|Hc]]];
    try discriminate.
  rewrite Forall_forall in Hbody. destruct (Hbody _ Hb) as [H1 [_ H3]].
  split; assumption.
Qed.

Lemma line_parts_well_formed_witness :
  exists out,
    format_unencoded (init no_options) Examples.def_f = Ok out
    /\ exists parts, In (CodeLine 2 false parts NoAnnotation) out
                     /\ Forall (piece_ok (init no_options)) parts.
Proof.
  destruct (line_parts_well_formed (init no_options) Examples.def_f)
    as [out [Eout H]].
  exists out. split; [exact Eout|].
  assert (Hin : exists parts, In (CodeLine 2 false parts NoAnnotation) out).
  { vm_compute in Eout. injection Eout as <-.
    eexists. right; right; left; reflexivity. }
  destruct Hin as [parts Hin]. exists parts. split; [exact Hin|].
  exact (proj2 (H _ _ _ _ Hin)).
Defined.

Lemma plain_pieces_text (self : formatter) (parts : list piece) :
  inline_styles self = false ->
  Forall (piece_ok self) parts ->
  PyStr.join (map piece_text parts) = plain_text parts.
Proof.
  intros Hoff H. unfold plain_text. f_equal.
  induction H as [|p parts [_ [Heq [_ Hp]]] _ IH]; [reflexivity|].
  cbn [map]. rewrite IH. f_equal. unfold piece_text.
  rewrite <- Heq, (Hp Hoff). cbn [append]. apply append_nil_r.
Qed.

(** With [inline_styles] off no markup is written: the text of every line
    is its number prefix, when asked for, the plain text of its tokens,
    its annotation and a line break. *)
Theorem styles_off_writes_plain_text (self : formatter) (tokens : list token) :
  inline_styles self = false ->
  exists out,
    format_unencoded self tokens = Ok out
    /\ forall n numbered parts note,
         In (CodeLine n numbered parts note) out ->
         chunk_text (CodeLine n numbered parts note)
         = ((if linenos self then format_4d n ++ " | " else "")
            ++ plain_text parts ++ annotation_text note ++ PyStr.nl)%str.
Proof.
  intros Hoff.
  destruct (format_unencoded_shape self tokens)
    as [sigs [body [_ [Eout [Hbody _]]]]].
  eexists. split; [exact Eout|].
  intros n numbered parts note Hin.
  destruct (in_output_cases _ _ _ _ Hin) as [[t Ht]|[Ho|[Hb|Hc]]];
    try discriminate.
  rewrite Forall_forall in Hbody. destruct (Hbody _ Hb) as [-> [_ H3]].
  cbn [chunk_text]. rewrite (plain_pieces_text self parts Hoff H3). reflexivity.
Qed.

Lemma styles_off_writes_plain_text_witness :
  exists out,
    format_unencoded Examples.highlight_first [Examples.kw "pass"] = Ok out
    /\ forall n numbered parts note,
         In (CodeLine n numbered parts note) out ->
         chunk_text (CodeLine n numbered parts note)
         = (plain_text parts ++ annotation_text note ++ PyStr.nl)%str.
Proof.
  exact (styles_off_writes_plain_text Examples.highlight_first
           [Examples.kw "pass"] eq_refl).
Defined.

(** Outside the [emphasis] style, and whenever [highlight_functions] is
    off, no line carries the function marker: a line carries the highlight
    annotation when its number is in [hl_lines] and no annotation
    otherwise. *)
Theorem annotations_without_function_marks (self : formatter)
    (tokens : list token) :
  function_style self <> emphasis \/ highlight_functions self = false ->
  exists out,
    format_unencoded self tokens = Ok out
    /\ forall n numbered parts note,
         In (CodeLine n numbered parts note) out ->
         (In n (hl_lines self) -> note = Highlighted)
         /\ (~ In n (hl_lines self) -> note = NoAnnotation).
Proof.
  intros Hno.
  destruct (format_unencoded_Ok self tokens) as [out [Eout [_ Hlines]]].
  exists out. split; [exact Eout|].
  intros n numbered parts note Hin.
  rewrite Forall_forall in Hlines. destruct (Hlines _ Hin) as [_ Hnote].
  destruct note as [|f|]; cbn [note_ok] in Hnote.
  - split; [intros H; contradiction | reflexivity].
  - destruct Hnote as [Hh Hs]. destruct Hno as [Hne|Hoff];
      [contradiction | congruence].
  - split; [reflexivity | intros H; contradiction].
Qed.

Lemma annotations_without_function_marks_witness :
  exists out,
    format_unencoded (Examples.with_style "callout") Examples.def_f = Ok out
    /\ forall n numbered parts note,
         In (CodeLine n numbered parts note) out -> note = NoAnnotation.
Proof.
  destruct (annotations_without_function_marks
              (Examples.with_style "callout") Examples.def_f)
    as [out [Eout H]]; [left; discriminate|].
  exists out. split; [exact Eout|].
  intros n numbered parts note Hin.
  apply (proj2 (H _ _ _ _ Hin)). intros [].
Defined.

(** ** What the scanner accepts *)

Lemma nth_error_lt {A : Type} (l : list A) (i : nat) (t : A) :
  nth_error l i = Some t -> i < length l.
Proof. intros H. apply nth_error_Some. rewrite H. discriminate. Qed.

Lemma skip_whitespace_spec (tokens : list token) :
  forall fuel i, length tokens - i < fuel ->
    exists j, skip_whitespace fuel tokens i = Ok j /\ i <= j
      /\ all_ws_between tokens i j
      /\ (forall t, nth_error tokens j = Some t -> is_ws t = false).
Proof.
  induction fuel as [|fuel IH]; intros i Hf; [lia|]. cbn [skip_whitespace].
  destruct (i <? length tokens) eqn:Hi.
  - apply Nat.ltb_lt in Hi.
    destruct (tok_at_Ok tokens i Hi) as [t [-> Hnth]]. cbn [bind].
    destruct (is_ws t) eqn:Hws.
    + destruct (IH (S i)) as [j [-> [Hj [Hall Hstop]]]]; [lia|].
      exists j. split; [reflexivity|]. split; [lia|]. split; [|exact Hstop].
      intros m t' Hm Hm'. destruct (Nat.eq_dec m i) as [->|Hne].
      * rewrite Hnth in Hm'. injection Hm' as <-. exact Hws.
      * apply (Hall m t'); [lia | exact Hm'].
    + exists i. split; [reflexivity|]. split; [lia|]. split.
      * intros m t' Hm. lia.
      * intros t' Ht'. rewrite Hnth in Ht'. injection Ht' as <-. exact Hws.
  - apply Nat.ltb_ge in Hi. exists i. split; [reflexivity|]. split; [lia|]. split.
    + intros m t' Hm. lia.
    + intros t Ht. apply nth_error_lt in Ht. lia.
Qed.

Lemma slice_step {A : Type} (l : list A) (j i : nat) (t : A) :
  j < i -> nth_error l j = Some t -> slice l j i = t :: slice l (S j) i.
Proof.
  intros Hji Hnth. unfold slice. rewrite (skipn_nth_error _ _ _ Hnth).
  replace (i - j) with (S (i - S j)) by lia. reflexivity.
Qed.

Lemma slice_empty {A : Type} (l : list A) (j i : nat) : i <= j -> slice l j i = [].
Proof. intros H. unfold slice. replace (i - j) with 0 by lia. reflexivity. Qed.

Lemma look_back_spec (tokens : list token) (i : nat) :
  i <= length tokens ->
  forall fuel j prev, i - j < fuel ->
    look_back fuel tokens i j prev
    = Ok (prev ++ filter (fun t => negb (is_ws t)) (slice tokens j i)).
Proof.
  intros Hi. induction fuel as [|fuel IH]; intros j prev Hf; [lia|].
  cbn [look_back]. destruct (j <? i) eqn:Hj.
  - apply Nat.ltb_lt in Hj.
    destruct (tok_at_Ok tokens j) as [t [-> Hnth]]; [lia|]. cbn [bind].
    rewrite IH by lia. rewrite (slice_step _ _ _ _ Hj Hnth). cbn [filter].
    destruct (negb (is_ws t)); [rewrite <- app_assoc|]; reflexivity.
  - apply Nat.ltb_ge in Hj. rewrite slice_empty by exact Hj.
    cbn [filter]. rewrite app_nil_r. reflexivity.
Qed.

Lemma last_filter {A : Type} (f : A -> bool) (d : A) (l : list A) :
  filter f l <> [] ->
  exists before gap,
    l = before ++ last (filter f l) d :: gap
    /\ Forall (fun x => f x = false) gap
    /\ f (last (filter f l) d) = true.
Proof.
  induction l as [|x l IH]; [intros H; contradiction|]. cbn [filter].
  destruct (f x) eqn:Hx.
  - destruct (filter f l) as [|y fl] eqn:Hfl.
    + intros _. exists [], l. cbn. split; [reflexivity|]. split; [|exact Hx].
      clear - Hfl. induction l as [|z l IHl]; [constructor|].
      cbn in Hfl. destruct (f z) eqn:Hz; [discriminate|].
      constructor; [exact Hz | apply IHl; exact Hfl].
    + intros _. destruct IH as [before [gap [El [Hgap Hlast]]]]; [discriminate|].
      exists (x :: before), gap.
      change (last (x :: y :: fl) d) with (last (y :: fl) d).
      split; [cbn [app]; f_equal; exact El|]. split; assumption.
  - intros Hne. destruct (IH Hne) as [before [gap [El [Hgap Hlast]]]].
    exists (x :: before), gap. split; [cbn [app]; f_equal; exact El|].
    split; assumption.
Qed.

Lemma firstn_succ {A : Type} (l : list A) (j : nat) (t : A) :
  nth_error l j = Some t -> firstn (S j) l = firstn j l ++ [t].
Proof.
  revert j; induction l as [|x l IH]; intros [|j] H; try discriminate.
  - cbn in H. injection H as ->. reflexivity.
  - cbn in H. cbn [firstn app]. f_equal. apply IH. exact H.
Qed.

Lemma slice_snoc {A : Type} (l : list A) (a i : nat) (t : A) :
  a <= i -> nth_error l i = Some t -> slice l a (S i) = slice l a i ++ [t].
Proof.
  intros Hai Hnth. unfold slice.
  replace (S i - a) with (S (i - a)) by lia.
  apply firstn_succ. rewrite nth_error_skipn.
  replace (a + (i - a)) with i by lia. exact Hnth.
Qed.

Lemma depth_before_start (tokens : list token) (open : nat) :
  depth_before tokens open (S open) = 1.
Proof. unfold depth_before. rewrite slice_empty by lia. reflexivity. Qed.

Lemma depth_before_step (tokens : list token) (open i : nat) (t : token) :
  open < i -> nth_error tokens i = Some t ->
  depth_before tokens open (S i) = paren_step (depth_before tokens open i) t.
Proof.
  intros Hi Hnth. unfold depth_before.
  rewrite (slice_snoc tokens (S open) i t) by (lia || exact Hnth).
  rewrite fold_left_app. reflexivity.
Qed.

(** The parameter loop, started at [i] inside the list opened at [open],
    stops where that list ends and has collected its tokens. *)
Lemma scan_parameters_spec (tokens : list token) (open : nat) :
  forall fuel i, length tokens - i < fuel -> open < i -> i <= length tokens ->
    (forall m, open < m < i ->
               m < length tokens /\ 0 < depth_before tokens open m) ->
    0 < depth_before tokens open i ->
    exists p,
      scan_parameters fuel tokens i (depth_before tokens open i)
        (slice tokens (S open) i)
      = Ok (p, param_tokens_of tokens open p)
      /\ i <= p /\ p <= length tokens /\ params_end tokens open p.
Proof.
  induction fuel as [|fuel IH]; intros i Hf Hopen Hlen Hbefore Hpos; [lia|].
  cbn [scan_parameters].
  assert (Hpc : (0 <? depth_before tokens open i) = true)
    by (apply Nat.ltb_lt; exact Hpos).
  destruct (i <? length tokens) eqn:Hi.
  - apply Nat.ltb_lt in Hi. rewrite Hpc. cbn [andb].
    destruct (tok_at_Ok tokens i Hi) as [[ty value] [-> Hnth]]. cbn [bind].
    pose proof (depth_before_step tokens open i (ty, value) Hopen Hnth) as Hstep.
    unfold paren_step in Hstep. cbn [fst snd] in Hstep. rewrite <- Hstep.
    assert (Hbefore' : forall m, open < m < S i ->
                         m < length tokens /\ 0 < depth_before tokens open m).
    { intros m Hm. destruct (Nat.eq_dec m i) as [->|Hne];
        [split; assumption | apply Hbefore; lia]. }
    destruct (0 <? depth_before tokens open (S i)) eqn:Hnext.
    + apply Nat.ltb_lt in Hnext.
      replace (slice tokens (S open) i ++ [(ty, value)])
        with (slice tokens (S open) (S i))
        by (apply slice_snoc; [lia | exact Hnth]).
      destruct (IH (S i)) as [p [-> [Hp1 [Hp2 Hend]]]];
        [lia | lia | lia | exact Hbefore' | exact Hnext|].
      exists p. split; [reflexivity|]. split; [lia|]. split; assumption.
    + apply Nat.ltb_ge in Hnext.
      assert (Hzero : depth_before tokens open (S i) = 0) by lia.
      destruct fuel as [|fuel']; [lia|]. cbn [scan_parameters].
      rewrite Hzero. cbn [Nat.ltb Nat.leb]. rewrite andb_false_r.
      exists (S i). split.
      * unfold param_tokens_of. rewrite Hzero. cbn [Nat.eqb].
        replace (S i - 1) with i by lia. reflexivity.
      * split; [lia|]. split; [lia|].
        split; [lia|]. split; [exact Hbefore' | left; exact Hzero].
  - apply Nat.ltb_ge in Hi. cbn [andb]. exists i. split.
    + unfold param_tokens_of.
      destruct (depth_before tokens open i =? 0) eqn:E;
        [apply Nat.eqb_eq in E; lia | reflexivity].
    + split; [lia|]. split; [lia|].
      split; [lia|]. split; [exact Hbefore | right; lia].
Qed.

Lemma scan_parameters_from_open (tokens : list token) (open : nat) :
  open < length tokens ->
  exists p,
    scan_parameters (S (length tokens)) tokens (S open) 1 []
    = Ok (p, param_tokens_of tokens open p)
    /\ p <= length tokens /\ params_end tokens open p.
Proof.
  intros Hopen.
  destruct (scan_parameters_spec tokens open (S (length tokens)) (S open))
    as [p [E [_ [Hp Hend]]]]; [lia | lia | lia | intros m Hm; lia | |].
  { rewrite depth_before_start. lia. }
  rewrite depth_before_start, (slice_empty tokens (S open) (S open)) in E by lia.
  exists p. split; [exact E|]. split; assumption.
Qed.

Lemma ends_at_first_terminator (tokens : list token) (p : nat) :
  p <= length tokens ->
  exists e, scan_terminator (S (length tokens)) tokens p = Ok e
    /\ ends_at_first is_terminator tokens p e.
Proof.
  intros Hp.
  destruct (scan_terminator_Ok tokens (S (length tokens)) p)
    as [e [Ee [He1 [He2 [Hno Hat]]]]]; [lia|].
  exists e. split; [exact Ee|].
  split; [lia|]. split; [exact Hno|].
  destruct (Nat.eq_dec e (length tokens)) as [Heq|Hne];
    [left; exact Heq | right; apply Hat; lia].
Qed.

Lemma is_ws_type (t : token) : is_ws t = true -> fst t = Tok.Whitespace.
Proof.
  unfold is_ws, ttype_in. cbn [existsb]. rewrite orb_false_r.
  apply ttype_eqb_eq.
Qed.

(** The loop that looks for the parenthesis finds the one at [open] when
    only white space lies before it, and reads the signature from there. *)
Lemma find_paren_to (tokens : list token) (start_idx : nat) (name : string)
    (open : nat) :
  nth_error tokens open = Some (Tok.Punctuation, "(") ->
  forall fuel i, length tokens - i < fuel -> i <= open ->
    all_ws_between tokens i open ->
    exists r p, find_paren fuel tokens start_idx name i = Ok r
      /\ is_function r = true /\ function_name r = Some name
      /\ params_end tokens open p
      /\ parameters r = Some (parameter_text (param_tokens_of tokens open p))
      /\ ends_at_first is_terminator tokens p (end_idx r).
Proof.
  intros Hopen.
  assert (Hlt : open < length tokens) by (apply (nth_error_lt _ _ _ Hopen)).
  induction fuel as [|fuel IH]; intros i Hf Hi Hws; [lia|]. cbn [find_paren].
  assert (Hil : (i <? length tokens) = true) by (apply Nat.ltb_lt; lia).
  rewrite Hil.
  destruct (Nat.eq_dec i open) as [->|Hne].
  - unfold tok_at. rewrite Hopen. cbn [bind].
    change (ttype_eqb Tok.Punctuation Tok.Punctuation && ("(" =? "(")%str) with true.
    cbv iota.
    destruct (scan_parameters_from_open tokens open Hlt) as [p [-> [Hp Hend]]].
    cbn [bind].
    destruct (ends_at_first_terminator tokens p Hp) as [e [-> He]]. cbn [bind].
    eexists _, p. split; [reflexivity|].
    cbn [is_function function_name parameters end_idx].
    repeat (split; [reflexivity|]). split; [exact Hend|].
    split; [reflexivity | exact He].
  - destruct (tok_at_Ok tokens i) as [[ty value] [-> Hnth]]; [lia|]. cbn [bind].
    assert (Hty : ty = Tok.Whitespace).
    { apply (is_ws_type (ty, value)). apply (Hws i); [lia | exact Hnth]. }
    subst ty.
    change (ttype_eqb Tok.Whitespace Tok.Punctuation) with false.
    change (ttype_in Tok.Whitespace [Tok.Whitespace]) with true.
    cbn [andb negb].
    apply IH; [lia | lia|].
    intros m t Hm. apply Hws. lia.
Qed.

Lemma find_paren_spec (tokens : list token) (start_idx : nat) (name : string) :
  forall fuel i, length tokens - i < fuel ->
    exists r, find_paren fuel tokens start_idx name i = Ok r
      /\ (r = not_found start_idx
          \/ (is_function r = true /\ function_name r = Some name
              /\ exists open p,
                   i <= open
                   /\ all_ws_between tokens i open
                   /\ nth_error tokens open = Some (Tok.Punctuation, "(")
                   /\ params_end tokens open p
                   /\ parameters r
                      = Some (parameter_text (param_tokens_of tokens open p))
                   /\ ends_at_first is_terminator tokens p (end_idx r))).
Proof.
  induction fuel as [|fuel IH]; intros i Hf; [lia|]. cbn [find_paren].
  destruct (i <? length tokens) eqn:Hi.
  - apply Nat.ltb_lt in Hi.
    destruct (tok_at_Ok tokens i Hi) as [[ty value] [-> Hnth]]. cbn [bind].
    destruct (ttype_eqb ty Tok.Punctuation && String.eqb value "(") eqn:Hopen.
    + apply andb_true_iff in Hopen as [Hty Hv].
      apply ttype_eqb_eq in Hty. apply string_eqb_eq in Hv. subst ty value.
      destruct (scan_parameters_from_open tokens i Hi) as [p [-> [Hp Hend]]].
      cbn [bind].
      destruct (ends_at_first_terminator tokens p Hp) as [e [-> He]]. cbn [bind].
      eexists. split; [reflexivity|]. right.
      cbn [is_function function_name parameters end_idx].
      split; [reflexivity|]. split; [reflexivity|].
      exists i, p. split; [lia|].
      split; [intros m t Hm; lia|]. split; [exact Hnth|].
      split; [exact Hend|]. split; [reflexivity | exact He].
    + destruct (negb (ttype_in ty [Tok.Whitespace])) eqn:Hws.
      * eexists. split; [reflexivity|]. left; reflexivity.
      * apply negb_false_iff in Hws.
        destruct (IH (S i)) as [r [-> Hr]]; [lia|].
        exists r. split; [reflexivity|].
        destruct Hr as [Hr|[Hf' [Hname [open [p [Ho [Hall Hrest]]]]]]];
          [left; exact Hr|].
        right. split; [exact Hf'|]. split; [exact Hname|].
        exists open, p. split; [lia|]. split; [|exact Hrest].
        intros m t Hm Hm'. destruct (Nat.eq_dec m i) as [->|Hne].
        -- rewrite Hnth in Hm'. injection Hm' as <-. exact Hws.
        -- apply (Hall m t); [lia | exact Hm'].
  - eexists. split; [reflexivity|]. left; reflexivity.
Qed.

Lemma detect_head_spec (tokens : list token) (i : nat) :
  i < length tokens ->
  exists i' found_def, detect_head tokens i = Ok (i', found_def)
    /\ (found_def = true ->
        exists t, nth_error tokens i = Some t
          /\ ((i' = S i /\ is_def_keyword t = true)
              \/ (i' = i /\ 0 < i /\ fst t = Tok.Name
                  /\ exists before u gap,
                       slice tokens (i - 5) i = before ++ u :: gap
                       /\ Forall (fun x => is_ws x = true) gap
                       /\ is_ws u = false /\ is_type_or_modifier u = true))).
Proof.
  intros Hi. unfold detect_head.
  destruct (tok_at_Ok tokens i Hi) as [[ty value] [-> Hnth]]. cbn [bind].
  destruct (ttype_in ty [Tok.Keyword; Tok.Keyword .: "Declaration"]
            && PyStr.in_strings (PyStr.lower value) def_keywords) eqn:Hkw.
  - exists (S i), true. split; [reflexivity|]. intros _.
    exists (ty, value). split; [exact Hnth|]. left. split; [reflexivity | exact Hkw].
  - destruct (ttype_eqb ty Tok.Name && (0 <? i)) eqn:Hname.
    + apply andb_true_iff in Hname as [Hty Hpos].
      apply ttype_eqb_eq in Hty. apply Nat.ltb_lt in Hpos.
      rewrite (look_back_spec tokens i (Nat.lt_le_incl _ _ Hi)) by lia.
      cbn [bind app Nat.max].
      destruct (1 <=? length (filter (fun t => negb (is_ws t))
                                (slice tokens (i - 5) i))) eqn:Hlen.
      * eexists _, _. split; [reflexivity|]. intros Hfound.
        exists (ty, value). split; [exact Hnth|]. right.
        split; [reflexivity|]. split; [exact Hpos|]. split; [exact Hty|].
        destruct (last_filter (fun t => negb (is_ws t)) ([], "")
                    (slice tokens (i - 5) i))
          as [before [gap [El [Hgap Hlast]]]].
        { intros E. rewrite E in Hlen. discriminate. }
        eexists before, _, gap. split; [exact El|]. split.
        -- eapply Forall_impl; [|exact Hgap]. intros x Hx.
           cbv beta in Hx. apply negb_false_iff in Hx. exact Hx.
        -- split; [apply negb_true_iff in Hlast; exact Hlast | exact Hfound].
      * exists i, false. split; [reflexivity | discriminate].
    + exists i, false. split; [reflexivity | discriminate].
Qed.

Lemma scanner_spec (self : formatter) (tokens : list token) (start_idx : nat) :
  exists r, _is_function_definition self tokens start_idx = Ok r
    /\ (r = not_found start_idx
        \/ (is_function r = true /\ highlight_functions self = true
            /\ signature_shape tokens start_idx r)).
Proof.
  unfold _is_function_definition.
  destruct (highlight_functions self) eqn:Hhl; cbn [negb].
  2:{ eexists. split; [reflexivity|]. left; reflexivity. }
  destruct (skip_whitespace_spec tokens (S (length tokens)) start_idx)
    as [i [-> [Hi [Hws1 _]]]]; [lia|]. cbn [bind].
  destruct (length tokens <=? i) eqn:Hlen.
  { eexists. split; [reflexivity|]. left; reflexivity. }
  apply Nat.leb_gt in Hlen.
  destruct (detect_head_spec tokens i Hlen) as [i' [found_def [-> Hhead]]].
  cbn [bind]. destruct found_def; cbn [negb].
  2:{ eexists. split; [reflexivity|]. left; reflexivity. }
  destruct (Hhead eq_refl) as [ht [Hht Hcases]].
  destruct (skip_whitespace_spec tokens (S (length tokens)) i')
    as [k [-> [Hk [Hws2 Hstop]]]]; [lia|]. cbn [bind].
  destruct (length tokens <=? k) eqn:Hlen2.
  { eexists. split; [reflexivity|]. left; reflexivity. }
  apply Nat.leb_gt in Hlen2.
  destruct (tok_at_Ok tokens k Hlen2) as [[ty value] [-> Hnthk]]. cbn [bind].
  destruct (ttype_in ty [Tok.Name; Tok.Name .: "Function"; Tok.Name .: "Other"])
    eqn:Hname.
  2:{ eexists. split; [reflexivity|]. left; reflexivity. }
  destruct (find_paren_spec tokens start_idx value (S (length tokens)) (S k))
    as [r [-> Hr]]; [lia|].
  exists r. split; [reflexivity|].
  destruct Hr as [Hr|[Hf [Hfn [open [p [Ho [Hall [Hopen [Hpend [Hpar Hend]]]]]]]]]];
    [left; exact Hr|].
  right. split; [exact Hf|]. split; [reflexivity|].
  assert (Hik : i' = S i /\ is_def_keyword ht = true
                \/ i' = i /\ k = i /\ 0 < i /\ fst ht = Tok.Name
                   /\ exists before u gap,
                        slice tokens (i - 5) i = before ++ u :: gap
                        /\ Forall (fun x => is_ws x = true) gap
                        /\ is_ws u = false /\ is_type_or_modifier u = true).
  { destruct Hcases as [[-> Hkw]|[-> [Hpos [Hty Hprev]]]];
      [left; split; [reflexivity | exact Hkw]|].
    right. split; [reflexivity|].
    assert (Hki : k = i).
    { destruct (Nat.eq_dec k i) as [E|E]; [exact E|].
      assert (Hw : is_ws ht = true) by (apply (Hws2 i ht); [lia | exact Hht]).
      unfold is_ws in Hw. rewrite Hty in Hw. discriminate. }
    split; [exact Hki|]. split; [exact Hpos|]. split; [exact Hty | exact Hprev]. }
  exists k, open, p, (ty, value).
  split; [|split; [exact Hfn|split; [exact Hpend|split; [exact Hpar | exact Hend]]]].
  exists i.
  split; [lia|]. split; [lia|]. split; [lia|]. split; [exact Hws1|].
  split; [exact Hnthk|]. split; [exact Hname|].
  split; [|split; [exact Hall | exact Hopen]].
  destruct Hik as [[-> Hkw]|[-> [-> [Hpos [Hty Hprev]]]]].
  - left. split; [lia|]. split; [exists ht; split; assumption | exact Hws2].
  - right. split; [reflexivity|]. split; [exact Hpos|].
    rewrite Hht in Hnthk. injection Hnthk as <-.
    split; [exact Hty | exact Hprev].
Qed.

(** The range of a signature lies within the stream and is not empty. *)
Lemma signature_shape_bounds (tokens : list token) (start_idx : nat)
    (r : scan_result) :
  signature_shape tokens start_idx r ->
  start_idx < end_idx r <= length tokens.
Proof.
  intros [k [open [p [nt [[h Hhead] [_ [[Hop _] [_ [[Hpe Hel] _]]]]]]]]].
  decompose [and] Hhead. lia.
Qed.

(** ** When the scanner confirms, and where the signature ends *)

Lemma is_name_not_ws (t : token) : is_name t = true -> is_ws t = false.
Proof.
  unfold is_name, is_ws, ttype_in. cbn [existsb]. rewrite !orb_false_r.
  intros H. apply orb_true_iff in H as [H|H];
    [|apply orb_true_iff in H as [H|H]];
    apply ttype_eqb_eq in H; rewrite H; reflexivity.
Qed.

Lemma is_def_keyword_not_ws (t : token) : is_def_keyword t = true -> is_ws t = false.
Proof.
  unfold is_def_keyword, is_ws, ttype_in. cbn [existsb]. rewrite !orb_false_r.
  intros H. apply andb_true_iff in H as [H _].
  apply orb_true_iff in H as [H|H];
    apply ttype_eqb_eq in H; rewrite H; reflexivity.
Qed.

(** The white-space loop stops at the first token that is not white space. *)
Lemma skip_whitespace_to (tokens : list token) (a h : nat) (t : token) :
  a <= h -> all_ws_between tokens a h ->
  nth_error tokens h = Some t -> is_ws t = false ->
  skip_whitespace (S (length tokens)) tokens a = Ok h.
Proof.
  intros Hah Hws Hnth Ht.
  destruct (skip_whitespace_spec tokens (S (length tokens)) a)
    as [j [-> [Hj [Hall Hstop]]]]; [lia|].
  f_equal.
  destruct (Nat.lt_trichotomy j h) as [Hlt|[Heq|Hgt]]; [|exact Heq|].
  - assert (Hjl : j < length tokens)
      by (pose proof (nth_error_lt _ _ _ Hnth); lia).
    destruct (tok_at_Ok tokens j Hjl) as [tj [_ Hnj]].
    pose proof (Hws j tj (conj Hj Hlt) Hnj) as H1.
    rewrite (Hstop tj Hnj) in H1. discriminate.
  - pose proof (Hall h t (conj Hah Hgt) Hnth) as H1.
    rewrite Ht in H1. discriminate.
Qed.

Lemma filter_all_false {A : Type} (f : A -> bool) (l : list A) :
  Forall (fun x => f x = false) l -> filter f l = [].
Proof.
  induction 1 as [|x l Hx _ IH]; [reflexivity|]. cbn. rewrite Hx. exact IH.
Qed.

(** Head detection answers [found_def] on a head that [head_shape]
    describes. *)
Lemma detect_head_to (tokens : list token) (h k : nat) (name_tok : token) :
  nth_error tokens k = Some name_tok ->
  head_shape tokens h k name_tok ->
  exists i', detect_head tokens h = Ok (i', true)
    /\ h <= i' <= k /\ all_ws_between tokens i' k.
Proof.
  intros Hk [[Hhk [[t [Hnth Hkw]] Hws]]|[-> [Hpos [Hty [before [t [gap [Es [Hgap [Ht Hmod]]]]]]]]]].
  - exists (S h). unfold detect_head, tok_at. rewrite Hnth. cbn [bind].
    destruct t as [ty value]. unfold is_def_keyword in Hkw. cbn [fst snd] in Hkw.
    rewrite Hkw. split; [reflexivity|]. split; [lia | exact Hws].
  - exists k. unfold detect_head, tok_at. rewrite Hk. cbn [bind].
    destruct name_tok as [ty value]. cbn [fst] in Hty. subst ty.
    change (ttype_in Tok.Name [Tok.Keyword; Tok.Keyword .: "Declaration"])
      with false.
    change (ttype_eqb Tok.Name Tok.Name) with true. cbn [andb].
    assert (Hposb : (0 <? k) = true) by (apply Nat.ltb_lt; exact Hpos).
    rewrite Hposb.
    pose proof (nth_error_lt _ _ _ Hk) as Hkl.
    rewrite (look_back_spec tokens k (Nat.lt_le_incl _ _ Hkl)) by lia.
    cbn [bind app Nat.max]. rewrite Es, filter_app. cbn [filter].
    rewrite Ht. cbn [negb].
    rewrite (filter_all_false (fun x => negb (is_ws x)) gap).
    2:{ eapply Forall_impl; [|exact Hgap]. intros x Hx. cbv beta in Hx |- *.
        rewrite Hx. reflexivity. }
    rewrite last_last, length_app. cbn [length].
    replace (1 <=? length (filter (fun x => negb (is_ws x)) before) + 1)
      with true by (symmetry; apply Nat.leb_le; lia).
    rewrite Hmod. split; [reflexivity|]. split; [lia|].
    intros m x Hm. lia.
Qed.

(** The scanner confirms the signature whose head is there, and reads its
    parameter list and its end from the parenthesis of that head. *)
Lemma scanner_complete (self : formatter) (tokens : list token)
    (start_idx k open : nat) (name_tok : token) :
  highlight_functions self = true ->
  signature_head tokens start_idx k open name_tok ->
  exists r p,
    _is_function_definition self tokens start_idx = Ok r
    /\ is_function r = true
    /\ function_name r = Some (snd name_tok)
    /\ params_end tokens open p
    /\ parameters r = Some (parameter_text (param_tokens_of tokens open p))
    /\ ends_at_first is_terminator tokens p (end_idx r).
Proof.
  intros Hhl [h [Hsh [Hhk [Hko [Hws1 [Hk [Hname [Hhead [Hws2 Hopen]]]]]]]]].
  unfold _is_function_definition. rewrite Hhl. cbn [negb].
  pose proof (nth_error_lt _ _ _ Hk) as Hkl.
  assert (Hh : exists t, nth_error tokens h = Some t /\ is_ws t = false).
  { destruct Hhead as [[_ [[t [Hnth Hkw]] _]]|[-> _]].
    - exists t. split; [exact Hnth | apply is_def_keyword_not_ws; exact Hkw].
    - exists name_tok. split; [exact Hk | apply is_name_not_ws; exact Hname]. }
  destruct Hh as [t [Hnth Ht]].
  rewrite (skip_whitespace_to tokens start_idx h t Hsh Hws1 Hnth Ht). cbn [bind].
  replace (length tokens <=? h) with false by (symmetry; apply Nat.leb_gt; lia).
  destruct (detect_head_to tokens h k name_tok Hk Hhead) as [i' [-> [Hi' Hws3]]].
  cbn [bind negb].
  rewrite (skip_whitespace_to tokens i' k name_tok (proj2 Hi') Hws3 Hk
             (is_name_not_ws _ Hname)).
  cbn [bind].
  replace (length tokens <=? k) with false by (symmetry; apply Nat.leb_gt; lia).
  unfold tok_at. rewrite Hk. cbn [bind].
  destruct name_tok as [ty value]. unfold is_name in Hname. cbn [fst] in Hname.
  rewrite Hname. cbn [snd].
  destruct (find_paren_to tokens start_idx value open Hopen
              (S (length tokens)) (S k)) as [r [p [-> H]]]; [lia | lia | exact Hws2|].
  exists r, p. split; [reflexivity | exact H].
Qed.

Lemma params_end_unique (tokens : list token) (open p p' : nat) :
  params_end tokens open p -> params_end tokens open p' -> p = p'.
Proof.
  assert (H : forall a b, params_end tokens open a -> params_end tokens open b ->
                          ~ a < b).
  { intros a b [Ha [_ Hstop]] [_ [Hbefore _]] Hlt.
    destruct (Hbefore a (conj Ha Hlt)) as [H1 H2].
    destruct Hstop; lia. }
  intros Hp Hp'. pose proof (H p p' Hp Hp'). pose proof (H p' p Hp' Hp). lia.
Qed.

Lemma ends_at_first_unique (is_term : string -> bool) (tokens : list token)
    (p e e' : nat) :
  ends_at_first is_term tokens p e -> ends_at_first is_term tokens p e' -> e = e'.
Proof.
  assert (H : forall a b, ends_at_first is_term tokens p a ->
                          ends_at_first is_term tokens p b -> ~ a < b).
  { intros a b [Ha [_ Hat]] [Hb [Hno _]] Hlt.
    destruct Hat as [Heq|[t [Hnth Ht]]]; [lia|].
    rewrite (Hno a t (conj (proj1 Ha) Hlt) Hnth) in Ht. discriminate. }
  intros He He'. pose proof (H e e' He He'). pose proof (H e' e He' He). lia.
Qed.



(** C5, amended. After a successful scan the returned [end_idx] is the
    index of the first token, from where the parameter list of the
    signature ends (just past the parenthesis that matches its opening
    parenthesis, or the end of the stream when there is none), whose text
    is exactly a colon, an opening brace, a semicolon or a single line
    break, or the length of the stream when no such token follows; and no
    other index answers this description. *)
Theorem terminator_scan_exact (self : formatter) (tokens : list token)
    (start_idx : nat) (r : scan_result) :
  _is_function_definition self tokens start_idx = Ok r ->
  is_function r = true ->
  (exists k open p name_tok,
      signature_head tokens start_idx k open name_tok
      /\ params_end tokens open p
      /\ ends_at_first is_terminator tokens p (end_idx r))
  /\ (forall k open p name_tok e,
        signature_head tokens start_idx k open name_tok ->
        params_end tokens open p ->
        ends_at_first is_terminator tokens p e ->
        e = end_idx r).
Proof.
  intros E Hfound.
  destruct (scanner_spec self tokens start_idx) as [r' [E' Hr]].
  rewrite E in E'. injection E' as <-.
  destruct Hr as [->|[_ [Hhl [k [open [p [nt [Hhead [_ [Hp [_ He]]]]]]]]]]];
    [discriminate|].
  split; [exists k, open, p, nt; split; [exact Hhead | split; [exact Hp | exact He]]|].
  intros k' open' p' nt' e Hhead' Hp' He'.
  destruct (scanner_complete self tokens start_idx k' open' nt' Hhl Hhead')
    as [r2 [p2 [E2 [_ [_ [Hp2 [_ He2]]]]]]].
  rewrite E in E2. injection E2 as <-.
  rewrite (params_end_unique _ _ _ _ Hp' Hp2) in He'.
  exact (ends_at_first_unique _ _ _ _ _ He' He2).
Qed.

Lemma terminator_scan_exact_witness :
  (exists k open p name_tok,
      signature_head Examples.def_then_blank 0 k open name_tok
      /\ params_end Examples.def_then_blank open p
      /\ ends_at_first is_terminator Examples.def_then_blank p 7)
  /\ (forall k open p name_tok e,
        signature_head Examples.def_then_blank 0 k open name_tok ->
        params_end Examples.def_then_blank open p ->
        ends_at_first is_terminator Examples.def_then_blank p e ->
        e = 7).
Proof.
  exact (terminator_scan_exact (init no_options) Examples.def_then_blank 0
           {| is_function := true; function_name := Some "f";
              parameters := Some ""; end_idx := 7 |}
           eq_refl eq_refl).
Defined.

(** C5 as stated fails: with any text that contains a line break taken
    for a terminator, the scan of [def f()] followed by a token that holds
    a blank and a line break would have to end at that token, index 5;
    the scanner goes on to the token that is a line break alone, index 7. *)
Lemma terminator_scan_newline_containing_fails :
  ~ (forall (self : formatter) (tokens : list token) (start_idx : nat)
            (r : scan_result),
        _is_function_definition self tokens start_idx = Ok r ->
        is_function r = true ->
        exists k open p name_tok,
          signature_head tokens start_idx k open name_tok
          /\ params_end tokens open p
          /\ ends_at_first newline_containing_terminator tokens p (end_idx r)).
Proof.
  intros H.
  destruct (H (init no_options) Examples.def_then_blank 0
              {| is_function := true; function_name := Some "f";
                 parameters := Some ""; end_idx := 7 |}
              eq_refl eq_refl)
    as [k [open [p [nt [[h Hhead] [Hp [_ [Hno _]]]]]]]].
  assert (Hopen : nth_error Examples.def_then_blank open
                  = Some (Tok.Punctuation, "(")) by (decompose [and] Hhead; assumption).
  assert (Ho : open = 3).
  { do 8 (destruct open as [|open]; [try reflexivity; discriminate|]).
    destruct open; discriminate. }
  subst open.
  assert (H5 : params_end Examples.def_then_blank 3 5).
  { split; [lia|]. split; [|left; reflexivity].
    intros m Hm. assert (m = 4) by lia. subst m.
    split; [cbn; lia | vm_compute; lia]. }
  rewrite (params_end_unique _ _ _ _ Hp H5) in Hno.
  cbn [end_idx] in Hno.
  specialize (Hno 5 _ (conj (le_n 5) (le_S _ _ (le_n 6))) eq_refl).
  vm_compute in Hno. discriminate.
Qed.




(** ** What the pre-pass records *)

Lemma join_app (a b : list string) :
  PyStr.join (a ++ b) = (PyStr.join a ++ PyStr.join b)%str.
Proof.
  induction a as [|x a IH]; [reflexivity|].
  cbn [app]. rewrite !join_cons, IH, append_assoc. reflexivity.
Qed.

Lemma line_of_spec (tokens : list token) (i : nat) :
  i <= length tokens ->
  line_of tokens i = Ok (1 + count_nl (source_text (firstn i tokens))).
Proof.
  induction i as [|j IH]; intros Hi; cbn [line_of]; [reflexivity|].
  rewrite IH by lia. cbn [bind].
  destruct (tok_at_Ok tokens j) as [t [-> Hnth]]; [lia|]. cbn [bind].
  rewrite (firstn_succ _ _ _ Hnth). unfold source_text, count_nl.
  rewrite map_app, join_app, count_char_app. cbn [map].
  rewrite join_cons. cbn [PyStr.join String.concat]. rewrite append_nil_r.
  f_equal; lia.
Qed.

Lemma find_signatures_spec (self : formatter) (tokens : list token) :
  forall fuel i, length tokens - i < fuel ->
    exists sigs, find_signatures fuel self tokens i = Ok sigs
      /\ Forall (record_ok self tokens) sigs
      /\ forall m r, i <= m < length tokens ->
           _is_function_definition self tokens m = Ok r ->
           is_function r = true -> covered sigs m.
Proof.
  induction fuel as [|fuel IH]; intros i Hf; [lia|]. cbn [find_signatures].
  destruct (i <? length tokens) eqn:Hi.
  - apply Nat.ltb_lt in Hi.
    destruct (scanner_spec self tokens i) as [r0 [E0 Hr0]]. rewrite E0. cbn [bind].
    destruct Hr0 as [->|[Hfound [_ Hshape]]].
    + cbn [is_function not_found].
      destruct (IH (S i)) as [sigs [-> [Hrec Hcov]]]; [lia|].
      exists sigs. split; [reflexivity|]. split; [exact Hrec|].
      intros m r Hm Er Hr. destruct (Nat.eq_dec m i) as [->|Hne].
      * rewrite E0 in Er. injection Er as <-. discriminate.
      * apply (Hcov m r); [lia | exact Er | exact Hr].
    + rewrite Hfound.
      assert (Hb : i < end_idx r0 <= length tokens)
        by (apply (signature_shape_bounds _ _ _ Hshape)).
      rewrite (line_of_spec tokens i) by lia. cbn [bind].
      destruct (IH (end_idx r0)) as [sigs [-> [Hrec Hcov]]]; [lia|]. cbn [bind].
      eexists. split; [reflexivity|]. split.
      * constructor; [|exact Hrec]. exists r0.
        cbn [Sig.start_idx Sig.end_idx Sig.name Sig.parameters Sig.line_num
             Sig.signature].
        split; [exact E0|]. split; [exact Hfound|]. split; [exact Hshape|].
        split; [reflexivity|]. split; [reflexivity|]. split.
        -- destruct Hshape as [k [open [p [nt [_ [_ [_ [Hp _]]]]]]]].
           rewrite Hp. reflexivity.
        -- split; reflexivity.
      * intros m r Hm Er Hr.
        destruct (Nat.eq_dec m i) as [->|Hne].
        -- eexists. split; [left; reflexivity|]. left; reflexivity.
        -- destruct (Nat.lt_ge_cases m (end_idx r0)) as [Hin|Hout].
           ++ eexists. split; [left; reflexivity|]. right. cbn. lia.
           ++ destruct (Hcov m r) as [a [Ha Hcase]]; [lia | exact Er | exact Hr|].
              exists a. split; [right; exact Ha | exact Hcase].
  - exists []. split; [reflexivity|]. split; [constructor|].
    intros m r Hm. apply Nat.ltb_ge in Hi. lia.
Qed.

(** Each record of the pre-pass holds the result of the scan at its first
    index: the name of a name token, the normalised parameter text and the
    end of the signature; its line number is one more than the number of
    line breaks before its first token, and its signature is the text of
    the tokens of its range. *)
Theorem prepass_records (self : formatter) (tokens : list token) :
  exists sigs,
    function_signatures self tokens = Ok sigs
    /\ Forall (record_ok self tokens) sigs.
Proof.
  unfold function_signatures. destruct (highlight_functions self).
  - destruct (find_signatures_spec self tokens (S (length tokens)) 0)
      as [sigs [E [H _]]]; [lia|].
    exists sigs. split; assumption.
  - exists []. split; [reflexivity | constructor].
Qed.

Lemma prepass_records_witness :
  exists a b,
    function_signatures (init no_options) Examples.two_defs = Ok [a; b]
    /\ record_ok (init no_options) Examples.two_defs b
    /\ Sig.line_num b = 1.
Proof.
  destruct (prepass_records (init no_options) Examples.two_defs) as [sigs [E H]].
  vm_compute in E. injection E as <-.
  eexists _, _. split; [reflexivity|].
  inversion H as [|? ? _ H']; subst. inversion H' as [|? ? Hb _]; subst.
  split; [exact Hb | reflexivity].
Defined.

(** The pre-pass misses no declaration: every index of the stream at which
    the scanner succeeds is the first index of a record, or lies inside the
    range of a record found before it. *)
Theorem prepass_complete (self : formatter) (tokens : list token) :
  exists sigs,
    function_signatures self tokens = Ok sigs
    /\ forall m r, m < length tokens ->
         _is_function_definition self tokens m = Ok r ->
         is_function r = true -> covered sigs m.
Proof.
  unfold function_signatures. destruct (highlight_functions self) eqn:Hhl.
  - destruct (find_signatures_spec self tokens (S (length tokens)) 0)
      as [sigs [E [_ H]]]; [lia|].
    exists sigs. split; [exact E|].
    intros m r Hm. apply H. lia.
  - exists []. split; [reflexivity|].
    intros m r _ E Hr. unfold _is_function_definition in E.
    rewrite Hhl in E. cbn in E. injection E as <-. discriminate.
Qed.

Lemma prepass_complete_witness :
  exists sigs,
    function_signatures (init no_options) Examples.two_defs = Ok sigs
    /\ covered sigs 7.
Proof.
  destruct (prepass_complete (init no_options) Examples.two_defs) as [sigs [E H]].
  exists sigs. split; [exact E|].
  refine (H 7 _ _ _ _); [vm_compute; lia | vm_compute; reflexivity | reflexivity].
Defined.

(** ** What the line classifier accepts *)

Lemma nullable_matches (r : Regex.regex) :
  Regex.nullable r = true -> matches r "".
Proof.
  induction r; cbn; intros H; try discriminate.
  - constructor.
  - apply andb_true_iff in H as [H1 H2].
    change "" with ("" ++ "")%str. constructor; auto.
  - apply orb_true_iff in H as [H|H];
      [apply matches_alt_l | apply matches_alt_r]; auto.
  - constructor.
Qed.

Lemma cat_matches (r1 r2 : Regex.regex) (s : string) :
  matches (Regex.cat r1 r2) s -> matches (Regex.Cat r1 r2) s.
Proof.
  destruct r1, r2; cbn [Regex.cat]; intros H;
    try (inversion H; fail); try exact H;
    (change s with ("" ++ s)%str; constructor; [constructor | exact H]).
Qed.

Lemma alt_matches (r1 r2 : Regex.regex) (s : string) :
  matches (Regex.alt r1 r2) s -> matches (Regex.Alt r1 r2) s.
Proof.
  destruct r1, r2; cbn [Regex.alt]; intros H; try exact H;
    try (apply matches_alt_r; exact H); try (apply matches_alt_l; exact H).
Qed.

Lemma deriv_matches (c : char) (r : Regex.regex) :
  forall s, matches (Regex.deriv c r) s -> matches r (String c s).
Proof.
  induction r as [| |p|r1 IH1 r2 IH2|r1 IH1 r2 IH2|r1 IH1]; intros s H;
    cbn [Regex.deriv] in H.
  - inversion H.
  - inversion H.
  - destruct (p c) eqn:Hp; [|inversion H]. inversion H; subst.
    constructor. exact Hp.
  - assert (Hcat : forall t, matches (Regex.cat (Regex.deriv c r1) r2) t ->
                             matches (Regex.Cat r1 r2) (String c t)).
    { intros t Ht. apply cat_matches in Ht. inversion Ht; subst.
      change (String c (s1 ++ s2)) with (String c s1 ++ s2)%str.
      constructor; [apply IH1; assumption | assumption]. }
    destruct (Regex.nullable r1) eqn:Hn; [|apply Hcat; exact H].
    apply alt_matches in H. inversion H; subst; [apply Hcat; assumption|].
    change (String c s) with ("" ++ String c s)%str.
    constructor; [apply nullable_matches; exact Hn | apply IH2; assumption].
  - apply alt_matches in H.
    inversion H; subst; [apply matches_alt_l | apply matches_alt_r]; auto.
  - apply cat_matches in H. inversion H; subst.
    change (String c (s1 ++ s2)) with (String c s1 ++ s2)%str.
    constructor; [apply IH1; assumption | assumption].
Qed.

Lemma fullmatch_matches (s : string) :
  forall r, Regex.fullmatch r s = true -> matches r s.
Proof.
  induction s as [|c s IH]; intros r H; cbn in H.
  - apply nullable_matches. exact H.
  - apply deriv_matches, IH. exact H.
Qed.

Lemma has_char_app (c : char) (a b : string) :
  PyStr.has_char c (a ++ b) = PyStr.has_char c a || PyStr.has_char c b.
Proof.
  induction a as [|x a IH]; [reflexivity|]. cbn. rewrite IH. apply orb_assoc.
Qed.

Lemma has_char_occurs (c : char) (part s : string) :
  occurs_in part s -> PyStr.has_char c part = true -> PyStr.has_char c s = true.
Proof.
  intros [pre [post ->]] H. rewrite !has_char_app, H.
  rewrite orb_true_r. reflexivity.
Qed.

Lemma has_char_rev_string (c : char) (s acc : string) :
  PyStr.has_char c (PyStr.rev_string s acc)
  = PyStr.has_char c s || PyStr.has_char c acc.
Proof.
  revert acc; induction s as [|x s IH]; intros acc; [reflexivity|].
  cbn [PyStr.rev_string]. rewrite IH. cbn [PyStr.has_char].
  destruct (N.eqb x c), (PyStr.has_char c s), (PyStr.has_char c acc);
    reflexivity.
Qed.

Lemma has_char_lstrip (c : char) (s : string) :
  PyStr.has_char c (PyStr.lstrip s) = true -> PyStr.has_char c s = true.
Proof.
  induction s as [|x s IH]; [intros H; exact H|]. cbn [PyStr.lstrip].
  destruct (PyStr.isspace x); [|intros H; exact H].
  intros H. cbn. rewrite (IH H). apply orb_true_r.
Qed.

Lemma has_char_strip (c : char) (s : string) :
  PyStr.has_char c (PyStr.strip s) = true -> PyStr.has_char c s = true.
Proof.
  unfold PyStr.strip, PyStr.rstrip. intros H.
  rewrite has_char_rev_string in H. cbn [PyStr.has_char] in H.
  rewrite orb_false_r in H. apply has_char_lstrip in H.
  rewrite has_char_rev_string in H. cbn [PyStr.has_char] in H.
  rewrite orb_false_r in H. apply has_char_lstrip. exact H.
Qed.

Lemma matches_seq_in (l : list Regex.regex) (r : Regex.regex) :
  In r l -> forall s, matches (Regex.Seq l) s ->
  exists part, matches r part /\ occurs_in part s.
Proof.
  induction l as [|r0 l IH]; [intros []|].
  intros Hin s H. cbn [Regex.Seq] in H. inversion H; subst.
  destruct Hin as [->|Hin].
  - exists s1. split; [assumption|]. exists "", s2. reflexivity.
  - destruct (IH Hin s2) as [part [Hpart [pre [post ->]]]]; [assumption|].
    exists part. split; [exact Hpart|].
    exists (s1 ++ pre)%str, post. rewrite append_assoc. reflexivity.
Qed.

Lemma matches_chr (c : char) (s : string) :
  matches (Regex.Chr c) s -> s = String c "".
Proof.
  intros H. inversion H as [|p x Hx| | | | |]; subst.
  apply N.eqb_eq in Hx. subst x. reflexivity.
Qed.

Lemma matches_plus_class (p : char -> bool) (s : string) :
  matches (Regex.Plus (Regex.Class p)) s ->
  exists c rest, s = String c rest /\ p c = true.
Proof.
  intros H. inversion H as [| |r1 r2 s1 s2 H1 H2| | | |]; subst.
  inversion H1; subst. eexists _, _. split; [reflexivity | assumption].
Qed.

Lemma occurs_in_trans (a b c : string) :
  occurs_in a b -> occurs_in b c -> occurs_in a c.
Proof.
  intros [p1 [q1 ->]] [p2 [q2 ->]].
  exists (p2 ++ p1)%str, (q1 ++ q2)%str.
  rewrite !append_assoc. reflexivity.
Qed.

(** A line is accepted only through the branch of the pattern match. *)
Lemma accepted_matches (line : string) :
  JavaChecker.is_java_method_start line = true ->
  JavaChecker.rejected_early (PyStr.strip line) = false
  /\ Regex.fullmatch JavaChecker.java_method_regex (PyStr.strip line) = true
  /\ JavaChecker.classify_match (PyStr.strip line) = true.
Proof.
  unfold JavaChecker.is_java_method_start. cbv zeta.
  destruct (JavaChecker.rejected_early (PyStr.strip line)); [discriminate|].
  destruct (Regex.fullmatch JavaChecker.java_method_regex (PyStr.strip line)).
  - intros H. repeat split. exact H.
  - unfold JavaChecker.classify_no_match.
    destruct (_ && _); [|discriminate].
    destruct (Regex.prefixmatch _ _); [discriminate|].
    destruct (Regex.prefixmatch _ _); discriminate.
Qed.

(** A line that the classifier accepts holds an opening and a closing
    parenthesis and, once stripped, a white-space character: a line
    without a parenthesised parameter list, or of a single word, is never
    taken for the start of a method. *)
Theorem method_start_needs_parameter_list (line : string) :
  JavaChecker.is_java_method_start line = true ->
  PyStr.has_char (ch "(") line = true
  /\ PyStr.has_char (ch ")") line = true
  /\ exists c, PyStr.isspace c = true
               /\ PyStr.has_char c (PyStr.strip line) = true.
Proof.
  intros H. destruct (accepted_matches line H) as [_ [Hm _]].
  apply fullmatch_matches in Hm.
  unfold JavaChecker.java_method_regex in Hm.
  assert (Hparams : exists part,
             matches JavaChecker.parameters_pattern part
             /\ occurs_in part (PyStr.strip line)).
  { apply (matches_seq_in _ JavaChecker.parameters_pattern) in Hm; [exact Hm|].
    cbn. auto 12. }
  assert (Hsp : exists part,
             matches (Regex.Plus JavaChecker.sp) part
             /\ occurs_in part (PyStr.strip line)).
  { apply (matches_seq_in _ (Regex.Plus JavaChecker.sp)) in Hm; [exact Hm|].
    cbn. auto 12. }
  destruct Hparams as [part [Hpart Hocc]].
  unfold JavaChecker.parameters_pattern in Hpart.
  assert (Hopen : PyStr.has_char (ch "(") (PyStr.strip line) = true).
  { pose proof Hpart as H1.
    apply (matches_seq_in _ (Regex.Chr (ch "("))) in H1; [|left; reflexivity].
    destruct H1 as [x [Hx Hox]].
    apply matches_chr in Hx. subst x.
    apply (has_char_occurs _ _ _ (occurs_in_trans _ _ _ Hox Hocc)). reflexivity. }
  assert (Hclose : PyStr.has_char (ch ")") (PyStr.strip line) = true).
  { pose proof Hpart as H1.
    apply (matches_seq_in _ (Regex.Chr (ch ")"))) in H1; [|cbn; auto 6].
    destruct H1 as [x [Hx Hox]].
    apply matches_chr in Hx. subst x.
    apply (has_char_occurs _ _ _ (occurs_in_trans _ _ _ Hox Hocc)). reflexivity. }
  split; [apply has_char_strip; exact Hopen|].
  split; [apply has_char_strip; exact Hclose|].
  destruct Hsp as [sp [Hsp Hocc']].
  apply matches_plus_class in Hsp. destruct Hsp as [c [rest [-> Hc]]].
  exists c. split; [exact Hc|].
  apply (has_char_occurs _ _ _ Hocc'). cbn. rewrite N.eqb_refl. reflexivity.
Qed.

Lemma method_start_needs_parameter_list_witness :
  PyStr.has_char (ch "(") ("void" ++ String 160%N "f()") = true
  /\ exists c, PyStr.isspace c = true
               /\ PyStr.has_char c (PyStr.strip ("void" ++ String 160%N "f()")) = true.
Proof.
  destruct (method_start_needs_parameter_list ("void" ++ String 160%N "f()") eq_refl)
    as [H1 [_ H3]].
  split; assumption.
Defined.

(** ** Stripping *)

Lemma rev_string_acc (s acc : string) :
  PyStr.rev_string s acc = (PyStr.rev_string s "" ++ acc)%str.
Proof.
  revert acc; induction s as [|c s IH]; intros acc; [reflexivity|].
  cbn [PyStr.rev_string]. rewrite (IH (String c acc)), (IH (String c "")).
  rewrite append_assoc. reflexivity.
Qed.

Lemma rev_string_app (a b : string) :
  PyStr.rev_string (a ++ b) ""
  = (PyStr.rev_string b "" ++ PyStr.rev_string a "")%str.
Proof.
  induction a as [|c a IH]; [cbn; rewrite append_nil_r; reflexivity|].
  cbn [append PyStr.rev_string].
  rewrite (rev_string_acc (a ++ b)), IH, (rev_string_acc a (String c "")).
  rewrite append_assoc. reflexivity.
Qed.

Lemma rev_string_involutive (s : string) :
  PyStr.rev_string (PyStr.rev_string s "") "" = s.
Proof.
  induction s as [|c s IH]; [reflexivity|].
  cbn [PyStr.rev_string].
  rewrite (rev_string_acc s (String c "")), rev_string_app, IH.
  reflexivity.
Qed.

Lemma all_space_app (a b : string) :
  all_space (a ++ b) = all_space a && all_space b.
Proof.
  induction a as [|c a IH]; [reflexivity|]. cbn. rewrite IH. apply andb_assoc.
Qed.

Lemma all_space_rev (s : string) :
  all_space (PyStr.rev_string s "") = all_space s.
Proof.
  induction s as [|c s IH]; [reflexivity|].
  cbn [PyStr.rev_string].
  rewrite (rev_string_acc s (String c "")), all_space_app, IH. cbn.
  rewrite andb_true_r. apply andb_comm.
Qed.

Lemma lstrip_split (s : string) :
  exists w, s = (w ++ PyStr.lstrip s)%str /\ all_space w = true.
Proof.
  induction s as [|c s [w [Hs Hw]]]; [exists ""; split; reflexivity|].
  cbn [PyStr.lstrip]. destruct (PyStr.isspace c) eqn:Hc.
  - exists (String c w). cbn. rewrite <- Hs, Hc, Hw. split; reflexivity.
  - exists "". split; reflexivity.
Qed.

Lemma lstrip_clean (s : string) : clean_start (PyStr.lstrip s).
Proof.
  induction s as [|c s IH]; [exact I|]. cbn [PyStr.lstrip].
  destruct (PyStr.isspace c) eqn:Hc; [exact IH | exact Hc].
Qed.

Lemma lstrip_of_clean (s : string) : clean_start s -> PyStr.lstrip s = s.
Proof.
  destruct s as [|c s]; [reflexivity|]. cbn. intros ->. reflexivity.
Qed.

Lemma lstrip_all_space (w s : string) :
  all_space w = true -> PyStr.lstrip (w ++ s) = PyStr.lstrip s.
Proof.
  induction w as [|c w IH]; [reflexivity|]. cbn. intros H.
  apply andb_true_iff in H as [-> Hw]. apply IH. exact Hw.
Qed.

Lemma lstrip_app_nonempty (s w : string) :
  PyStr.lstrip s <> "" -> PyStr.lstrip (s ++ w) = (PyStr.lstrip s ++ w)%str.
Proof.
  induction s as [|c s IH]; [intros H; contradiction|]. cbn.
  destruct (PyStr.isspace c); [exact IH | reflexivity].
Qed.

Lemma lstrip_app_empty (s w : string) :
  PyStr.lstrip s = "" -> all_space w = true -> PyStr.lstrip (s ++ w) = "".
Proof.
  intros Hs Hw. induction s as [|c s IH].
  - cbn. rewrite <- (append_nil_r w), lstrip_all_space by exact Hw. reflexivity.
  - cbn in *. destruct (PyStr.isspace c); [apply IH; exact Hs | discriminate].
Qed.

Lemma rstrip_split (s : string) :
  exists w, s = (PyStr.rstrip s ++ w)%str /\ all_space w = true.
Proof.
  unfold PyStr.rstrip.
  destruct (lstrip_split (PyStr.rev_string s "")) as [w [Hs Hw]].
  exists (PyStr.rev_string w "").
  split; [|rewrite all_space_rev; exact Hw].
  rewrite <- rev_string_app, <- Hs, rev_string_involutive. reflexivity.
Qed.

Lemma rstrip_all_space (s w : string) :
  all_space w = true -> PyStr.rstrip (s ++ w) = PyStr.rstrip s.
Proof.
  intros Hw. unfold PyStr.rstrip.
  rewrite rev_string_app, lstrip_all_space; [reflexivity|].
  rewrite all_space_rev. exact Hw.
Qed.

Lemma rstrip_idempotent (s : string) :
  PyStr.rstrip (PyStr.rstrip s) = PyStr.rstrip s.
Proof.
  unfold PyStr.rstrip. rewrite rev_string_involutive.
  rewrite (lstrip_of_clean _ (lstrip_clean _)). reflexivity.
Qed.

Lemma rstrip_clean (s : string) : clean_start s -> clean_start (PyStr.rstrip s).
Proof.
  intros H. destruct (rstrip_split s) as [w [Hs _]].
  destruct (PyStr.rstrip s) as [|c r]; [exact I|].
  rewrite Hs in H. exact H.
Qed.

Lemma strip_idempotent (s : string) : PyStr.strip (PyStr.strip s) = PyStr.strip s.
Proof.
  unfold PyStr.strip.
  rewrite (lstrip_of_clean _ (rstrip_clean _ (lstrip_clean s))).
  apply rstrip_idempotent.
Qed.

Lemma strip_padding (w1 w2 s : string) :
  all_space w1 = true -> all_space w2 = true ->
  PyStr.strip (w1 ++ s ++ w2) = PyStr.strip s.
Proof.
  intros H1 H2. unfold PyStr.strip. rewrite lstrip_all_space by exact H1.
  destruct (PyStr.lstrip s) as [|c r] eqn:E.
  - rewrite (lstrip_app_empty s w2 E H2). reflexivity.
  - rewrite lstrip_app_nonempty by (rewrite E; discriminate).
    rewrite E. apply rstrip_all_space. exact H2.
Qed.

(** The classifier does not depend on the white space around the line:
    indentation and trailing blanks or line breaks change nothing. *)
Theorem classifier_ignores_padding (w1 w2 line : string) :
  all_space w1 = true -> all_space w2 = true ->
  JavaChecker.is_java_method_start (w1 ++ line ++ w2)
  = JavaChecker.is_java_method_start line.
Proof.
  intros H1 H2. unfold JavaChecker.is_java_method_start. cbv zeta.
  rewrite (strip_padding w1 w2 line H1 H2). reflexivity.
Qed.

Lemma classifier_ignores_padding_witness :
  JavaChecker.is_java_method_start
    (String 160%N (String 9%N "  ") ++ "public void foo() {" ++ PyStr.nl)
  = true.
Proof.
  rewrite (classifier_ignores_padding (String 160%N (String 9%N "  ")) PyStr.nl
             "public void foo() {" eq_refl eq_refl).
  reflexivity.
Defined.

(** ** Claims on the line classifier *)











(** [s.endswith(c)] *)
Lemma endswith_char_spec (s : string) (c : char) :
  PyStr.endswith_char s c = true <-> ends_with s c.
Proof.
  unfold PyStr.endswith_char, ends_with. split.
  - destruct (PyStr.rev_string s "") as [|d t] eqn:E; [discriminate|].
    intros H. apply N.eqb_eq in H. subst d.
    exists (PyStr.rev_string t "").
    rewrite <- (rev_string_involutive s), E. cbn [PyStr.rev_string].
    apply rev_string_acc.
  - intros [pre ->]. rewrite rev_string_app. cbn. apply N.eqb_refl.
Qed.









(** ** The path without call-outs keeps the text exactly *)

Lemma code_text_closed (out : list chunk) :
  code_text out = "" \/ ends_with (code_text out) PyStr.nl_char.
Proof.
  induction out as [|c out IH]; [left; reflexivity|].
  destruct c as [s|s|s|n numbered parts note]; cbn [code_text]; try exact IH.
  right. destruct IH as [->|[pre ->]].
  - exists (plain_text parts). reflexivity.
  - exists (plain_text parts ++ PyStr.nl ++ pre)%str.
    rewrite !append_assoc. reflexivity.
Qed.

Lemma plain_text_cons (p : piece) (l : list piece) :
  plain_text (p :: l) = (p_text p ++ plain_text l)%str.
Proof. unfold plain_text. cbn [map]. apply join_cons. Qed.

Lemma plain_text_open (self : formatter) (current_line : list piece) :
  Forall (piece_ok self) current_line ->
  PyStr.has_char PyStr.nl_char (plain_text current_line) = false
  /\ (current_line <> [] -> plain_text current_line <> "").
Proof.
  induction 1 as [|p l [[Hne Hnl] _] _ [IH1 IH2]]; [split; [reflexivity | congruence]|].
  rewrite plain_text_cons. split.
  - rewrite has_char_app, Hnl, IH1. reflexivity.
  - intros _ E. destruct (p_text p); [contradiction | discriminate].
Qed.

(** A text that ends with a part free of line breaks, and not empty, has
    its last line open. *)
Lemma open_after_part (before part : string) :
  part <> "" -> PyStr.has_char PyStr.nl_char part = false ->
  open_last_line (before ++ part).
Proof.
  intros Hne Hnl. split.
  - destruct before; [exact Hne | discriminate].
  - intros He. apply endswith_char_spec in He.
    unfold PyStr.endswith_char in He. rewrite rev_string_app in He.
    pose proof (has_char_rev_string PyStr.nl_char part "") as Hrev.
    cbn [PyStr.has_char] in Hrev. rewrite orb_false_r, Hnl in Hrev.
    destruct (PyStr.rev_string part "") as [|d t] eqn:E.
    + apply (f_equal (fun s => PyStr.rev_string s "")) in E.
      rewrite rev_string_involutive in E. contradiction.
    + cbn [append] in He. cbn [PyStr.has_char] in Hrev.
      rewrite He in Hrev. discriminate.
Qed.

(** Without call-outs the stripped output is the text of the tokens, line
    break for line break, with one line break added exactly when the last
    line of that text is open; and the lines written are numbered from
    [linenostart] on, one number for each line break of the stripped
    output. *)
Theorem plain_path_keeps_lines (self : formatter) (tokens : list token) :
  function_style self = emphasis \/ highlight_functions self = false ->
  exists out, format_unencoded self tokens = Ok out
    /\ (open_last_line (source_text tokens) ->
        code_text out = (source_text tokens ++ PyStr.nl)%str)
    /\ (~ open_last_line (source_text tokens) ->
        code_text out = source_text tokens)
    /\ line_numbers out
       = consecutive (linenostart self) (count_nl (code_text out)).
Proof.
  intros Hplain. unfold format_unencoded.
  assert (Hsigs : exists sigs, function_signatures self tokens = Ok sigs
                               /\ (function_style self = emphasis \/ sigs = [])).
  { destruct Hplain as [H|H].
    - destruct (function_signatures_Ok self tokens) as [sigs [E _]].
      exists sigs. split; [exact E | left; exact H].
    - exists []. unfold function_signatures. rewrite H.
      split; [reflexivity | right; reflexivity]. }
  destruct Hsigs as [sigs [-> Hs]]. cbn [bind]. fold (fence_of self).
  destruct (render_loop_plain self tokens sigs (fence_of self) Hs
              (S (length tokens)) [] (linenostart self) 0)
    as [body [cl [E [Hn [Ht _]]]]]; [lia|].
  destruct (render_loop_inv self tokens sigs (fence_of self) (piece_ok self)
              (styled_ok self) (S (length tokens)) [] (linenostart self) 0 [] sigs)
    as [body' [cl' [ln' [E' [_ [Hcl _]]]]]].
  { destruct Hs as [Hs| ->]; [left; exact Hs|].
    right. split; [reflexivity|]. split; [constructor|].
    split; constructor. }
  { constructor. }
  { lia. }
  rewrite E in E'. injection E' as <- <- <-. rewrite E. cbn [bind].
  change (rest_text tokens 0) with (source_text tokens) in *.
  change (plain_text []) with "" in Ht. cbn [append] in Ht.
  destruct (plain_text_open self cl Hcl) as [Hnl Hne].
  destruct (texts_code_text _ (header_texts self)) as [Hh1 Hh2].
  destruct (texts_code_text _ (summary_texts self sigs)) as [Hs1 Hs2].
  destruct (texts_code_text _ (highlighted_comment_texts self)) as [Hl1 Hl2].
  destruct (texts_code_text _ (functions_list_texts self sigs)) as [Hf1 Hf2].
  destruct cl as [|pc cl].
  - cbn [bind]. eexists. split; [reflexivity|].
    change (plain_text []) with "" in Ht. rewrite append_nil_r in Ht.
    assert (Hct : code_text
                    (header self ++ summary self sigs
                     ++ [FenceOpen (fence_of self ++ lang self ++ PyStr.nl)]
                     ++ body ++ []
                     ++ [FenceClose (fence_of self ++ PyStr.nl)]
                     ++ highlighted_comment self ++ functions_list self sigs)
                  = source_text tokens).
    { rewrite !code_text_app, Hh1, Hs1, Hl1, Hf1, Ht. cbn.
      rewrite append_nil_r. reflexivity. }
    split; [|split; [intros _; exact Hct|]].
    + intros [Hopen1 Hopen2]. exfalso. rewrite <- Ht in Hopen1, Hopen2.
      destruct (code_text_closed body); contradiction.
    + rewrite Hct, !line_numbers_app, Hh2, Hs2, Hl2, Hf2, Hn. cbn.
      rewrite app_nil_r. reflexivity.
  - destruct (write_line_Ok self (pc :: cl)
                (linenostart self + Z.of_nat (count_nl (source_text tokens)))%Z
                (Some tokens) (Some (length tokens - 1))) as [note [-> _]].
    cbn [bind]. eexists. split; [reflexivity|].
    assert (Hct : code_text
                    (header self ++ summary self sigs
                     ++ [FenceOpen (fence_of self ++ lang self ++ PyStr.nl)]
                     ++ body
                     ++ [CodeLine
                           (linenostart self
                            + Z.of_nat (count_nl (source_text tokens)))%Z
                           (linenos self) (pc :: cl) note]
                     ++ [FenceClose (fence_of self ++ PyStr.nl)]
                     ++ highlighted_comment self ++ functions_list self sigs)
                  = (source_text tokens ++ PyStr.nl)%str).
    { rewrite !code_text_app, Hh1, Hs1, Hl1, Hf1. cbn [code_text append].
      rewrite !append_nil_r, <- append_assoc, Ht. reflexivity. }
    split; [intros _; exact Hct|]. split.
    + intros Hnot. exfalso. apply Hnot. rewrite <- Ht.
      apply open_after_part; [apply Hne; discriminate | exact Hnl].
    + rewrite Hct, !line_numbers_app, Hh2, Hs2, Hl2, Hf2, Hn.
      cbn [line_numbers app]. rewrite ?app_nil_r.
      unfold count_nl. rewrite count_char_app.
      change (PyStr.count_char PyStr.nl_char PyStr.nl) with 1.
      rewrite consecutive_app. reflexivity.
Qed.

Lemma plain_path_keeps_lines_witness :
  exists out,
    format_unencoded (init no_options) Examples.two_defs = Ok out
    /\ code_text out = source_text Examples.two_defs
    /\ line_numbers out = [1%Z; 2%Z].
Proof.
  destruct (plain_path_keeps_lines (init no_options) Examples.two_defs
              (or_introl eq_refl)) as [out [Eout [_ [Hf Hn]]]].
  exists out. split; [exact Eout|]. split.
  - apply Hf. intros [_ H]. apply H. apply endswith_char_spec.
    vm_compute. reflexivity.
  - rewrite Hn. vm_compute in Eout. injection Eout as <-. reflexivity.
Defined.

(** ** The parameter text *)

Lemma split_aux_all_space (t : string) :
  all_space t = true ->
  forall cur, PyStr.split_ws_aux t cur = PyStr.split_ws_aux "" cur.
Proof.
  induction t as [|c t IH]; [reflexivity|]. cbn [all_space]. intros H cur.
  apply andb_true_iff in H as [Hc Ht]. cbn [PyStr.split_ws_aux]. rewrite Hc.
  destruct cur; rewrite (IH Ht); reflexivity.
Qed.

Lemma split_aux_space_tail (a t : string) :
  all_space t = true ->
  forall cur, PyStr.split_ws_aux (a ++ t) cur = PyStr.split_ws_aux a cur.
Proof.
  intros Ht. induction a as [|c a IH]; intros cur.
  - apply split_aux_all_space. exact Ht.
  - cbn [append PyStr.split_ws_aux].
    destruct (PyStr.isspace c); [destruct cur|]; rewrite IH; reflexivity.
Qed.

Lemma split_ws_lstrip (s : string) :
  PyStr.split_ws (PyStr.lstrip s) = PyStr.split_ws s.
Proof.
  unfold PyStr.split_ws. induction s as [|c s IH]; [reflexivity|].
  cbn [PyStr.lstrip PyStr.split_ws_aux].
  destruct (PyStr.isspace c) eqn:Hc; [exact IH|].
  cbn [PyStr.split_ws_aux]. rewrite Hc. reflexivity.
Qed.

Lemma split_ws_strip (s : string) :
  PyStr.split_ws (PyStr.strip s) = PyStr.split_ws s.
Proof.
  unfold PyStr.strip. rewrite <- (split_ws_lstrip s).
  destruct (rstrip_split (PyStr.lstrip s)) as [w [Hs Hw]].
  rewrite Hs at 2. unfold PyStr.split_ws.
  rewrite split_aux_space_tail by exact Hw. reflexivity.
Qed.

Lemma split_aux_word (w : string) :
  no_space w = true ->
  forall rest cur,
    PyStr.split_ws_aux (w ++ rest) cur
    = PyStr.split_ws_aux rest (PyStr.rev_string w cur).
Proof.
  induction w as [|c w IH]; [reflexivity|]. cbn [no_space]. intros H rest cur.
  apply andb_true_iff in H as [Hc Hw]. apply negb_true_iff in Hc.
  cbn [append PyStr.split_ws_aux PyStr.rev_string]. rewrite Hc.
  apply IH. exact Hw.
Qed.

Lemma rev_string_nonempty (w : string) :
  w <> "" -> PyStr.rev_string w "" <> "".
Proof.
  intros Hw E. apply Hw. rewrite <- (rev_string_involutive w), E. reflexivity.
Qed.

Lemma is_word_spec (w : string) :
  is_word w = true -> w <> "" /\ no_space w = true.
Proof.
  unfold is_word. intros H. apply andb_true_iff in H as [Hn Hs].
  split; [|exact Hs]. intros ->. discriminate.
Qed.

Lemma split_ws_join (ws : list string) :
  Forall (fun w => is_word w = true) ws ->
  PyStr.split_ws (PyStr.join_with " " ws) = ws.
Proof.
  unfold PyStr.split_ws, PyStr.join_with.
  induction 1 as [|w ws Hw _ IH]; [reflexivity|].
  apply is_word_spec in Hw. destruct Hw as [Hne Hns].
  pose proof (rev_string_nonempty w Hne) as Hrev.
  destruct ws as [|w2 ws].
  - cbn [String.concat]. rewrite <- (append_nil_r w) at 1.
    rewrite (split_aux_word w Hns). cbn [PyStr.split_ws_aux].
    destruct (PyStr.rev_string w "") eqn:E; [contradiction|].
    rewrite <- E, rev_string_involutive. reflexivity.
  - change (String.concat " " (w :: w2 :: ws))
      with (w ++ String (ch " ") (String.concat " " (w2 :: ws)))%str.
    rewrite (split_aux_word w Hns). cbn [PyStr.split_ws_aux].
    change (PyStr.isspace (ch " ")) with true. cbv iota.
    destruct (PyStr.rev_string w "") eqn:E; [contradiction|].
    rewrite <- E, rev_string_involutive, IH. reflexivity.
Qed.

Lemma no_space_app (a b : string) :
  no_space (a ++ b) = no_space a && no_space b.
Proof.
  induction a as [|c a IH]; [reflexivity|]. cbn. rewrite IH. apply andb_assoc.
Qed.

Lemma no_space_rev (s acc : string) :
  no_space (PyStr.rev_string s acc) = no_space s && no_space acc.
Proof.
  revert acc; induction s as [|c s IH]; intros acc; [reflexivity|].
  cbn [PyStr.rev_string]. rewrite IH. cbn [no_space].
  destruct (negb (PyStr.isspace c)), (no_space s), (no_space acc); reflexivity.
Qed.

Lemma split_aux_words (s : string) :
  forall cur, no_space cur = true ->
    Forall (fun w => is_word w = true) (PyStr.split_ws_aux s cur).
Proof.
  assert (Hemit : forall c cur, no_space (String c cur) = true ->
                    is_word (PyStr.rev_string (String c cur) "") = true).
  { intros c cur H. unfold is_word. apply andb_true_iff. split.
    - pose proof (rev_string_nonempty (String c cur)) as Hne.
      destruct (PyStr.rev_string (String c cur) ""); [|reflexivity].
      exfalso. apply Hne; [discriminate | reflexivity].
    - rewrite no_space_rev, H. reflexivity. }
  induction s as [|c s IH]; intros cur Hcur; cbn [PyStr.split_ws_aux].
  - destruct cur as [|d cur]; [constructor|].
    constructor; [apply Hemit; exact Hcur | constructor].
  - destruct (PyStr.isspace c) eqn:Hc.
    + destruct cur as [|d cur]; [apply IH; reflexivity|].
      constructor; [apply Hemit; exact Hcur | apply IH; reflexivity].
    + apply IH. cbn [no_space]. rewrite Hc, Hcur. reflexivity.
Qed.

Lemma no_space_has_char (c : char) (w : string) :
  no_space w = true -> PyStr.has_char c w = true -> PyStr.isspace c = false.
Proof.
  induction w as [|d w IH]; [discriminate|]. cbn. intros H Hc.
  apply andb_true_iff in H as [Hd Hw]. apply negb_true_iff in Hd.
  destruct (N.eqb_spec d c) as [->|Hne]; [exact Hd | apply IH; assumption].
Qed.

Lemma join_with_blank_chars (c : char) (ws : list string) :
  PyStr.has_char c (PyStr.join_with " " ws) = true ->
  c = (ch " ") \/ exists w, In w ws /\ PyStr.has_char c w = true.
Proof.
  unfold PyStr.join_with. induction ws as [|w ws IH]; [discriminate|].
  destruct ws as [|w2 ws].
  - cbn [String.concat]. intros H. right. exists w. split; [left; reflexivity | exact H].
  - change (String.concat " " (w :: w2 :: ws))
      with (w ++ String (ch " ") (String.concat " " (w2 :: ws)))%str.
    rewrite has_char_app. cbn [PyStr.has_char]. intros H.
    apply orb_true_iff in H as [H|H];
      [right; exists w; split; [left; reflexivity | exact H]|].
    apply orb_true_iff in H as [H|H].
    + left. apply N.eqb_eq in H. symmetry. exact H.
    + destruct (IH H) as [Hc|[x [Hx Hcx]]]; [left; exact Hc|].
      right. exists x. split; [right; exact Hx | exact Hcx].
Qed.

(** The parameter text that the scanner reports holds the words of the
    text of the parameter tokens and nothing else: splitting it at white
    space gives those words, joining its words with single blanks gives it
    back, and the only white-space character in it is the blank, so that
    line breaks and runs of blanks are gone. *)
Theorem parameter_text_normalised (param_tokens : list token) :
  let text := PyStr.join (map snd param_tokens) in
  let p := parameter_text param_tokens in
  PyStr.split_ws p = PyStr.split_ws text
  /\ PyStr.join_with " " (PyStr.split_ws p) = p
  /\ forall c, PyStr.has_char c p = true -> PyStr.isspace c = true ->
               c = (ch " ").
Proof.
  cbv zeta. unfold parameter_text. rewrite split_ws_strip.
  set (ws := PyStr.split_ws (PyStr.join (map snd param_tokens))).
  assert (Hws : Forall (fun w => is_word w = true) ws)
    by (apply split_aux_words; reflexivity).
  rewrite (split_ws_join ws Hws).
  split; [reflexivity|]. split; [reflexivity|].
  intros c Hc Hsp.
  destruct (join_with_blank_chars c ws Hc) as [E|[w [Hw Hcw]]]; [exact E|].
  rewrite Forall_forall in Hws. specialize (Hws w Hw).
  apply is_word_spec in Hws. destruct Hws as [_ Hns].
  rewrite (no_space_has_char c w Hns Hcw) in Hsp. discriminate.
Qed.

Lemma parameter_text_normalised_witness :
  PyStr.has_char 160%N
    (parameter_text [Examples.nm "a"; Examples.pu ",";
                     Examples.ws (String 160%N PyStr.nl); Examples.nm "b"])
  = false.
Proof.
  destruct (parameter_text_normalised
              [Examples.nm "a"; Examples.pu ",";
               Examples.ws (String 160%N PyStr.nl); Examples.nm "b"])
    as [_ [_ H]].
  destruct (PyStr.has_char 160%N _) eqn:E; [|reflexivity].
  specialize (H 160%N E eq_refl). discriminate H.
Defined.

(** ** Trailers and streams without signatures *)

Lemma insert_sorted_In (x y : Z) (l : list Z) :
  In y (insert_sorted x l) <-> y = x \/ In y l.
Proof.
  induction l as [|z l IH]; cbn; [intuition auto|].
  destruct (x <? z)%Z eqn:E1; [cbn; intuition auto|].
  destruct (x =? z)%Z eqn:E2.
  - apply Z.eqb_eq in E2. subst z. cbn. intuition auto.
  - cbn. rewrite IH. intuition auto.
Qed.

Lemma insert_sorted_sorted (x : Z) (l : list Z) :
  StronglySorted Z.lt l -> StronglySorted Z.lt (insert_sorted x l).
Proof.
  induction 1 as [|z l Hs IH Hall]; cbn; [repeat constructor|].
  destruct (x <? z)%Z eqn:E1.
  - apply Z.ltb_lt in E1. constructor; [constructor; assumption|].
    constructor; [exact E1|].
    eapply Forall_impl; [|exact Hall]. intros a Ha. cbv beta in *. lia.
  - destruct (x =? z)%Z eqn:E2; [constructor; assumption|].
    apply Z.ltb_ge in E1. apply Z.eqb_neq in E2.
    constructor; [exact IH|].
    apply Forall_forall. intros a Ha. apply insert_sorted_In in Ha.
    destruct Ha as [->|Ha]; [lia|].
    rewrite Forall_forall in Hall. apply Hall. exact Ha.
Qed.

Lemma sorted_set_spec (l : list Z) :
  StronglySorted Z.lt (sorted_set l) /\ forall n, In n (sorted_set l) <-> In n l.
Proof.
  unfold sorted_set. induction l as [|x l [IH1 IH2]]; cbn [fold_right].
  - split; [constructor | intros n; reflexivity].
  - split; [apply insert_sorted_sorted; exact IH1|].
    intros n. rewrite insert_sorted_In, IH2. cbn. intuition auto.
Qed.

(** When [hl_lines] is not empty the output holds the comment
    [<!-- Highlighted lines: ... -->], written in three parts, that lists
    the highlighted lines: each member of [hl_lines] once, in strictly
    ascending order, separated by a comma and a blank. *)
Theorem highlighted_lines_comment (self : formatter) (tokens : list token) :
  hl_lines self <> [] ->
  exists out listed before after,
    format_unencoded self tokens = Ok out
    /\ StronglySorted Z.lt listed
    /\ (forall n, In n listed <-> In n (hl_lines self))
    /\ out = before
             ++ [Text (PyStr.nl ++ "<!-- Highlighted lines: ");
                 Text (PyStr.join_with ", " (map str_of_Z listed));
                 Text (" -->" ++ PyStr.nl)]
             ++ after.
Proof.
  intros Hne.
  destruct (format_unencoded_shape self tokens) as [sigs [body [_ [Eout _]]]].
  destruct (sorted_set_spec (hl_lines self)) as [Hs Hin].
  eexists _, (sorted_set (hl_lines self)),
    (header self ++ summary self sigs
     ++ [FenceOpen (fence_of self ++ lang self ++ PyStr.nl)]
     ++ body ++ [FenceClose (fence_of self ++ PyStr.nl)]),
    (functions_list self sigs).
  split; [exact Eout|]. split; [exact Hs|]. split; [exact Hin|].
  unfold highlighted_comment.
  destruct (hl_lines self) as [|x l]; [contradiction|].
  rewrite <- !app_assoc. reflexivity.
Qed.

Lemma highlighted_lines_comment_witness :
  exists out,
    format_unencoded Examples.highlight_first [Examples.kw "pass"] = Ok out
    /\ In (Text "1") out.
Proof.
  destruct (highlighted_lines_comment Examples.highlight_first
              [Examples.kw "pass"]) as [out [listed [before [after [Eout _]]]]];
    [discriminate|].
  exists out. split; [exact Eout|].
  vm_compute in Eout. injection Eout as <-.
  right; right; right; right; left; reflexivity.
Defined.

Lemma render_loop_lines (self : formatter) (tokens : list token)
    (sigs : list Sig.t) (fence : string) :
  function_style self = emphasis \/ sigs = [] ->
  forall fuel current_line line_number token_idx body current_line' line_number',
    render_loop fuel self tokens sigs fence current_line line_number token_idx
    = Ok (body, current_line', line_number') ->
    Forall (fun c => is_code_line c = true) body.
Proof.
  intros Hplain.
  induction fuel as [|fuel IH]; intros cl ln idx body cl' ln' E; [discriminate|].
  cbn [render_loop] in E.
  destruct (idx <? length tokens); [|injection E as <- _ _; constructor].
  destruct (tok_at tokens idx) as [[ty value]| |]; try discriminate.
  cbn [bind] in E.
  assert (Hemit :
    (' (cs, current_line, line_number) <-
        emit_token self tokens idx ty value cl ln ;;
     ' (rest, current_line, line_number) <-
        render_loop fuel self tokens sigs fence current_line line_number (S idx) ;;
     Ok (cs ++ rest, current_line, line_number))
    = Ok (body, cl', ln') ->
    Forall (fun c => is_code_line c = true) body).
  { clear E. intros E.
    destruct (emit_token_inv self fence (fun _ => True) tokens idx ty value cl ln)
      as [cs [cl1 [ln1 [E1 [_ [_ Hcs]]]]]].
    { intros; exact I. }
    { apply Forall_forall. intros; exact I. }
    rewrite E1 in E. cbn [bind] in E.
    destruct (render_loop fuel self tokens sigs fence cl1 ln1 (S idx))
      as [[[rest cl2] ln2]| |] eqn:E2; try discriminate.
    cbn [bind] in E. injection E as <- _ _.
    apply Forall_app. split; [exact Hcs | exact (IH _ _ _ _ _ _ E2)]. }
  destruct Hplain as [Hemph| ->].
  - rewrite Hemph in E. cbn [function_style_eqb negb] in E.
    destruct (current_func sigs idx); apply Hemit; exact E.
  - cbn [current_func find] in E. apply Hemit. exact E.
Qed.

(** When the pre-pass finds no signature, whatever the style, the output
    is the optional header, one fenced block that holds code lines only,
    and the optional comment of highlighted lines: no summary, no call-out,
    no heading and no function list is written. *)
Theorem no_signature_no_callout (self : formatter) (tokens : list token) :
  function_signatures self tokens = Ok [] ->
  exists lines,
    format_unencoded self tokens
    = Ok (header self
          ++ [FenceOpen (fence_of self ++ lang self ++ PyStr.nl)]
          ++ lines
          ++ [FenceClose (fence_of self ++ PyStr.nl)]
          ++ highlighted_comment self)
    /\ Forall (fun c => is_code_line c = true) lines.
Proof.
  intros Esigs. unfold format_unencoded. rewrite Esigs. cbn [bind].
  fold (fence_of self).
  destruct (render_loop_Ok self tokens [] (fence_of self) (Forall_nil _)
              (S (length tokens)) [] (linenostart self) 0)
    as [body [cl [ln [E _]]]]; [lia|].
  pose proof (render_loop_lines self tokens [] (fence_of self)
                (or_intror eq_refl) _ _ _ _ _ _ _ E) as Hlines.
  rewrite E. cbn [bind].
  assert (Hsum : summary self [] = []) by reflexivity.
  assert (Hfl : functions_list self [] = []) by reflexivity.
  rewrite Hsum, Hfl, app_nil_r. cbn [app].
  destruct cl as [|pc cl].
  - cbn [bind]. exists body. split; [reflexivity | exact Hlines].
  - destruct (write_line_Ok self (pc :: cl) ln (Some tokens)
                (Some (length tokens - 1))) as [note [-> _]]. cbn [bind].
    eexists (body ++ [_]). rewrite <- app_assoc.
    split; [reflexivity|].
    apply Forall_app. split; [exact Hlines | repeat constructor].
Qed.

Lemma no_signature_no_callout_witness :
  exists lines,
    format_unencoded (Examples.with_style "callout")
      [Examples.kw "pass"; Examples.ws PyStr.nl]
    = Ok ([FenceOpen ("```" ++ PyStr.nl)] ++ lines
          ++ [FenceClose ("```" ++ PyStr.nl)])
    /\ Forall (fun c => is_code_line c = true) lines.
Proof.
  destruct (no_signature_no_callout (Examples.with_style "callout")
              [Examples.kw "pass"; Examples.ws PyStr.nl] eq_refl)
    as [lines [E H]].
  exists lines. split; [exact E | exact H].
Defined.

(** ** What the call-out styles keep *)

Lemma strip_nl_app (a b : string) :
  strip_nl (a ++ b) = (strip_nl a ++ strip_nl b)%str.
Proof.
  induction a as [|c a IH]; [reflexivity|]. cbn [append strip_nl].
  destruct (N.eqb c PyStr.nl_char); [exact IH|].
  cbn [append]. rewrite IH. reflexivity.
Qed.

Lemma strip_nl_nl (a : string) : strip_nl (a ++ PyStr.nl) = strip_nl a.
Proof. rewrite strip_nl_app. cbn. apply append_nil_r. Qed.

Lemma inside_none (tokens : list token) (sigs done rest : list Sig.t)
    (token_idx : nat) :
  records_ahead tokens sigs done rest token_idx ->
  current_func sigs token_idx = None ->
  inside sigs token_idx = false.
Proof.
  intros H Hnone. rewrite (current_func_ahead _ _ _ _ _ H) in Hnone.
  destruct H as [-> [Hdone [Hrest Hsorted]]].
  unfold inside. rewrite existsb_app. apply orb_false_iff. split.
  - apply not_true_is_false. intros E. apply existsb_exists in E.
    destruct E as [a [Ha E]]. rewrite Forall_forall in Hdone.
    destruct (Hdone a Ha) as [_ Hend].
    apply andb_true_iff in E as [_ E]. apply Nat.ltb_lt in E. lia.
  - apply not_true_is_false. intros E. apply existsb_exists in E.
    destruct E as [b [Hb E]]. apply andb_true_iff in E as [E _].
    apply Nat.leb_le in E.
    destruct rest as [|a rest]; [contradiction|].
    destruct (token_idx =? Sig.start_idx a) eqn:Estart; [discriminate|].
    apply Nat.eqb_neq in Estart.
    inversion Hrest as [|? ? [Ha1 [Ha2 Ha3]] _]; subst.
    inversion Hsorted as [|? ? _ Hall]; subst.
    destruct Hb as [<-|Hb]; [lia|].
    rewrite Forall_forall in Hall. specialize (Hall b Hb).
    unfold resumes_after in Hall. lia.
Qed.

Lemma kept_skip (sigs : list Sig.t) (tokens : list token) :
  forall n lo,
    (forall i, lo <= i < lo + n -> inside sigs i = true) ->
    lo + n <= length tokens ->
    kept sigs (skipn lo tokens) lo = kept sigs (skipn (lo + n) tokens) (lo + n).
Proof.
  induction n as [|n IH]; intros lo Hin Hlen.
  - rewrite Nat.add_0_r. reflexivity.
  - destruct (nth_error tokens lo) as [t|] eqn:Hnth;
      [|apply nth_error_None in Hnth; lia].
    rewrite (skipn_nth_error _ _ _ Hnth). cbn [kept].
    rewrite (Hin lo) by lia.
    replace (lo + S n) with (S lo + n) by lia.
    apply IH; [intros i Hi; apply Hin; lia | lia].
Qed.

Lemma splice_text (self : formatter) (fence : string) (func : Sig.t)
    (current_line : list piece) (line_number : Z) :
  function_style self <> emphasis ->
  exists cs,
    splice self fence func current_line line_number = Ok (cs, [])
    /\ strip_nl (code_text cs) = strip_nl (plain_text current_line).
Proof.
  intros Hne. unfold splice.
  destruct (function_style self); [|contradiction|];
    (destruct current_line as [|pc current_line];
     [cbn [bind]; eexists; split; [reflexivity|]; reflexivity|];
     destruct (write_line_Ok self (pc :: current_line) line_number None None)
       as [note [-> _]]; cbn [bind];
     eexists; split; [reflexivity|];
     cbn [app code_text]; rewrite append_nil_r; apply strip_nl_nl).
Qed.

Lemma render_loop_kept (self : formatter) (tokens : list token)
    (sigs : list Sig.t) (fence : string) :
  function_style self <> emphasis ->
  forall fuel current_line line_number token_idx done rest,
    records_ahead tokens sigs done rest token_idx ->
    length tokens - token_idx < fuel ->
    exists body current_line' line_number',
      render_loop fuel self tokens sigs fence current_line line_number token_idx
      = Ok (body, current_line', line_number')
      /\ strip_nl (code_text body ++ plain_text current_line')
         = strip_nl (plain_text current_line
                     ++ source_text (kept sigs (skipn token_idx tokens) token_idx)).
Proof.
  intros Hstyle.
  assert (Hneg : negb (function_style_eqb (function_style self) emphasis) = true)
    by (destruct (function_style self); try reflexivity; contradiction).
  induction fuel as [|fuel IH]; intros cl ln idx done rest Hahead Hf; [lia|].
  cbn [render_loop].
  destruct (idx <? length tokens) eqn:Hi.
  - apply Nat.ltb_lt in Hi.
    destruct (tok_at_Ok tokens idx Hi) as [[ty value] [-> Hnth]]. cbn [bind].
    rewrite Hneg.
    destruct (current_func sigs idx) as [func|] eqn:Hcur.
    + rewrite (current_func_ahead _ _ _ _ _ Hahead) in Hcur.
      destruct rest as [|a rest]; [discriminate|].
      destruct (idx =? Sig.start_idx a) eqn:Estart; [|discriminate].
      injection Hcur as <-. apply Nat.eqb_eq in Estart. subst idx.
      destruct (splice_text self fence a cl ln Hstyle) as [cs [-> Hcs]].
      cbn [bind].
      pose proof (records_ahead_jump _ _ _ _ _ Hahead) as Hjump.
      destruct Hahead as [Hsigs [_ [Hwf _]]].
      inversion Hwf as [|? ? [Ha1 [Ha2 Ha3]] _]; subst.
      destruct (IH [] ln (Sig.end_idx a) (done ++ [a]) rest Hjump)
        as [body [cl2 [ln2 [-> Hbody]]]]; [lia|].
      cbn [bind]. eexists _, _, _. split; [reflexivity|].
      rewrite code_text_app, append_assoc, strip_nl_app, Hbody, Hcs.
      change (plain_text []) with "". cbn [append].
      rewrite <- strip_nl_app. f_equal. f_equal. f_equal.
      replace (Sig.end_idx a)
        with (Sig.start_idx a + (Sig.end_idx a - Sig.start_idx a)) by lia.
      symmetry. apply kept_skip; [|lia].
      intros i Hi'. unfold inside. apply existsb_exists. exists a.
      split; [apply in_or_app; right; left; reflexivity|].
      apply andb_true_iff. split; [apply Nat.leb_le | apply Nat.ltb_lt]; lia.
    + pose proof (inside_none _ _ _ _ _ Hahead Hcur) as Hout.
      pose proof (records_ahead_step _ _ _ _ _ Hahead Hcur) as Hstep.
      destruct (emit_token_spec self tokens idx ty value cl ln)
        as [cs [cl1 [-> [_ [Hcs _]]]]]. cbn [bind].
      destruct (IH cl1 (ln + Z.of_nat (count_nl value))%Z (S idx) done rest Hstep)
        as [body [cl2 [ln2 [-> Hbody]]]]; [lia|].
      cbn [bind]. eexists _, _, _. split; [reflexivity|].
      rewrite (skipn_nth_error _ _ _ Hnth). cbn [kept]. rewrite Hout.
      unfold source_text at 1. cbn [map snd]. rewrite join_cons.
      fold (source_text (kept sigs (skipn (S idx) tokens) (S idx))).
      rewrite code_text_app, append_assoc, strip_nl_app, Hbody.
      rewrite <- strip_nl_app, <- append_assoc, Hcs, append_assoc. reflexivity.
  - apply Nat.ltb_ge in Hi. rewrite skipn_all2 by exact Hi.
    exists [], cl, ln. split; [reflexivity|].
    cbn [code_text kept append]. unfold source_text. cbn.
    rewrite append_nil_r. reflexivity.
Qed.

(** In the [callout] and [heading] styles the code lines written hold,
    line breaks aside, exactly the text of the tokens that lie outside the
    ranges of the recorded signatures: every such token is written, in
    order, and no token of a range is. *)
Theorem callout_keeps_tokens_outside_signatures (self : formatter)
    (tokens : list token) :
  function_style self <> emphasis ->
  exists sigs out,
    function_signatures self tokens = Ok sigs
    /\ format_unencoded self tokens = Ok out
    /\ strip_nl (code_text out) = strip_nl (source_text (kept sigs tokens 0)).
Proof.
  intros Hstyle. unfold format_unencoded.
  destruct (function_signatures_Ok self tokens) as [sigs [Esigs [Hwf Hsorted]]].
  exists sigs. rewrite Esigs. cbn [bind].
  destruct (render_loop_kept self tokens sigs (fence_of self) Hstyle
              (S (length tokens)) [] (linenostart self) 0 [] sigs)
    as [body [cl [ln [E Hbody]]]].
  { split; [reflexivity|]. split; [constructor|]. split; assumption. }
  { lia. }
  fold (fence_of self). rewrite E. cbn [bind].
  change (plain_text []) with "" in Hbody. cbn [append skipn] in Hbody.
  destruct (texts_code_text _ (header_texts self)) as [Hh1 _].
  destruct (texts_code_text _ (summary_texts self sigs)) as [Hs1 _].
  destruct (texts_code_text _ (highlighted_comment_texts self)) as [Hl1 _].
  destruct (texts_code_text _ (functions_list_texts self sigs)) as [Hf1 _].
  destruct cl as [|pc cl].
  - cbn [bind]. eexists. split; [reflexivity|]. split; [reflexivity|].
    rewrite !code_text_app, Hh1, Hs1, Hl1, Hf1. cbn [code_text append].
    rewrite !append_nil_r. rewrite <- Hbody.
    change (plain_text []) with "". rewrite append_nil_r. reflexivity.
  - destruct (write_line_Ok self (pc :: cl) ln (Some tokens)
                (Some (length tokens - 1))) as [note [-> _]]. cbn [bind].
    eexists. split; [reflexivity|]. split; [reflexivity|].
    rewrite !code_text_app, Hh1, Hs1, Hl1, Hf1. cbn [code_text append].
    rewrite !append_nil_r, <- append_assoc, strip_nl_nl. exact Hbody.
Qed.

Lemma callout_keeps_tokens_outside_signatures_witness :
  exists out,
    format_unencoded (Examples.with_style "heading") Examples.def_f = Ok out
    /\ strip_nl (code_text out) = ":    pass".
Proof.
  destruct (callout_keeps_tokens_outside_signatures
              (Examples.with_style "heading") Examples.def_f)
    as [sigs [out [Esigs [Eout H]]]]; [discriminate|].
  exists out. split; [exact Eout|]. rewrite H.
  vm_compute in Esigs. injection Esigs as <-. reflexivity.
Defined.

(** ** Line numbers and fenced blocks in every style *)

Lemma numbered_app (start : Z) (st : numbering) (a b : list chunk) :
  numbered start st (a ++ b)
  = match numbered start st a with
    | Some st' => numbered start st' b
    | None => None
    end.
Proof.
  revert st; induction a as [|c a IH]; intros st; [reflexivity|].
  destruct c; cbn [app numbered]; try apply IH.
  destruct (follows start st number); [apply IH | reflexivity].
Qed.

Lemma counter_follows (start : Z) (st : numbering) (line_number : Z) :
  counter_ok start st line_number -> follows start st line_number = true.
Proof.
  destruct st as [|m [|]]; cbn.
  - intros ->. apply Z.eqb_refl.
  - intros [->| ->]; rewrite Z.eqb_refl; [reflexivity | apply orb_true_r].
  - intros ->. apply Z.eqb_refl.
Qed.

Lemma numbered_lines (start : Z) (cs : list chunk) :
  Forall (fun c => is_code_line c = true) cs ->
  forall st line_number k,
    line_numbers cs = consecutive line_number k ->
    counter_ok start st line_number ->
    exists st', numbered start st cs = Some st'
      /\ counter_ok start st' (line_number + Z.of_nat k).
Proof.
  induction 1 as [|c cs Hc _ IH]; intros st ln k Hn Hst.
  - destruct k; [|discriminate]. exists st. rewrite Z.add_0_r.
    split; [reflexivity | exact Hst].
  - destruct c as [| | |n numbered_ parts note]; try discriminate.
    destruct k as [|k]; [discriminate|].
    cbn [line_numbers consecutive] in Hn. injection Hn as -> Hn.
    cbn [numbered]. rewrite (counter_follows _ _ _ Hst).
    destruct (IH (LastLine ln false) (ln + 1)%Z k Hn eq_refl) as [st' [E Hst']].
    exists st'. split; [exact E|].
    replace (ln + Z.of_nat (S k))%Z with (ln + 1 + Z.of_nat k)%Z by lia.
    exact Hst'.
Qed.

Lemma numbered_texts (start : Z) (st : numbering) (l : list chunk) :
  Forall (fun c => exists s, c = Text s) l -> numbered start st l = Some st.
Proof.
  induction 1 as [|c l [s ->] _ IH]; [reflexivity | exact IH].
Qed.

Lemma after_fence_ok (start : Z) (st : numbering) (line_number : Z) :
  counter_ok start st line_number -> counter_ok start (after_fence st) line_number.
Proof.
  destruct st as [|m [|]]; cbn; auto.
Qed.

Lemma fence_state_app (open : bool) (a b : list chunk) :
  fence_state open (a ++ b)
  = match fence_state open a with
    | Some open' => fence_state open' b
    | None => None
    end.
Proof.
  revert open; induction a as [|c a IH]; intros open; [reflexivity|].
  destruct c, open; cbn [app fence_state]; try reflexivity; apply IH.
Qed.

Lemma fence_state_lines (cs : list chunk) :
  Forall (fun c => is_code_line c = true) cs -> fence_state true cs = Some true.
Proof.
  induction 1 as [|c cs Hc _ IH]; [reflexivity|].
  destruct c; try discriminate. exact IH.
Qed.

Lemma fence_state_texts (l : list chunk) :
  Forall (fun c => exists s, c = Text s) l -> fence_state false l = Some false.
Proof.
  induction 1 as [|c l [s ->] _ IH]; [reflexivity | exact IH].
Qed.

(** A call-out closes the block and opens the next one; the line that it
    writes first, if any, carries the value of the counter, which it
    leaves as it is. *)
Lemma splice_structure (self : formatter) (fence : string) (func : Sig.t)
    (current_line : list piece) (line_number : Z) (start : Z) (st : numbering) :
  function_style self <> emphasis ->
  counter_ok start st line_number ->
  exists cs current_line' st',
    splice self fence func current_line line_number = Ok (cs, current_line')
    /\ fence_state true cs = Some true
    /\ numbered start st cs = Some st'
    /\ counter_ok start st' line_number.
Proof.
  intros Hne Hst. unfold splice.
  pose proof (counter_follows _ _ _ Hst) as Hfo.
  destruct (function_style self); [|contradiction|];
    (destruct current_line as [|pc current_line];
     [cbn [bind]; eexists _, _, _; split; [reflexivity|];
      split; [reflexivity|]; split; [reflexivity|];
      apply after_fence_ok; exact Hst|];
     destruct (write_line_Ok self (pc :: current_line) line_number None None)
       as [note [-> _]]; cbn [bind];
     eexists _, _, _; split; [reflexivity|];
     split; [reflexivity|]; cbn [app numbered]; rewrite Hfo;
     split; [reflexivity | left; reflexivity]).
Qed.

Lemma render_loop_structure (self : formatter) (tokens : list token)
    (sigs : list Sig.t) (fence : string) (start : Z) :
  Forall (well_formed_at tokens 0) sigs ->
  forall fuel current_line line_number token_idx st,
    length tokens - token_idx < fuel ->
    counter_ok start st line_number ->
    exists body current_line' line_number' st',
      render_loop fuel self tokens sigs fence current_line line_number token_idx
      = Ok (body, current_line', line_number')
      /\ fence_state true body = Some true
      /\ numbered start st body = Some st'
      /\ counter_ok start st' line_number'.
Proof.
  intros Hwf.
  induction fuel as [|fuel IH]; intros cl ln idx st Hf Hst; [lia|].
  cbn [render_loop].
  destruct (idx <? length tokens) eqn:Hi.
  2:{ eexists _, _, _, _. split; [reflexivity|]. split; [reflexivity|].
      split; [reflexivity | exact Hst]. }
  apply Nat.ltb_lt in Hi.
  destruct (tok_at_Ok tokens idx Hi) as [[ty value] [-> _]]. cbn [bind].
  assert (Hemit :
    exists body cl' ln' st',
      (' (cs, current_line, line_number) <-
          emit_token self tokens idx ty value cl ln ;;
       ' (rest, current_line, line_number) <-
          render_loop fuel self tokens sigs fence current_line line_number (S idx) ;;
       Ok (cs ++ rest, current_line, line_number))
      = Ok (body, cl', ln')
      /\ fence_state true body = Some true
      /\ numbered start st body = Some st'
      /\ counter_ok start st' ln').
  { destruct (emit_token_spec self tokens idx ty value cl ln)
      as [cs [cl1 [E1 [Hn _]]]].
    destruct (emit_token_inv self fence (fun _ => True) tokens idx ty value cl ln)
      as [cs' [cl1' [ln1' [E1' [_ [_ Hlines]]]]]].
    { intros; exact I. }
    { apply Forall_forall. intros; exact I. }
    rewrite E1 in E1'. injection E1' as <- <- <-.
    rewrite E1. cbn [bind].
    destruct (numbered_lines start cs Hlines st ln _ Hn Hst) as [st1 [En1 Hst1]].
    destruct (IH cl1 (ln + Z.of_nat (count_nl value))%Z (S idx) st1)
      as [rest [cl2 [ln2 [st2 [-> [Hfs [En2 Hst2]]]]]]]; [lia | exact Hst1|].
    cbn [bind]. eexists _, _, _, st2. split; [reflexivity|]. split; [|split].
    - rewrite fence_state_app, (fence_state_lines cs Hlines). exact Hfs.
    - rewrite numbered_app, En1. exact En2.
    - exact Hst2. }
  destruct (current_func sigs idx) as [func|] eqn:Hcur; [|exact Hemit].
  destruct (negb (function_style_eqb (function_style self) emphasis)) eqn:Hstyle;
    [|exact Hemit].
  assert (Hne : function_style self <> emphasis).
  { intros E. rewrite E in Hstyle. discriminate. }
  apply current_func_start in Hcur as [Hin Hstart].
  rewrite Forall_forall in Hwf. destruct (Hwf func Hin) as [_ [Hlt Hle]].
  destruct (splice_structure self fence func cl ln start st Hne Hst)
    as [cs [cl1 [st1 [-> [Hfs1 [En1 Hst1]]]]]]. cbn [bind].
  destruct (IH cl1 ln (Sig.end_idx func) st1)
    as [rest [cl2 [ln2 [st2 [-> [Hfs [En2 Hst2]]]]]]]; [lia | exact Hst1|].
  cbn [bind]. eexists _, _, _, st2. split; [reflexivity|]. split; [|split].
  - rewrite fence_state_app, Hfs1. exact Hfs.
  - rewrite numbered_app, En1. exact En2.
  - exact Hst2.
Qed.

(** [format_unencoded] returns its output with the whole of the structure
    that the loop builds. *)
Lemma format_unencoded_structure (self : formatter) (tokens : list token) :
  exists out st,
    format_unencoded self tokens = Ok out
    /\ fence_state false out = Some false
    /\ numbered (linenostart self) NoLine out = Some st.
Proof.
  unfold format_unencoded.
  destruct (function_signatures_Ok self tokens) as [sigs [-> [Hwf _]]].
  cbn [bind].
  destruct (render_loop_structure self tokens sigs (fence_of self)
              (linenostart self) Hwf (S (length tokens)) [] (linenostart self) 0
              NoLine)
    as [body [cl [ln [st1 [E [Hfs [En Hst]]]]]]]; [lia | reflexivity|].
  fold (fence_of self). rewrite E. cbn [bind].
  assert (Hrem : exists remaining st2,
    (match cl with
     | [] => Ok []
     | _ :: _ => c <- _write_line self cl ln (Some tokens) (Some (length tokens - 1)) ;;
                 Ok [c]
     end) = Ok remaining
    /\ fence_state true remaining = Some true
    /\ numbered (linenostart self) st1 remaining = Some st2).
  { destruct cl as [|pc cl].
    - exists [], st1. split; [reflexivity|]. split; reflexivity.
    - destruct (write_line_Ok self (pc :: cl) ln (Some tokens)
                  (Some (length tokens - 1))) as [note [-> _]]. cbn [bind].
      eexists _, _. split; [reflexivity|]. split; [reflexivity|].
      cbn [numbered]. rewrite (counter_follows _ _ _ Hst). reflexivity. }
  destruct Hrem as [remaining [st2 [-> [Hfs2 En2]]]]. cbn [bind].
  eexists _, st2. split; [reflexivity|].
  split.
  - rewrite fence_state_app, (fence_state_texts _ (header_texts self)).
    rewrite fence_state_app, (fence_state_texts _ (summary_texts self sigs)).
    cbn [app fence_state].
    rewrite fence_state_app, Hfs, fence_state_app, Hfs2.
    cbn [app fence_state].
    rewrite fence_state_app, (fence_state_texts _ (highlighted_comment_texts self)).
    apply fence_state_texts, functions_list_texts.
  - rewrite numbered_app, (numbered_texts _ _ _ (header_texts self)).
    rewrite numbered_app, (numbered_texts _ _ _ (summary_texts self sigs)).
    cbn [app numbered after_fence].
    rewrite numbered_app, En, numbered_app, En2.
    cbn [app numbered].
    rewrite numbered_app, (numbered_texts _ _ _ (highlighted_comment_texts self)).
    apply numbered_texts, functions_list_texts.
Qed.

(** In every style each code line is written inside a fenced block, and
    the header, the summary, the call-outs and the trailers outside of
    one; a block is never opened inside another, and the last one is
    closed. *)
Theorem fenced_blocks_well_formed (self : formatter) (tokens : list token) :
  exists out,
    format_unencoded self tokens = Ok out
    /\ fence_state false out = Some false.
Proof.
  destruct (format_unencoded_structure self tokens) as [out [st [E [H _]]]].
  exists out. split; assumption.
Qed.

(** In every style the first line written is numbered [linenostart]; a
    line that follows another in the same fenced block carries the next
    number; and the first line of a block opened by a call-out carries
    the number of the line before it, or the next one.  So a number is
    repeated only across a call-out, and none is skipped. *)
Theorem line_numbers_step (self : formatter) (tokens : list token) :
  exists out st,
    format_unencoded self tokens = Ok out
    /\ numbered (linenostart self) NoLine out = Some st.
Proof.
  destruct (format_unencoded_structure self tokens) as [out [st [E [_ H]]]].
  exists out, st. split; assumption.
Qed.

Lemma line_numbers_step_witness :
  exists out,
    format_unencoded (Examples.with_style "callout") Examples.two_defs = Ok out
    /\ line_numbers out = [1%Z; 1%Z]
    /\ numbered 1 NoLine out = Some (LastLine 1 false).
Proof.
  destruct (line_numbers_step (Examples.with_style "callout") Examples.two_defs)
    as [out [st [E H]]].
  exists out. split; [exact E|].
  vm_compute in E. injection E as <-. split; reflexivity.
Defined.

(** ** The name in a function mark *)

Lemma split_char_whole (c : char) (s : string) :
  PyStr.has_char c s = false -> PyStr.split_char c s = [s].
Proof.
  induction s as [|x s IH]; [reflexivity|]. cbn.
  destruct (N.eqb x c); [discriminate|]. cbn.
  intros H. rewrite (IH H). reflexivity.
Qed.

Lemma tok_at_nth (tokens : list token) (i : nat) (t : token) :
  tok_at tokens i = Ok t -> nth_error tokens i = Some t.
Proof.
  unfold tok_at. destruct (nth_error tokens i); [|discriminate].
  intros H. injection H as ->. reflexivity.
Qed.

Lemma collect_line_tokens_of (tokens : list token) (line_number : Z)
    (lo hi : nat) :
  forall fuel i temp_line_num line_tokens r,
    lo <= i ->
    Forall (line_token_of tokens lo hi) line_tokens ->
    collect_line_tokens fuel tokens line_number hi i temp_line_num line_tokens
    = Ok r ->
    Forall (line_token_of tokens lo hi) r.
Proof.
  induction fuel as [|fuel IH]; intros i tl acc r Hlo Hacc; [discriminate|].
  cbn [collect_line_tokens].
  destruct (i <=? hi) eqn:Hhi; [|intros H; injection H as <-; exact Hacc].
  apply Nat.leb_le in Hhi.
  destruct (i <? length tokens) eqn:Hlen.
  2:{ apply IH; [lia | exact Hacc]. }
  destruct (tok_at tokens i) as [[ty value]| |] eqn:Et; cbn [bind];
    try discriminate.
  apply tok_at_nth in Et.
  assert (Hcut : Forall (line_token_of tokens lo hi)
                   (acc ++ [(ty, hd "" (PyStr.split_char PyStr.nl_char value))])).
  { apply Forall_app. split; [exact Hacc|]. constructor; [|constructor].
    exists i, value. cbn [fst snd].
    split; [lia|]. split; [exact Et | reflexivity]. }
  destruct (PyStr.has_char PyStr.nl_char value) eqn:Hnl.
  - assert (Hnew : Forall (line_token_of tokens lo hi)
                     (if (tl =? line_number)%Z
                      then acc ++ [(ty, hd "" (PyStr.split_char PyStr.nl_char value))]
                      else acc)).
    { destruct (tl =? line_number)%Z; assumption. }
    match goal with
    | |- context [if (?a >? ?b)%Z then Ok _ else _] => destruct (a >? b)%Z
    end.
    + intros H; injection H as <-; exact Hnew.
    + apply IH; [lia | exact Hnew].
  - apply IH; [lia|].
    destruct (tl =? line_number)%Z; [|exact Hacc].
    rewrite (split_char_whole _ _ Hnl) in Hcut. exact Hcut.
Qed.

Lemma first_identifier_spec (line_tokens : list token) :
  first_identifier line_tokens = ""
  \/ (PyStr.isidentifier (first_identifier line_tokens) = true
      /\ exists ty,
           In (ty, first_identifier line_tokens) line_tokens
           /\ ttype_in ty [Tok.Name .: "Function"; Tok.Name] = true).
Proof.
  induction line_tokens as [|[ty value] rest IH]; [left; reflexivity|].
  cbn [first_identifier].
  destruct (ttype_in ty [Tok.Name .: "Function"; Tok.Name]
            && PyStr.isidentifier value) eqn:E.
  - apply andb_true_iff in E as [Hty Hid]. right.
    split; [exact Hid|]. exists ty. split; [left; reflexivity | exact Hty].
  - destruct IH as [IH|[Hid [ty' [Hin Hty]]]]; [left; exact IH|].
    right. split; [exact Hid|]. exists ty'. split; [right; exact Hin | exact Hty].
Qed.

(** When [_write_line] marks a line as a function line, the name in the
    mark is empty or an identifier, and then it is the text, up to its
    first line break, of a token of type [Name.Function] or [Name] that
    lies at most ten tokens from [token_idx]: the mark never names
    anything that is not a name token near the line. *)
Theorem function_mark_names_token (self : formatter) (line_parts parts : list piece)
    (line_number number : Z) (numbered : bool) (tokens : list token)
    (token_idx : nat) (f : string) :
  _write_line self line_parts line_number (Some tokens) (Some token_idx)
  = Ok (CodeLine number numbered parts (FunctionMark f)) ->
  f = ""
  \/ (PyStr.isidentifier f = true
      /\ exists i ty value,
           token_idx - 10 <= i <= token_idx + 10
           /\ nth_error tokens i = Some (ty, value)
           /\ ttype_in ty [Tok.Name .: "Function"; Tok.Name] = true
           /\ f = hd "" (PyStr.split_char PyStr.nl_char value)).
Proof.
  unfold _write_line, function_line.
  destruct tokens as [|t0 tokens'].
  { cbn [bind andb].
    destruct (existsb (Z.eqb line_number) (hl_lines self)); discriminate. }
  set (tokens := t0 :: tokens').
  destruct (highlight_functions self
            && function_style_eqb (function_style self) emphasis) eqn:Hg.
  2:{ cbn [bind andb].
      destruct (existsb (Z.eqb line_number) (hl_lines self)); discriminate. }
  destruct (collect_line_tokens (S (length tokens)) tokens line_number
              (Nat.min (length tokens - 1) (token_idx + 10))
              (Nat.max 0 (token_idx - 10)) line_number [])
    as [line_tokens| |] eqn:Ec; cbn [bind]; try discriminate.
  apply (collect_line_tokens_of tokens line_number (Nat.max 0 (token_idx - 10)))
    in Ec; [|lia | constructor].
  destruct (existsb (PyStr.contains
                       (PyStr.strip (PyStr.join (map snd line_tokens))))
              line_keywords); cbn [bind andb].
  2:{ destruct (existsb (Z.eqb line_number) (hl_lines self)); discriminate. }
  destruct (function_style_eqb (function_style self) emphasis).
  2:{ destruct (existsb (Z.eqb line_number) (hl_lines self)); discriminate. }
  intros H. injection H as _ _ _ <-.
  destruct (first_identifier_spec line_tokens) as [He|[Hid [ty [Hin Hty]]]];
    [left; exact He | right].
  split; [exact Hid|].
  rewrite Forall_forall in Ec.
  destruct (Ec _ Hin) as [i [value [Hi [Hnth Hval]]]]. cbn [fst snd] in Hnth, Hval.
  exists i, ty, value. split; [lia|]. split; [exact Hnth|].
  split; [exact Hty | exact Hval].
Qed.

Lemma function_mark_names_token_witness :
  "café"%str = ""%str
  \/ (PyStr.isidentifier "café" = true
      /\ exists i ty value,
           7 - 10 <= i <= 7 + 10
           /\ nth_error Examples.def_cafe i = Some (ty, value)
           /\ ttype_in ty [Tok.Name .: "Function"; Tok.Name] = true
           /\ "café"%str = hd ""%str (PyStr.split_char PyStr.nl_char value)).
Proof.
  apply (function_mark_names_token (Examples.with_style "emphasis") [] []
           1%Z 1%Z false Examples.def_cafe 7 "café").
  vm_compute. reflexivity.
Defined.
